(** * Order / payment reconciliation core of the flower shop back end

    A shallow embedding of the services that keep orders, flower stock and
    payment transactions consistent:

    - [OrderService.createOrder], [OrderService.getOrderById] and
      [OrderService.updatePaymentStatus]           (src/unnamed/part_008, the
                                                    module './orderService')
    - [OrderItemService.createOrderItem]           (src/unnamed/part_009)
    - [PaymentService.createPaymentLink], [handlePaymentReturn] and
      [handlePaymentWebhook]                       (service/paymentService.js)
    - [PaymentTimeoutService.checkAndCancelExpiredPayments] and
      [cancelExpiredOrder]                         (service/paymentTimeoutService.js)
    - the [POST /payments/webhook] route           (routes/paymentRoutes.js)

    The repository holds three copies of [PaymentService].  The one embedded
    here is src/service/paymentService.js.  The file
    src/service/categoryService.js carries two more (lines 59-435 and
    436-780), which differ from it in [createPaymentLink] (they refuse an
    order that already has a [paymentCode], and their [catch] also unsets the
    [paymentCode]) and in [handlePaymentReturn] (their PAID branch answers
    'Payment already completed' for a completed Transaction); the webhook
    handler is the same wherever it is present.

    Modelling conventions.
    - A MongoDB collection is a finite map from [ObjectId] to documents.
    - JavaScript [Number]s that hold money, quantities and stock are modelled
      by [Z]; the model is exact on the integers a double represents exactly.
      The shipping fee of a request is a Number or a string, as the route
      admits both.
    - A string is the sequence of its UTF-8 bytes.
    - A [Date] is its number of milliseconds since the epoch, a [Z].
    - An [async] service method is a computation in the monad [M]: it threads
      the database and either returns a value or throws an [Error].  Writes
      made before a [throw] stay in the database unless a session transaction
      is aborted.
    - Values that come from outside the process (the clock, the random payment
      code, the gateway's answers, datastore faults) are parameters.  One
      service call reads the clock once: every [new Date()] and [Date.now()]
      inside it is the parameter [now]. *)

From stdpp Require Import gmap strings list fin_maps pretty sorting.
From Stdlib Require Import ZArith Lia Ascii.

Local Open Scope Z_scope.

(** ** Documents (models/*.js; the Order schema is src/unnamed/part_007) *)

Abbreviation ObjectId := positive.

(** [status] enum of the Order schema *)
Inductive OrderStatus :=
  | pending | paid | confirmed | shipped | delivered | cancelled.

(** [transactionStatus] enum of models/Transaction.js *)
Inductive TransactionStatus :=
  | tx_pending | tx_completed | tx_failed | tx_cancelled.

Global Instance OrderStatus_eq_dec : EqDecision OrderStatus.
Proof. solve_decision. Defined.

Global Instance TransactionStatus_eq_dec : EqDecision TransactionStatus.
Proof. solve_decision. Defined.

Record Account := mkAccount {
  fullName : string;
  email : string;
  phone : string;
}.

Record Flower := mkFlower {
  name : string;
  price : Z;
  stock : Z;
}.

(** [createdAt] (written once) is left out; [updatedAt] is kept because every
    [findByIdAndUpdate] on a schema with [timestamps: true] rewrites it. *)
Record Order := mkOrder {
  accountId : ObjectId;
  totalAmount : Z;
  shippingFee : Z;
  orderAt : Z;
  paidAt : option Z;
  status : OrderStatus;
  addressShip : string;
  transactionId : option ObjectId;
  paymentCode : option string;
  order_updatedAt : Z;
}.

Record OrderItem := mkOrderItem {
  flowerId : ObjectId;
  actualPrice : Z;
  quantity : Z;
  orderId : ObjectId;
}.

Record Transaction := mkTransaction {
  fromAccount : ObjectId;
  toAccount : ObjectId;
  transactionStatus : TransactionStatus;
  transactionDate : Z;
  amount : Z;
  tx_updatedAt : Z;
}.

(** The database: one finite map per collection. *)
Record DB := mkDB {
  accounts : gmap positive Account;
  flowers : gmap positive Flower;
  orders : gmap positive Order;
  orderItems : gmap positive OrderItem;
  transactions : gmap positive Transaction;
}.

Definition set_flowers (f : gmap positive Flower) (db : DB) : DB :=
  mkDB (accounts db) f (orders db) (orderItems db) (transactions db).
Definition set_orders (o : gmap positive Order) (db : DB) : DB :=
  mkDB (accounts db) (flowers db) o (orderItems db) (transactions db).
Definition set_orderItems (i : gmap positive OrderItem) (db : DB) : DB :=
  mkDB (accounts db) (flowers db) (orders db) i (transactions db).
Definition set_transactions (t : gmap positive Transaction) (db : DB) : DB :=
  mkDB (accounts db) (flowers db) (orders db) (orderItems db) t.

(** ** Document updates (the [$set] / [$inc] bodies of [findByIdAndUpdate]) *)

(** [{ $inc: { stock: d } }] *)
Definition inc_stock (d : Z) (f : Flower) : Flower :=
  mkFlower (name f) (price f) (stock f + d).

(** [{ transactionStatus: s }] *)
Definition with_transactionStatus (now : Z) (s : TransactionStatus) (t : Transaction)
  : Transaction :=
  mkTransaction (fromAccount t) (toAccount t) s (transactionDate t) (amount t) now.

(** [{ paidAt: new Date(), status: 'paid', transactionId }] *)
Definition with_payment_status (now : Z) (tid : ObjectId) (o : Order) : Order :=
  mkOrder (accountId o) (totalAmount o) (shippingFee o) (orderAt o) (Some now) paid
    (addressShip o) (Some tid) (paymentCode o) now.

(** [{ transactionId, paymentCode }] *)
Definition with_payment_link (now : Z) (tid : ObjectId) (code : string) (o : Order) : Order :=
  mkOrder (accountId o) (totalAmount o) (shippingFee o) (orderAt o) (paidAt o) (status o)
    (addressShip o) (Some tid) (Some code) now.

(** [{ status: 'cancelled' }] *)
Definition with_cancelled (now : Z) (o : Order) : Order :=
  mkOrder (accountId o) (totalAmount o) (shippingFee o) (orderAt o) (paidAt o) cancelled
    (addressShip o) (transactionId o) (paymentCode o) now.

(** ** Errors *)

(** The datastore operations of [createOrder] that can fail for reasons
    outside the program (network, write conflict, ...). *)
Inductive PersistStep :=
  | FindFlower (i : nat)      (* Flower.findById of the i-th line item *)
  | IncStock (i : nat)        (* Flower.findByIdAndUpdate of the i-th line item *)
  | SaveOrder                 (* order.save *)
  | InsertItems               (* OrderItem.insertMany *)
  | Commit                    (* session.commitTransaction *)
  | ReadBack.                 (* getOrderById after the commit *)

Inductive Error :=
  | FlowerNotFound (id : ObjectId)
  | NotEnoughStock (flower : string) (available requested : Z)
  | FlowerNotFoundItem
  | NotEnoughStockItem (available requested : Z)
  | OrderNotFound
  | OrderNotPending
  | OrderNotFoundForPaymentCode
  | InvalidWebhookSignature
  | PaymentLinkCreationFailed (cause : string)
  | ValidationError (path : string)
  | DuplicateKey (path : string)
  | TypeError (what : string)
  | DatastoreError (step : PersistStep)
  | TransactionCommitted
  | GatewayError (msg : string).

(** [error.message] *)
Definition message (e : Error) : string :=
  match e with
  | FlowerNotFound id => "Flower with ID " +:+ pretty (Npos id) +:+ " not found"
  | NotEnoughStock f a r =>
      "Not enough stock for flower " +:+ f +:+ ". Available: " +:+ pretty a
        +:+ ", Requested: " +:+ pretty r
  | FlowerNotFoundItem => "Flower not found"
  | NotEnoughStockItem a r =>
      "Not enough stock. Available: " +:+ pretty a +:+ ", Requested: " +:+ pretty r
  | OrderNotFound => "Order not found"
  | OrderNotPending => "Order is not in pending status"
  | OrderNotFoundForPaymentCode => "Order not found for payment code"
  | InvalidWebhookSignature => "Invalid webhook signature"
  | PaymentLinkCreationFailed c => "Payment link creation failed: " +:+ c
  | ValidationError p => "Validation failed: " +:+ p
  | DuplicateKey p => "E11000 duplicate key error: " +:+ p
  | TypeError w => "Cannot read properties of " +:+ w
  | DatastoreError _ => "datastore error"
  | TransactionCommitted =>
      "Cannot call abortTransaction after calling commitTransaction"
  | GatewayError m => m
  end.

(** ** The monad of service methods *)

Definition M (A : Type) : Type := DB → (Error + A) * DB.

Global Instance M_ret : MRet M := λ A (a : A) db, (inr a, db).
Global Instance M_bind : MBind M := λ A B (f : A → M B) (m : M A) db,
  match m db with
  | (inr a, db') => f a db'
  | (inl e, db') => (inl e, db')
  end.

Definition throw {A} (e : Error) : M A := λ db, (inl e, db).
Definition get : M DB := λ db, (inr db, db).
Definition modify (f : DB → DB) : M unit := λ db, (inr tt, f db).

Definition asserts (b : bool) (e : Error) : M unit :=
  if b then mret tt else throw e.

(** ** Collection primitives (the mongoose calls the services make) *)

(** [String.prototype.trim], applied by the schema option [trim: true].  A
    string is the sequence of its UTF-8 bytes.  The white space that [trim]
    strips is TAB, LF, VT, FF, CR and space (one byte each), U+00A0 (two
    bytes) and U+1680, U+2000..U+200A, U+2028, U+2029, U+202F, U+205F, U+3000
    and U+FEFF (three bytes each). *)
Definition charCode (c : Ascii.ascii) : N := N_of_ascii c.

Definition is_space (c : Ascii.ascii) : bool :=
  ((9 <=? charCode c) && (charCode c <=? 13) || (charCode c =? 32))%N.

Definition is_space2 (c d : Ascii.ascii) : bool :=
  ((charCode c =? 194) && (charCode d =? 160))%N.

Definition is_space3 (c d e : Ascii.ascii) : bool :=
  ((charCode c =? 225) && (charCode d =? 154) && (charCode e =? 128)
   || (charCode c =? 226) && (charCode d =? 128)
      && ((128 <=? charCode e) && (charCode e <=? 138) || (charCode e =? 168) || (charCode e =? 169)
          || (charCode e =? 175))
   || (charCode c =? 226) && (charCode d =? 129) && (charCode e =? 159)
   || (charCode c =? 227) && (charCode d =? 128) && (charCode e =? 128)
   || (charCode c =? 239) && (charCode d =? 187) && (charCode e =? 191))%N.

(** Strip the white space at the start. *)
Fixpoint ltrim (s : string) : string :=
  match s with
  | String c s1 =>
      if is_space c then ltrim s1
      else
        match s1 with
        | String d s2 =>
            if is_space2 c d then ltrim s2
            else
              match s2 with
              | String e s3 => if is_space3 c d e then ltrim s3 else s
              | EmptyString => s
              end
        | EmptyString => s
        end
  | EmptyString => EmptyString
  end.

(** The same on a reversed string, where the bytes of a character come last
    byte first. *)
Fixpoint ltrim_reversed (s : string) : string :=
  match s with
  | String c s1 =>
      if is_space c then ltrim_reversed s1
      else
        match s1 with
        | String d s2 =>
            if is_space2 d c then ltrim_reversed s2
            else
              match s2 with
              | String e s3 => if is_space3 e d c then ltrim_reversed s3 else s
              | EmptyString => s
              end
        | EmptyString => s
        end
  | EmptyString => EmptyString
  end.

Definition trim (s : string) : string :=
  String.rev (ltrim_reversed (String.rev (ltrim s))).

(** A new [ObjectId]: one that the collection does not hold yet. *)
Definition newId {A} (m : gmap positive A) : ObjectId := fresh (dom m).

Definition Flower_findById (id : ObjectId) : M (option Flower) :=
  λ db, (inr (flowers db !! id), db).

(** [Flower.findByIdAndUpdate(id, { $inc: { stock: d } })]: update operators
    run no schema validators, so [min: 0] is not checked here. *)
Definition Flower_incStock (id : ObjectId) (d : Z) : M unit :=
  modify (λ db,
    set_flowers (alter (inc_stock d) id (flowers db)) db).

Definition Order_findById (id : ObjectId) : M (option Order) :=
  λ db, (inr (orders db !! id), db).

(** [Model.find(filter)] as a list of [(_id, document)] pairs. *)
Definition find {A} (P : A → bool) (m : gmap positive A) : list (ObjectId * A) :=
  filter (λ kv, P kv.2) (map_to_list m).

(** [Model.findOne(filter)]: [null] is [None].  With several matches the
    one with the least [_id] is returned; the unique index on [paymentCode]
    leaves at most one match for the lookups made here. *)
Definition findOne {A} (P : A → bool) (m : gmap positive A) : option (ObjectId * A) :=
  head (find P m).

Definition Order_findOne_paymentCode (code : string) : M (option (ObjectId * Order)) :=
  λ db, (inr (findOne (λ o, bool_decide (paymentCode o = Some code)) (orders db)), db).

Definition Transaction_findById (id : option ObjectId) : M (option Transaction) :=
  λ db, (inr (id ≫= λ i, transactions db !! i), db).

(** [Transaction.findByIdAndUpdate(id, { transactionStatus })] *)
Definition Transaction_setStatus (now : Z) (id : ObjectId) (s : TransactionStatus) : M unit :=
  modify (λ db,
    set_transactions (alter (with_transactionStatus now s) id (transactions db)) db).

(** ** OrderService (src/unnamed/part_008) *)

(** A numeric field of a request body as the route lets it through: a JSON
    number, or a string ([isNumeric()] accepts numeric strings and the route
    does not convert them). *)
Inductive JsNumeric :=
  | JsNumber (z : Z)
  | JsString (s : string).

(** [a + b] for a Number [a]: addition when [b] is a Number; when [b] is a
    string, the decimal rendering of [a] followed by [b] (the rendering of an
    integer below 10^21 in absolute value is its decimal digits). *)
Definition js_plus (a : Z) (b : JsNumeric) : JsNumeric :=
  match b with
  | JsNumber z => JsNumber (a + z)
  | JsString s => JsString (pretty a +:+ s)
  end.

Definition digit (c : Ascii.ascii) : option Z :=
  if ((48 <=? charCode c) && (charCode c <=? 57))%N then Some (Z.of_N (charCode c) - 48) else None.

(** Read the decimal digits at the start of [s]: their value on top of
    [acc], whether there was one, and the rest of the string. *)
Fixpoint readDigits (s : string) (acc : Z) (seen : bool) : Z * bool * string :=
  match s with
  | String c s' =>
      match digit c with
      | Some d => readDigits s' (acc * 10 + d) true
      | None => (acc, seen, s)
      end
  | EmptyString => (acc, seen, EmptyString)
  end.

(** Digits, then possibly a point and digits, with a digit on one side at
    least.  The value is an integer when the digits after the point are all
    zero. *)
Definition parseUnsigned (s : string) : option Z :=
  let '(n, seenInt, rest) := readDigits s 0 false in
  match rest with
  | EmptyString => if seenInt then Some n else None
  | String c rest' =>
      if (charCode c =? 46)%N then
        let '(f, seenFrac, rest'') := readDigits rest' 0 false in
        if bool_decide (rest'' = "") && (seenInt || seenFrac) && (f =? 0)
        then Some n else None
      else None
  end.

(** [Number(s)]: white space around the literal is dropped, the empty
    literal is 0, a sign may come first.  [None] is NaN.  Amounts are
    integers throughout this development, so a literal with a fraction that
    is not zero has no value here and is read as [None] as well, and so are
    the exponent and radix-prefix forms and [Infinity], none of which passes
    the [isNumeric()] check of the route. *)
Definition parseNumber (s : string) : option Z :=
  match trim s with
  | EmptyString => Some 0
  | String c s' =>
      if (charCode c =? 45)%N then Z.opp <$> parseUnsigned s'
      else if (charCode c =? 43)%N then parseUnsigned s'
      else parseUnsigned (String c s')
  end.

(** The cast mongoose applies to a value set on a [Number] path: a number is
    kept, the empty string becomes [null], any other string goes through
    [Number].  [None] stands for [null] and for the cast error on NaN; on a
    [required] path both are reported when the document is validated. *)
Definition castNumber (v : JsNumeric) : option Z :=
  match v with
  | JsNumber z => Some z
  | JsString s => if bool_decide (s = "") then None else parseNumber s
  end.

Record OrderItemInput := mkItem {
  item_flowerId : ObjectId;
  item_quantity : Z;
}.

Record OrderData := mkOrderData {
  items : list OrderItemInput;
  data_addressShip : string;
  data_shippingFee : option JsNumeric;     (* [undefined] is [None] *)
}.

(** An element of the local array [orderItems], before [orderId] is known. *)
Record NewOrderItem := mkNewItem {
  new_flowerId : ObjectId;
  new_actualPrice : Z;
  new_quantity : Z;
}.

Record HydratedOrder := mkHydrated {
  h_id : ObjectId;
  h_order : Order;
  h_items : list (ObjectId * OrderItem);
}.

Definition getOrderById (id : ObjectId) : M HydratedOrder :=
  order ← Order_findById id;
  match order with
  | None => throw OrderNotFound
  | Some order =>
      db ← get;
      mret (mkHydrated id order
              (find (λ it, bool_decide (orderId it = id)) (orderItems db)))
  end.

(** [updatePaymentStatus(orderId, transactionId)] *)
Definition updatePaymentStatus (now : Z) (id transactionId' : ObjectId) : M unit :=
  order ← Order_findById id;
  match order with
  | None => throw OrderNotFound
  | Some _ =>
      modify (λ db,
        set_orders (alter (with_payment_status now transactionId') id (orders db)) db)
  end.

(** The loop [for (const item of items)] of [createOrder], run on the
    session's view of the database; [i] is the index of the next item. *)
Fixpoint reserveItems (faults : PersistStep → bool) (i : nat)
    (items : list OrderItemInput) (totalAmount : Z) (orderItems : list NewOrderItem)
  : M (Z * list NewOrderItem) :=
  match items with
  | [] => mret (totalAmount, orderItems)
  | item :: rest =>
      _ ← asserts (negb (faults (FindFlower i))) (DatastoreError (FindFlower i));
      flower ← Flower_findById (item_flowerId item);
      match flower with
      | None => throw (FlowerNotFound (item_flowerId item))
      | Some flower =>
          if stock flower <? item_quantity item then
            throw (NotEnoughStock (name flower) (stock flower) (item_quantity item))
          else
            let itemTotal := price flower * item_quantity item in
            _ ← asserts (negb (faults (IncStock i))) (DatastoreError (IncStock i));
            _ ← Flower_incStock (item_flowerId item) (- item_quantity item);
            reserveItems faults (S i) rest (totalAmount + itemTotal)
              (orderItems ++ [mkNewItem (item_flowerId item) (price flower)
                                (item_quantity item)])
      end
  end.

(** [order.save()]: schema validation ([min: 0], [required]; the [trim]
    setter ran when the document was built), then the insert under a new
    [_id]. *)
Definition Order_save (order : Order) : M ObjectId :=
  _ ← asserts (0 <=? totalAmount order) (ValidationError "totalAmount");
  _ ← asserts (0 <=? shippingFee order) (ValidationError "shippingFee");
  _ ← asserts (negb (bool_decide (addressShip order = ""))) (ValidationError "addressShip");
  db ← get;
  let id := newId (orders db) in
  _ ← modify (set_orders (<[id := order]> (orders db)));
  mret id.

(** [OrderItem.insertMany(docs)]: every document is validated
    ([quantity] has [min: 1]) before any is written. *)
Definition OrderItem_insertMany (docs : list OrderItem) : M unit :=
  _ ← asserts (forallb (λ d, 1 <=? quantity d) docs) (ValidationError "quantity");
  modify (λ db,
    set_orderItems
      (foldl (λ m d, <[newId m := d]> m) (orderItems db) docs) db).

(** The [try] block of [createOrder] up to and including the commit, on the
    session's view of the database. *)
Definition createOrder_session (faults : PersistStep → bool) (now : Z)
    (orderData : OrderData) (userId : ObjectId) : M ObjectId :=
  let shippingFee := default (JsNumber 0) (data_shippingFee orderData) in
  '(totalAmount, orderItems) ← reserveItems faults 0 (items orderData) 0 [];
  _ ← asserts (negb (faults SaveOrder)) (DatastoreError SaveOrder);
  (* new Order({ totalAmount: totalAmount + shippingFee, shippingFee, ... }):
     both values are cast to Number; a failed cast surfaces in save() *)
  match castNumber (js_plus totalAmount shippingFee), castNumber shippingFee with
  | None, _ => throw (ValidationError "totalAmount")
  | Some _, None => throw (ValidationError "shippingFee")
  | Some totalAmount', Some shippingFee' =>
      let order :=
        mkOrder userId totalAmount' shippingFee' now None pending
          (trim (data_addressShip orderData)) None None now in
      savedOrder ← Order_save order;
      let orderItemsWithOrderId :=
        map (λ it, mkOrderItem (new_flowerId it) (new_actualPrice it) (new_quantity it)
                     savedOrder) orderItems in
      _ ← asserts (negb (faults InsertItems)) (DatastoreError InsertItems);
      _ ← OrderItem_insertMany orderItemsWithOrderId;
      _ ← asserts (negb (faults Commit)) (DatastoreError Commit);
      mret savedOrder
  end.

(** [createOrder(orderData, userId)].  The session transaction makes the
    writes of the [try] block visible only when [commitTransaction] returns;
    [abortTransaction] in the [catch] discards them.  When the read-back after
    the commit throws, the [catch] calls [abortTransaction] on a committed
    transaction, which throws in turn and leaves the commit in place. *)
Definition createOrder (faults : PersistStep → bool) (now : Z)
    (orderData : OrderData) (userId : ObjectId) : M HydratedOrder :=
  λ db,
    match createOrder_session faults now orderData userId db with
    | (inr savedOrder, committed) =>
        if faults ReadBack then (inl TransactionCommitted, committed)
        else
          match getOrderById savedOrder committed with
          | (inr h, db') => (inr h, db')
          | (inl _, db') => (inl TransactionCommitted, db')
          end
    | (inl e, _) => (inl e, db)
    end.

(** ** OrderItemService.createOrderItem (src/unnamed/part_009) *)

Record OrderItemData := mkOrderItemData {
  oi_flowerId : ObjectId;
  oi_quantity : Z;
  oi_orderId : ObjectId;
}.

(** [orderItem.save()] *)
Definition OrderItem_save (doc : OrderItem) : M ObjectId :=
  _ ← asserts (1 <=? quantity doc) (ValidationError "quantity");
  db ← get;
  let id := newId (orderItems db) in
  _ ← modify (set_orderItems (<[id := doc]> (orderItems db)));
  mret id.

Definition OrderItem_findById (id : ObjectId) : M (option OrderItem) :=
  λ db, (inr (orderItems db !! id), db).

(** The method as one uninterrupted computation. *)
Definition createOrderItem (orderItemData : OrderItemData) : M (ObjectId * option OrderItem) :=
  let flowerId := oi_flowerId orderItemData in
  let quantity := oi_quantity orderItemData in
  let orderId := oi_orderId orderItemData in
  flower ← Flower_findById flowerId;
  match flower with
  | None => throw FlowerNotFoundItem
  | Some flower =>
      order ← Order_findById orderId;
      match order with
      | None => throw OrderNotFound
      | Some _ =>
          if stock flower <? quantity then
            throw (NotEnoughStockItem (stock flower) quantity)
          else
            savedOrderItem ← OrderItem_save (mkOrderItem flowerId (price flower) quantity orderId);
            _ ← Flower_incStock flowerId (- quantity);
            doc ← OrderItem_findById savedOrderItem;
            mret (savedOrderItem, doc)
      end
  end.

(** The same method cut at its [await]s: each datastore call is one atomic
    step, and between two steps other requests may run.  A task records how
    far a call has got and the locals it holds. *)
Inductive ItemTask :=
  | AtFindFlower (d : OrderItemData)
  | AtFindOrder (d : OrderItemData) (flower : Flower)
  | AtSave (d : OrderItemData) (flower : Flower)
  | AtIncStock (d : OrderItemData) (savedOrderItem : ObjectId)
  | AtReadBack (d : OrderItemData) (savedOrderItem : ObjectId)
  | Finished (d : OrderItemData) (r : Error + (ObjectId * option OrderItem)).

Definition item_step (t : ItemTask) (db : DB) : ItemTask * DB :=
  match t with
  | AtFindFlower d =>
      match flowers db !! oi_flowerId d with
      | None => (Finished d (inl FlowerNotFoundItem), db)
      | Some flower => (AtFindOrder d flower, db)
      end
  | AtFindOrder d flower =>
      match orders db !! oi_orderId d with
      | None => (Finished d (inl OrderNotFound), db)
      | Some _ =>
          if stock flower <? oi_quantity d then
            (Finished d (inl (NotEnoughStockItem (stock flower) (oi_quantity d))), db)
          else (AtSave d flower, db)
      end
  | AtSave d flower =>
      match OrderItem_save
              (mkOrderItem (oi_flowerId d) (price flower) (oi_quantity d) (oi_orderId d)) db with
      | (inr saved, db') => (AtIncStock d saved, db')
      | (inl e, db') => (Finished d (inl e), db')
      end
  | AtIncStock d saved =>
      (AtReadBack d saved, (Flower_incStock (oi_flowerId d) (- oi_quantity d) db).2)
  | AtReadBack d saved =>
      (Finished d (inr (saved, orderItems db !! saved)), db)
  | Finished d r => (Finished d r, db)
  end.

(** A schedule names, step by step, which of the concurrent calls runs next. *)
Fixpoint run_schedule (schedule : list nat) (tasks : list ItemTask) (db : DB)
  : list ItemTask * DB :=
  match schedule with
  | [] => (tasks, db)
  | i :: schedule' =>
      match tasks !! i with
      | None => run_schedule schedule' tasks db
      | Some t =>
          let '(t', db') := item_step t db in
          run_schedule schedule' (<[i := t']> tasks) db'
      end
  end.

(** Units of stock handed out to the calls that returned normally. *)
Definition reserved (tasks : list ItemTask) : Z :=
  foldr (λ t acc,
    match t with
    | Finished d (inr _) => oi_quantity d + acc
    | _ => acc
    end) 0 tasks.

(** Calls made one after another, each running to its end before the next. *)
Fixpoint createOrderItems_seq (ds : list OrderItemData) (db : DB)
  : list (Error + (ObjectId * option OrderItem)) * DB :=
  match ds with
  | [] => ([], db)
  | d :: ds' =>
      let '(r, db') := createOrderItem d db in
      let '(rs, db'') := createOrderItems_seq ds' db' in
      (r :: rs, db'')
  end.

Definition reserved_seq (ds : list OrderItemData)
    (rs : list (Error + (ObjectId * option OrderItem))) : Z :=
  foldr (λ dr acc,
    match dr.2 with
    | inr _ => oi_quantity dr.1 + acc
    | inl _ => acc
    end) 0 (zip ds rs).

Definition stockOf (db : DB) (id : ObjectId) : Z :=
  from_option stock 0 (flowers db !! id).

(** ** PaymentService (service/paymentService.js) *)

Record PaymentItem := mkPaymentItem {
  pi_name : string;
  pi_quantity : Z;
  pi_price : Z;
}.

Record PaymentData := mkPaymentData {
  pd_orderCode : Z;
  pd_amount : Z;
  pd_description : string;
  pd_items : list PaymentItem;
  pd_returnUrl : string;
  pd_cancelUrl : string;
  pd_buyerName : string;
  pd_buyerEmail : string;
  pd_buyerPhone : string;
}.

Record PaymentLinkResponse := mkLinkResponse {
  checkoutUrl : string;
  qrCode : string;
  paymentLinkId : string;
}.

Record WebhookData := mkWebhook {
  wh_orderCode : option string;
  wh_status : option string;
  wh_amount : Z;
  wh_description : string;
  wh_signature : string;
}.

(** The gateway client [this.payOS]: an external collaborator.  A call either
    returns or throws an error with the given message. *)
Record PayOS := mkPayOS {
  payOS_createPaymentLink : PaymentData → string + PaymentLinkResponse;
  payOS_verifyPaymentWebhookData : WebhookData → string + bool;
}.

(** [process.env] *)
Record Env := mkEnv {
  FRONTEND_URL : string;
  SYSTEM_ACCOUNT_ID : ObjectId;
}.

Record CreateOrderPaymentData := mkLinkRequest {
  req_orderId : ObjectId;
  req_returnUrl : option string;
  req_cancelUrl : option string;
}.

Record PaymentLink := mkPaymentLink {
  pl_checkoutUrl : string;
  pl_paymentCode : Z;
  pl_transactionId : ObjectId;
  pl_orderId : ObjectId;
  pl_amount : Z;
  pl_qrCode : string;
  pl_paymentLinkId : string;
}.

(** [generateUniquePaymentCode()]: the last six digits of [Date.now()]
    followed by [Math.floor(Math.random() * 1000)] padded to three digits,
    read back as a number. *)
Definition generateUniquePaymentCode (now randomNum : Z) : Z :=
  (now mod 1000000) * 1000 + randomNum.

(** [a || b] on an optional string: [undefined] and the empty string are falsy. *)
Definition or_default (a : option string) (b : string) : string :=
  match a with
  | Some s => if bool_decide (s = "") then b else s
  | None => b
  end.

(** [transaction.save()] *)
Definition Transaction_save (t : Transaction) : M ObjectId :=
  _ ← asserts (0 <=? amount t) (ValidationError "amount");
  db ← get;
  let id := newId (transactions db) in
  _ ← modify (set_transactions (<[id := t]> (transactions db)));
  mret id.

(** [Order.findByIdAndUpdate(orderId, { transactionId, paymentCode })]; the
    index on [paymentCode] is [unique] and [sparse]: the write is refused when
    another order holds the code. *)
Definition paymentCodeFree (db : DB) (id : ObjectId) (code : string) : bool :=
  forallb (λ other : ObjectId * Order, bool_decide (other.1 = id))
    (find (λ o, bool_decide (paymentCode o = Some code)) (orders db)).

Definition Order_setPayment (now : Z) (id tid : ObjectId) (code : string) : M unit :=
  db ← get;
  _ ← asserts (paymentCodeFree db id code) (DuplicateKey "paymentCode");
  modify (λ db,
    set_orders (alter (with_payment_link now tid code) id (orders db)) db).

(** [orderItems.map(item => ({ name: item.flowerId.name, ... }))] over the
    populated items: a deleted flower populates as [null]. *)
Fixpoint paymentItems (db : DB) (its : list (ObjectId * OrderItem)) : Error + list PaymentItem :=
  match its with
  | [] => inr []
  | (_, it) :: rest =>
      match flowers db !! flowerId it with
      | None => inl (TypeError "null (reading 'name')")
      | Some f =>
          match paymentItems db rest with
          | inl e => inl e
          | inr l => inr (mkPaymentItem (name f) (quantity it) (actualPrice it * 100) :: l)
          end
      end
  end.

Definition createPaymentLink (payOS : PayOS) (env : Env) (now randomNum : Z)
    (orderData : CreateOrderPaymentData) : M PaymentLink :=
  let id := req_orderId orderData in
  order ← Order_findById id;
  match order with
  | None => throw OrderNotFound
  | Some order =>
      if negb (bool_decide (status order = pending)) then throw OrderNotPending
      else
        let orderCode := generateUniquePaymentCode now randomNum in
        db ← get;
        let orderItems := find (λ it, bool_decide (orderId it = id)) (orderItems db) in
        match paymentItems db orderItems with
        | inl e => throw e
        | inr items =>
            match accounts db !! accountId order with
            | None => throw (TypeError "null (reading 'fullName')")
            | Some account =>
                let paymentData :=
                  mkPaymentData orderCode (totalAmount order * 100)
                    ("#" +:+ pretty (Npos id)) items
                    (or_default (req_returnUrl orderData) (FRONTEND_URL env +:+ "/payment/success"))
                    (or_default (req_cancelUrl orderData) (FRONTEND_URL env +:+ "/payment/cancel"))
                    (fullName account) (email account) (phone account) in
                let transaction :=
                  mkTransaction (accountId order) (SYSTEM_ACCOUNT_ID env) tx_pending now
                    (totalAmount order) now in
                savedTransaction ← Transaction_save transaction;
                _ ← Order_setPayment now id savedTransaction (pretty orderCode);
                match payOS_createPaymentLink payOS paymentData with
                | inr paymentLinkResponse =>
                    mret (mkPaymentLink (checkoutUrl paymentLinkResponse) orderCode
                            savedTransaction id (pd_amount paymentData / 100)
                            (qrCode paymentLinkResponse) (paymentLinkId paymentLinkResponse))
                | inl error_message =>
                    _ ← Transaction_setStatus now savedTransaction tx_failed;
                    throw (PaymentLinkCreationFailed error_message)
                end
            end
        end
  end.

(** The query string of the redirect; an absent parameter is [None]. *)
Record QueryParams := mkQuery {
  q_code : option string;
  q_id : option string;
  q_cancel : option string;
  q_status : option string;
  q_orderCode : option string;
}.

Record ReturnResult := mkResult {
  r_success : bool;
  r_message : string;
  r_orderCode : string;
  r_orderId : ObjectId;
  r_status : option string;          (* absent in the default result *)
}.

Definition handlePaymentReturn (now : Z) (queryParams : QueryParams) : M ReturnResult :=
  match q_orderCode queryParams with
  | None => throw (TypeError "undefined (reading 'toString')")
  | Some orderCode =>
      order ← Order_findOne_paymentCode orderCode;
      match order with
      | None => throw OrderNotFoundForPaymentCode
      | Some (order_id, order) =>
          let result := mkResult false "Payment failed" orderCode order_id None in
          if bool_decide (q_code queryParams = Some "00")
             && bool_decide (q_status queryParams = Some "PAID") then
            transaction ← Transaction_findById (transactionId order);
            match transaction, transactionId order with
            | Some _, Some transaction_id =>
                _ ← Transaction_setStatus now transaction_id tx_completed;
                _ ← updatePaymentStatus now order_id transaction_id;
                mret (mkResult true "Payment successful" orderCode order_id (Some "PAID"))
            | _, _ => mret result
            end
          else if bool_decide (q_cancel queryParams = Some "true") then
            transaction ← Transaction_findById (transactionId order);
            _ ← match transaction, transactionId order with
                | Some _, Some transaction_id =>
                    Transaction_setStatus now transaction_id tx_cancelled
                | _, _ => mret tt
                end;
            mret (mkResult false "Payment cancelled" orderCode order_id (Some "CANCELLED"))
          else mret result
      end
  end.

Record WebhookResult := mkWebhookResult {
  w_success : bool;
  w_message : string;
  w_orderCode : string;
  w_status : TransactionStatus;
}.

Definition handlePaymentWebhook (payOS : PayOS) (now : Z) (webhookData : WebhookData)
  : M WebhookResult :=
  match payOS_verifyPaymentWebhookData payOS webhookData with
  | inl error_message => throw (GatewayError error_message)
  | inr false => throw InvalidWebhookSignature
  | inr true =>
      match wh_orderCode webhookData with
      | None => throw (TypeError "undefined (reading 'toString')")
      | Some orderCode =>
          order ← Order_findOne_paymentCode orderCode;
          match order with
          | None => throw OrderNotFoundForPaymentCode
          | Some (order_id, order) =>
              transaction ← Transaction_findById (transactionId order);
              match transaction, transactionId order with
              | Some transaction, Some transaction_id =>
                  transactionStatus' ←
                    (if bool_decide (wh_status webhookData = Some "PAID") then
                       _ ← updatePaymentStatus now order_id transaction_id;
                       mret tx_completed
                     else if bool_decide (wh_status webhookData = Some "CANCELLED") then
                       mret tx_cancelled
                     else mret tx_failed);
                  _ ← Transaction_setStatus now transaction_id transactionStatus';
                  mret (mkWebhookResult true "Webhook processed successfully" orderCode
                          (transactionStatus transaction))
              | _, _ => throw (TypeError "null (reading 'transactionStatus')")
              end
          end
      end
  end.

(** ** POST /payments/webhook (routes/paymentRoutes.js) *)

Record JsonBody := mkBody {
  body_success : bool;
  body_message : string;
  body_data : option (string * TransactionStatus);   (* [{ orderCode, status }] *)
}.

Record HttpResponse := mkResponse {
  http_status : Z;
  http_json : JsonBody;
}.

Definition post_payments_webhook (payOS : PayOS) (now : Z) (body : WebhookData) (db : DB)
  : HttpResponse * DB :=
  match handlePaymentWebhook payOS now body db with
  | (inr result, db') =>
      (mkResponse 200
         (mkBody true (w_message result) (Some (w_orderCode result, w_status result))), db')
  | (inl error, db') =>
      (mkResponse 400 (mkBody false (message error) None), db')
  end.

(** ** PaymentTimeoutService (service/paymentTimeoutService.js) *)

Definition PAYMENT_TIMEOUT_MINUTES : Z := 10.

Definition timeoutThreshold (now : Z) : Z :=
  now - PAYMENT_TIMEOUT_MINUTES * 60 * 1000.

(** The filter of [Order.find] in [checkAndCancelExpiredPayments]. *)
Definition expired (now : Z) (o : Order) : bool :=
  bool_decide (status o = pending)
  && bool_decide (is_Some (paymentCode o))
  && (orderAt o <? timeoutThreshold now).

Definition findExpiredOrders (now : Z) (db : DB) : list (ObjectId * Order) :=
  find (expired now) (orders db).

(** [cancelExpiredOrder(order)]: [order] is the document as the query
    returned it; both updates select by [_id] alone. *)
Definition cancelExpiredOrder (now : Z) (order : ObjectId * Order) (db : DB) : DB :=
  let db1 := set_orders (alter (with_cancelled now) order.1 (orders db)) db in
  match transactionId order.2 with
  | Some tid => (Transaction_setStatus now tid tx_cancelled db1).2
  | None => db1
  end.

(** The loop [for (const order of expiredOrders)]. *)
Definition cancelExpiredOrders (now : Z) (expiredOrders : list (ObjectId * Order)) (db : DB) : DB :=
  foldl (λ db order, cancelExpiredOrder now order db) db expiredOrders.

Definition checkAndCancelExpiredPayments (now : Z) (db : DB) : DB :=
  cancelExpiredOrders now (findExpiredOrders now db) db.

(** ** Quantities the statements below speak about *)

Definition priceOf (db : DB) (id : ObjectId) : Z :=
  from_option price 0 (flowers db !! id).

(** Sum over the line items of (unit price in [db]) * quantity. *)
Definition lineTotal (db : DB) (items : list OrderItemInput) : Z :=
  foldr (λ it acc, priceOf db (item_flowerId it) * item_quantity it + acc) 0 items.

(** Units of flower [f] that the line items ask for. *)
Definition requested (f : ObjectId) (items : list OrderItemInput) : Z :=
  foldr (λ it acc, if decide (item_flowerId it = f) then item_quantity it + acc else acc)
    0 items.

(** A line item cannot be reserved from [db]. *)
Definition reservationFails (db : DB) (item : OrderItemInput) : Prop :=
  flowers db !! item_flowerId item = None
  ∨ stockOf db (item_flowerId item) < item_quantity item.

(** The line items ask, together, for more of a flower than [db] has. *)
Definition demandExceedsStock (db : DB) (items : list OrderItemInput)
    (item : OrderItemInput) : Prop :=
  stockOf db (item_flowerId item) < requested (item_flowerId item) items.

(** One of the datastore operations of [createOrder] up to the commit fails. *)
Definition persistenceFails (faults : PersistStep → bool) (orderData : OrderData) : Prop :=
  (∃ i, (i < length (items orderData))%nat
        ∧ (faults (FindFlower i) = true ∨ faults (IncStock i) = true))
  ∨ faults SaveOrder = true ∨ faults InsertItems = true ∨ faults Commit = true.

Definition no_faults : PersistStep → bool := λ _, false.

(** The document [createOrder] hands to [order.save()], given the values the
    casts of [totalAmount + shippingFee] and of [shippingFee] produce. *)
Definition newOrder (now : Z) (orderData : OrderData) (userId : ObjectId)
    (total fee : Z) : Order :=
  mkOrder userId total fee now None pending (trim (data_addressShip orderData)) None None now.

(** The shipping fee when it is absent or a JSON number. *)
Definition numericFee (orderData : OrderData) : option Z :=
  match data_shippingFee orderData with
  | None => Some 0
  | Some (JsNumber z) => Some z
  | Some (JsString _) => None
  end.

(** ** Sample data *)

Definition shop : DB :=
  mkDB {[ 1%positive := mkAccount "An" "an@example.com" "0900000000" ]}
       {[ 1%positive := mkFlower "rose" 75000 5; 2%positive := mkFlower "lily" 20000 0 ]}
       ∅ ∅ ∅.

(** One tulip left, and an open order to attach items to. *)
Definition lastTulip : DB :=
  mkDB {[ 1%positive := mkAccount "An" "an@example.com" "0900000000" ]}
       {[ 3%positive := mkFlower "tulip" 30000 1 ]}
       {[ 1%positive := mkOrder 1 0 0 1000 None pending "12 Hang Bong" None None 1000 ]}
       ∅ ∅.

(** A gateway that accepts every link request and every webhook, and one
    whose link creation is down. *)
Definition gatewayUp : PayOS :=
  mkPayOS (λ _, inr (mkLinkResponse "https://pay.example/checkout" "QR" "link-1"))
          (λ _, inr true).

Definition gatewayDown : PayOS :=
  mkPayOS (λ _, inl "ECONNREFUSED") (λ _, inr true).

(** A gateway client that rejects the signature of every webhook. *)
Definition gatewayRejecting : PayOS :=
  mkPayOS (λ _, inl "ECONNREFUSED") (λ _, inr false).

Definition env0 : Env := mkEnv "https://shop.example" 9.

(** Order 1 was created at time 1000 and waits for payment under the code
    "123456"; its transaction 1 is [pending]. *)
Definition awaitingPayment : DB :=
  mkDB {[ 1%positive := mkAccount "An" "an@example.com" "0900000000" ]}
       {[ 1%positive := mkFlower "rose" 75000 3 ]}
       {[ 1%positive := mkOrder 1 150000 0 1000 None pending "12 Hang Bong"
                          (Some 1%positive) (Some "123456") 1500 ]}
       {[ 1%positive := mkOrderItem 1 75000 2 1 ]}
       {[ 1%positive := mkTransaction 1 9 tx_pending 1500 150000 1500 ]}.

Definition paidRedirect : QueryParams :=
  mkQuery (Some "00") (Some "link-1") (Some "false") (Some "PAID") (Some "123456").

Definition cancelRedirect : QueryParams :=
  mkQuery (Some "00") (Some "link-1") (Some "true") (Some "CANCELLED") (Some "123456").

Definition paidWebhook : WebhookData :=
  mkWebhook (Some "123456") (Some "PAID") 15000000 "#1" "sig".

Definition cancelledWebhook : WebhookData :=
  mkWebhook (Some "123456") (Some "CANCELLED") 15000000 "#1" "sig".

(** The state after the success redirect was handled once, at time 2000. *)
Definition afterPaid : DB := (handlePaymentReturn 2000 paidRedirect awaitingPayment).2.

(** The [paymentData] object [createPaymentLink] sends to the gateway. *)
Definition paymentDataOf (env : Env) (now randomNum : Z) (orderData : CreateOrderPaymentData)
    (order : Order) (account : Account) (items : list PaymentItem) : PaymentData :=
  mkPaymentData (generateUniquePaymentCode now randomNum) (totalAmount order * 100)
    ("#" +:+ pretty (Npos (req_orderId orderData))) items
    (or_default (req_returnUrl orderData) (FRONTEND_URL env +:+ "/payment/success"))
    (or_default (req_cancelUrl orderData) (FRONTEND_URL env +:+ "/payment/cancel"))
    (fullName account) (email account) (phone account).

(** The status a webhook writes to the transaction, by its [status] field. *)
Definition webhookStatus (status : option string) : TransactionStatus :=
  if bool_decide (status = Some "PAID") then tx_completed
  else if bool_decide (status = Some "CANCELLED") then tx_cancelled
  else tx_failed.

(** Lookup of an order by payment code, as [Order.findOne] does it. *)
Definition orderByCode (db : DB) (code : string) : option (ObjectId * Order) :=
  findOne (λ o, bool_decide (paymentCode o = Some code)) (orders db).

(** The [pending] Transaction [createPaymentLink] saves. *)
Definition pendingTransaction (env : Env) (now : Z) (order : Order) : Transaction :=
  mkTransaction (accountId order) (SYSTEM_ACCOUNT_ID env) tx_pending now (totalAmount order) now.

(** The items of an order, as [OrderItem.find({ orderId })] returns them. *)
Definition itemsOf (db : DB) (id : ObjectId) : list (ObjectId * OrderItem) :=
  find (λ it, bool_decide (orderId it = id)) (orderItems db).

(** The shop right after an order for two roses was created at time 1000,
    and the request for its payment link. *)
Definition justOrdered : DB :=
  (createOrder no_faults 1000 (mkOrderData [mkItem 1 2] "12 Hang Bong" None) 1 shop).2.

Definition linkRequest : CreateOrderPaymentData := mkLinkRequest 1 None None.

(** Eleven minutes after order 1 was placed. *)
Definition elevenMinutesLater : Z := 1000 + 11 * 60 * 1000.

(** What one reaper tick does to an order document. *)
Definition reaped (now : Z) (o : Order) : Order :=
  if expired now o then with_cancelled now o else o.

(** A webhook whose gateway signature is wrong, and an order whose
    [transactionId] was never set. *)
Definition unlinkedOrder : DB :=
  mkDB {[ 1%positive := mkAccount "An" "an@example.com" "0900000000" ]}
       {[ 1%positive := mkFlower "rose" 75000 3 ]}
       {[ 1%positive := mkOrder 1 150000 0 1000 None pending "12 Hang Bong"
                          None (Some "123456") 1500 ]}
       ∅ ∅.

(** ** OrderItemService: [updateOrderItem] and [deleteOrderItem]
       (service/orderItemService.js) *)

(** The errors these two methods throw, by their messages. *)
Inductive ItemError :=
  | OrderItemNotFound
  | CannotModifyOrderItem
  | CannotDeleteOrderItem
  | OnlyQuantityUpdates
  | ItemFlowerNotFound
  | NotEnoughStockAdditional (available needed : Z)
  | NullOrder.                   (* [order.status] read on [null] *)

Definition item_message (e : ItemError) : string :=
  match e with
  | OrderItemNotFound => "Order item not found"
  | CannotModifyOrderItem => "Cannot modify order item. Order is no longer pending"
  | CannotDeleteOrderItem => "Cannot delete order item. Order is no longer pending"
  | OnlyQuantityUpdates => "Only quantity updates are allowed"
  | ItemFlowerNotFound => "Flower not found"
  | NotEnoughStockAdditional a n =>
      "Not enough stock. Available: " +:+ pretty a +:+ ", Additional needed: " +:+ pretty n
  | NullOrder => "Cannot read properties of null (reading 'status')"
  end.

(** [{ quantity: newQuantity }] *)
Definition with_quantity (q : Z) (it : OrderItem) : OrderItem :=
  mkOrderItem (flowerId it) (actualPrice it) q (orderId it).

(** [{ $inc: { totalAmount: d } }] *)
Definition inc_totalAmount (now d : Z) (o : Order) : Order :=
  mkOrder (accountId o) (totalAmount o + d) (shippingFee o) (orderAt o) (paidAt o) (status o)
    (addressShip o) (transactionId o) (paymentCode o) now.

(** The [try] block of [updateOrderItem] on the session's view of the
    database.  [updateData.quantity] absent is [None]; [!updateData.quantity]
    also holds for 0. *)
Definition updateOrderItem_session (now : Z) (orderItemId : ObjectId)
    (updateData_quantity : option Z) (db : DB) : (ItemError + OrderItem) * DB :=
  match orderItems db !! orderItemId with
  | None => (inl OrderItemNotFound, db)
  | Some orderItem =>
      match orders db !! orderId orderItem with
      | None => (inl NullOrder, db)
      | Some order =>
          if negb (bool_decide (status order = pending)) then (inl CannotModifyOrderItem, db)
          else
            match updateData_quantity with
            | None => (inl OnlyQuantityUpdates, db)
            | Some newQuantity =>
                if bool_decide (newQuantity = 0) then (inl OnlyQuantityUpdates, db)
                else
                  let oldQuantity := quantity orderItem in
                  let quantityDiff := newQuantity - oldQuantity in
                  match flowers db !! flowerId orderItem with
                  | None => (inl ItemFlowerNotFound, db)
                  | Some flower =>
                      if (0 <? quantityDiff) && (stock flower <? quantityDiff) then
                        (inl (NotEnoughStockAdditional (stock flower) quantityDiff), db)
                      else
                        let db1 := (Flower_incStock (flowerId orderItem) (- quantityDiff) db).2 in
                        let db2 :=
                          set_orderItems
                            (alter (with_quantity newQuantity) orderItemId (orderItems db1)) db1 in
                        let amountDiff := actualPrice orderItem * quantityDiff in
                        let db3 :=
                          set_orders
                            (alter (inc_totalAmount now amountDiff) (orderId orderItem)
                               (orders db2)) db2 in
                        (inr (with_quantity newQuantity orderItem), db3)
                  end
            end
      end
  end.

(** [updateOrderItem(orderItemId, updateData)]: commit on return, abort on
    throw. *)
Definition updateOrderItem (now : Z) (orderItemId : ObjectId)
    (updateData_quantity : option Z) (db : DB) : (ItemError + OrderItem) * DB :=
  match updateOrderItem_session now orderItemId updateData_quantity db with
  | (inr updatedOrderItem, committed) => (inr updatedOrderItem, committed)
  | (inl e, _) => (inl e, db)
  end.

(** [deleteOrderItem(orderItemId)]; no session here. *)
Definition deleteOrderItem (orderItemId : ObjectId) (db : DB) : (ItemError + string) * DB :=
  match orderItems db !! orderItemId with
  | None => (inl OrderItemNotFound, db)
  | Some orderItem =>
      match orders db !! orderId orderItem with
      | None => (inl NullOrder, db)
      | Some order =>
          if negb (bool_decide (status order = pending)) then (inl CannotDeleteOrderItem, db)
          else
            let db1 := (Flower_incStock (flowerId orderItem) (quantity orderItem) db).2 in
            (inr "Order item deleted successfully",
             set_orderItems (delete orderItemId (orderItems db1)) db1)
      end
  end.

(** ** PaymentService.cancelPaymentLink (service/paymentService.js) *)

(** [cancelPaymentLink(paymentCode, reason = 'Customer request')].  The
    gateway call [this.payOS.cancelPaymentLink] is the parameter
    [payOS_cancelPaymentLink]: it returns the gateway's answer or throws an
    error with the given message. *)
Definition cancelPaymentLink {R} (payOS_cancelPaymentLink : string → string → string + R)
    (now : Z) (paymentCode' : string) (reason : option string) : M R :=
  match payOS_cancelPaymentLink paymentCode' (default "Customer request" reason) with
  | inl error_message => throw (GatewayError ("Failed to cancel payment: " +:+ error_message))
  | inr cancelResult =>
      order ← Order_findOne_paymentCode paymentCode';
      _ ← match order with
          | Some (_, order) =>
              match transactionId order with
              | Some tid => Transaction_setStatus now tid tx_cancelled
              | None => mret tt
              end
          | None => mret tt
          end;
      mret cancelResult
  end.

(** ** OrderService.getOrders and getUserOrders (src/unnamed/part_008) *)

(** The strings of the [status] enum. *)
Definition statusName (s : OrderStatus) : string :=
  match s with
  | pending => "pending"
  | paid => "paid"
  | confirmed => "confirmed"
  | shipped => "shipped"
  | delivered => "delivered"
  | cancelled => "cancelled"
  end.

Definition validStatuses : list string :=
  ["pending"; "paid"; "confirmed"; "shipped"; "delivered"; "cancelled"].

(** [filters]: an absent field is [None]; the dates are given as the
    instants [new Date(...)] yields. *)
Record OrderFilters := mkFilters {
  filter_status : option string;
  filter_startDate : option Z;
  filter_endDate : option Z;
}.

(** The [query] object [getOrders] builds, as a predicate on documents.  An
    empty status string is falsy; a status outside the enum is dropped. *)
Definition ordersQuery (filters : OrderFilters) (userId : option ObjectId) (o : Order) : bool :=
  match userId with
  | Some uid => bool_decide (accountId o = uid)
  | None => true
  end
  && match filter_status filters with
     | Some s =>
         if bool_decide (s = "") then true
         else if bool_decide (s ∈ validStatuses) then bool_decide (statusName (status o) = s)
         else true
     | None => true
     end
  && match filter_startDate filters with
     | Some d => d <=? orderAt o
     | None => true
     end
  && match filter_endDate filters with
     | Some d => orderAt o <=? d
     | None => true
     end.

(** [.sort({ orderAt: -1 })] *)
Definition newerFirst (a b : ObjectId * Order) : Prop := orderAt b.2 ≤ orderAt a.2.

Global Instance newerFirst_dec a b : Decision (newerFirst a b).
Proof. unfold newerFirst. apply _. Defined.

Global Instance newerFirst_total : Total newerFirst.
Proof. intros a b. unfold newerFirst. lia. Defined.

Global Instance newerFirst_trans : Transitive newerFirst.
Proof. intros a b c. unfold newerFirst. lia. Defined.

Definition getOrders (filters : OrderFilters) (userId : option ObjectId) (db : DB)
  : list (ObjectId * Order) :=
  merge_sort newerFirst (find (ordersQuery filters userId) (orders db)).

Definition getUserOrders (userId : ObjectId) (db : DB) : list (ObjectId * Order) :=
  getOrders (mkFilters None None None) (Some userId) db.

(** ** Several reaper ticks, one after another *)

Definition runTicks (times : list Z) (db : DB) : DB :=
  foldl (λ db now, checkAndCancelExpiredPayments now db) db times.

(** The documents [createOrder] hands to [OrderItem.insertMany]. *)
Definition newOrderItems (db : DB) (items : list OrderItemInput) (id : ObjectId)
  : list OrderItem :=
  map (λ it, mkOrderItem (item_flowerId it) (priceOf db (item_flowerId it))
               (item_quantity it) id) items.

(** The three writes of a successful [updateOrderItem]: stock, item, order. *)
Definition applyQuantityChange (now : Z) (id : ObjectId) (item : OrderItem) (newQuantity : Z)
    (db : DB) : DB :=
  set_orders
    (alter (inc_totalAmount now (actualPrice item * (newQuantity - quantity item)))
       (orderId item) (orders db))
    (set_orderItems (alter (with_quantity newQuantity) id (orderItems db))
       (set_flowers
          (alter (inc_stock (- (newQuantity - quantity item))) (flowerId item) (flowers db))
          db)).

(** At most the order [id] carries the payment code: what the unique index
    on [paymentCode] guarantees. *)
Definition codeUnique (db : DB) (code : string) (id : ObjectId) : Prop :=
  ∀ id' o', orders db !! id' = Some o' → paymentCode o' = Some code → id' = id.

(** A gateway cancellation that succeeds, and one that fails. *)
Definition cancelOk : string → string → string + string := λ _ reason, inr reason.
Definition cancelDown : string → string → string + string := λ _ _, inl "ETIMEDOUT".

(** Order 1 waits for its first payment link while order 2 already carries
    the code "2000007". *)
Definition codeTaken : DB :=
  mkDB {[ 1%positive := mkAccount "An" "an@example.com" "0900000000" ]}
       {[ 1%positive := mkFlower "rose" 75000 3 ]}
       {[ 1%positive := mkOrder 1 150000 0 1000 None pending "12 Hang Bong" None None 1000;
          2%positive := mkOrder 1 75000 0 900 None pending "12 Hang Bong"
                          (Some 1%positive) (Some "2000007") 950 ]}
       {[ 1%positive := mkOrderItem 1 75000 2 1 ]}
       {[ 1%positive := mkTransaction 1 9 tx_pending 950 75000 950 ]}.

(** Units of flower [f] held by the stored order items. *)
Definition unitsOf (f : ObjectId) (it : OrderItem) : Z :=
  if decide (flowerId it = f) then quantity it else 0.

Definition heldIn (m : gmap positive OrderItem) (f : ObjectId) : Z :=
  foldr Z.add 0 (unitsOf f <$> (map_to_list m).*2).

Definition unitsHeld (db : DB) (f : ObjectId) : Z := heldIn (orderItems db) f.

(** * Proofs *)

(** ** The monad *)

Lemma bind_run {A B} (m : M A) (f : A → M B) (db : DB) :
  (m ≫= f) db =
  match m db with
  | (inr a, db') => f a db'
  | (inl e, db') => (inl e, db')
  end.
Proof. reflexivity. Qed.

Lemma asserts_run (b : bool) (e : Error) (db : DB) :
  asserts b e db = if b then (inr tt, db) else (inl e, db).
Proof. by destruct b. Qed.

(** ** Stock after an increment *)

Lemma incStock_run id d db :
  Flower_incStock id d db =
  (inr tt, set_flowers (alter (inc_stock d) id (flowers db)) db).
Proof. reflexivity. Qed.

Lemma stockOf_incStock id d db f :
  is_Some (flowers db !! id) →
  stockOf (Flower_incStock id d db).2 f =
  if decide (id = f) then stockOf db f + d else stockOf db f.
Proof.
  intros [fl Hfl]. unfold stockOf. simpl. rewrite lookup_alter.
  case_decide as Hd.
  - subst. rewrite Hfl. reflexivity.
  - reflexivity.
Qed.

Lemma priceOf_incStock id d db f :
  priceOf (Flower_incStock id d db).2 f = priceOf db f.
Proof.
  unfold priceOf. simpl. rewrite lookup_alter.
  case_decide; [subst; by destruct (flowers db !! f) | done].
Qed.

Lemma flower_present_incStock id d db f :
  flowers (Flower_incStock id d db).2 !! f = None ↔ flowers db !! f = None.
Proof.
  simpl. rewrite lookup_alter. case_decide; [subst|done].
  by destruct (flowers db !! f).
Qed.

(** ** The reservation loop *)

Lemma reserveItems_cons_inv faults i item rest tot acc db r db' :
  reserveItems faults i (item :: rest) tot acc db = (inr r, db') →
  ∃ flower,
    faults (FindFlower i) = false
    ∧ faults (IncStock i) = false
    ∧ flowers db !! item_flowerId item = Some flower
    ∧ item_quantity item ≤ stock flower
    ∧ reserveItems faults (S i) rest (tot + price flower * item_quantity item)
        (acc ++ [mkNewItem (item_flowerId item) (price flower) (item_quantity item)])
        (Flower_incStock (item_flowerId item) (- item_quantity item) db).2 = (inr r, db').
Proof.
  simpl. rewrite bind_run, asserts_run.
  destruct (faults (FindFlower i)) eqn:Hfind; simpl; [discriminate|].
  rewrite bind_run. unfold Flower_findById at 1.
  destruct (flowers db !! item_flowerId item) as [flower|] eqn:Hfl; [|discriminate].
  destruct (stock flower <? item_quantity item) eqn:Hlt; [discriminate|].
  rewrite bind_run, asserts_run.
  destruct (faults (IncStock i)) eqn:Hinc; simpl; [discriminate|].
  rewrite bind_run, incStock_run. intros Hrest.
  exists flower. repeat split; try done. by apply Z.ltb_ge.
Qed.

Lemma reserveItems_frame faults items : ∀ i tot acc db r db',
  reserveItems faults i items tot acc db = (inr r, db') →
  accounts db' = accounts db ∧ orders db' = orders db
  ∧ orderItems db' = orderItems db ∧ transactions db' = transactions db
  ∧ (∀ f, priceOf db' f = priceOf db f)
  ∧ (∀ f, flowers db' !! f = None ↔ flowers db !! f = None).
Proof.
  induction items as [|item rest IH]; intros i tot acc db r db' Hrun.
  - simpl in Hrun. injection Hrun as <- <-. done.
  - apply reserveItems_cons_inv in Hrun as (flower & _ & _ & _ & _ & Hrest).
    apply IH in Hrest as (Ha & Ho & Hi & Ht & Hp & Hd). simpl in *.
    repeat split; try done.
    + intros f. rewrite Hp. apply priceOf_incStock.
    + intros H. apply Hd in H. by apply flower_present_incStock in H.
    + intros H. apply Hd. by apply flower_present_incStock.
Qed.

Lemma lineTotal_incStock id d db items :
  lineTotal (Flower_incStock id d db).2 items = lineTotal db items.
Proof.
  induction items as [|x xs IH]; [done|].
  cbn [lineTotal foldr]. fold (lineTotal (Flower_incStock id d db).2 xs).
  fold (lineTotal db xs). by rewrite IH, priceOf_incStock.
Qed.

Lemma reserveItems_total faults items : ∀ i tot acc db tot' acc' db',
  reserveItems faults i items tot acc db = (inr (tot', acc'), db') →
  tot' = tot + lineTotal db items
  ∧ acc' = acc ++ map (λ it, mkNewItem (item_flowerId it)
                               (priceOf db (item_flowerId it)) (item_quantity it)) items.
Proof.
  induction items as [|item rest IH]; intros i tot acc db tot' acc' db' Hrun.
  - simpl in Hrun. injection Hrun as <- <- <-. simpl. rewrite app_nil_r. split; [lia|done].
  - apply reserveItems_cons_inv in Hrun as (flower & _ & _ & Hfl & _ & Hrest).
    apply IH in Hrest as [-> ->].
    assert (Hprice : priceOf db (item_flowerId item) = price flower).
    { unfold priceOf. by rewrite Hfl. }
    rewrite lineTotal_incStock. split.
    + simpl. rewrite Hprice. lia.
    + rewrite <- app_assoc. simpl. rewrite Hprice. do 2 f_equal.
      apply map_ext. intros it. f_equal. apply priceOf_incStock.
Qed.

Lemma reserveItems_stock faults items : ∀ i tot acc db r db',
  reserveItems faults i items tot acc db = (inr r, db') →
  ∀ f, stockOf db' f = stockOf db f - requested f items.
Proof.
  induction items as [|item rest IH]; intros i tot acc db r db' Hrun f.
  - simpl in Hrun. injection Hrun as <- <-. simpl. lia.
  - apply reserveItems_cons_inv in Hrun as (flower & _ & _ & Hfl & _ & Hrest).
    rewrite (IH _ _ _ _ _ _ Hrest f). rewrite stockOf_incStock by eauto.
    simpl. destruct (decide (item_flowerId item = f)); lia.
Qed.

Lemma reserveItems_no_fault faults items : ∀ i tot acc db r db',
  reserveItems faults i items tot acc db = (inr r, db') →
  ∀ k, (k < length items)%nat →
    faults (FindFlower (i + k)) = false ∧ faults (IncStock (i + k)) = false.
Proof.
  induction items as [|item rest IH]; intros i tot acc db r db' Hrun k Hk.
  - simpl in Hk. lia.
  - apply reserveItems_cons_inv in Hrun as (flower & Hf & Hi & _ & _ & Hrest).
    destruct k as [|k].
    + by rewrite Nat.add_0_r.
    + simpl in Hk. replace (i + S k)%nat with (S i + k)%nat by lia.
      eapply IH; [done|lia].
Qed.

Lemma reserveItems_available faults items : ∀ i tot acc db r db',
  reserveItems faults i items tot acc db = (inr r, db') →
  (∀ item, item ∈ items → 1 ≤ item_quantity item) →
  ∀ item, item ∈ items →
    is_Some (flowers db !! item_flowerId item)
    ∧ item_quantity item ≤ stockOf db (item_flowerId item).
Proof.
  induction items as [|it rest IH]; intros i tot acc db r db' Hrun Hpos item Hin.
  - by apply elem_of_nil in Hin.
  - apply reserveItems_cons_inv in Hrun as (flower & _ & _ & Hfl & Hle & Hrest).
    apply elem_of_cons in Hin as [->|Hin].
    + split; [eauto|]. unfold stockOf. by rewrite Hfl.
    + assert (Hit : 1 ≤ item_quantity it) by (apply Hpos; left).
      destruct (IH _ _ _ _ _ _ Hrest (λ x Hx, Hpos x (list_elem_of_further _ _ _ Hx)) item Hin)
        as [Hsome Hq].
      split.
      * destruct (flowers db !! item_flowerId item) eqn:E; [eauto|].
        apply (flower_present_incStock (item_flowerId it) (- item_quantity it)) in E.
        rewrite E in Hsome. by destruct Hsome.
      * rewrite stockOf_incStock in Hq by eauto.
        destruct (decide (item_flowerId it = item_flowerId item)); lia.
Qed.

Lemma requested_nonneg f items :
  (∀ item, item ∈ items → 1 ≤ item_quantity item) → 0 ≤ requested f items.
Proof.
  induction items as [|it rest IH]; intros Hpos; [done|]. simpl.
  assert (0 ≤ requested f rest) by (apply IH; intros x Hx; apply Hpos; by right).
  assert (1 ≤ item_quantity it) by (apply Hpos; left).
  destruct (decide (item_flowerId it = f)); lia.
Qed.

Lemma reserveItems_demand faults items : ∀ i tot acc db r db',
  reserveItems faults i items tot acc db = (inr r, db') →
  (∀ item, item ∈ items → 1 ≤ item_quantity item) →
  ∀ item, item ∈ items →
    requested (item_flowerId item) items ≤ stockOf db (item_flowerId item).
Proof.
  induction items as [|it rest IH]; intros i tot acc db r db' Hrun Hpos item Hin.
  - by apply elem_of_nil in Hin.
  - apply reserveItems_cons_inv in Hrun as (flower & _ & _ & Hfl & Hle & Hrest).
    assert (Hpos' : ∀ x, x ∈ rest → 1 ≤ item_quantity x)
      by (intros x Hx; apply Hpos; by right).
    assert (Hstock : stockOf db (item_flowerId it) = stock flower)
      by (unfold stockOf; by rewrite Hfl).
    pose proof (IH _ _ _ _ _ _ Hrest Hpos') as IH'.
    assert (Hrest_le : ∀ x, x ∈ rest →
              (if decide (item_flowerId it = item_flowerId x)
               then item_quantity it + requested (item_flowerId x) rest
               else requested (item_flowerId x) rest) ≤ stockOf db (item_flowerId x)).
    { intros x Hx. specialize (IH' x Hx). rewrite stockOf_incStock in IH' by eauto.
      destruct (decide (item_flowerId it = item_flowerId x)); lia. }
    simpl. apply elem_of_cons in Hin as [->|Hin]; [|by apply Hrest_le].
    rewrite decide_True by done.
    destruct (decide (item_flowerId it ∈ item_flowerId <$> rest)) as [Hocc|Hnocc].
    + apply list_elem_of_fmap in Hocc as (x & Hx & Hxin).
      specialize (Hrest_le x Hxin). rewrite <- Hx in Hrest_le.
      by rewrite decide_True in Hrest_le by done.
    + assert (requested (item_flowerId it) rest = 0) as ->; [|lia].
      clear -Hnocc. induction rest as [|y ys IHys]; [done|]. simpl.
      rewrite fmap_cons in Hnocc. apply not_elem_of_cons in Hnocc as [Hne Hnocc].
      rewrite decide_False by done. by apply IHys.
Qed.

(** ** [createOrder] *)

Lemma forallb_over_map {A B} (P : B → bool) (f : A → B) (l : list A) :
  forallb P (map f l) = forallb (λ a, P (f a)) l.
Proof. induction l as [|a l IH]; [done|]. simpl. by rewrite IH. Qed.

Lemma createOrder_session_inv faults now od uid db id tx :
  createOrder_session faults now od uid db = (inr id, tx) →
  ∃ tot acc db1 total fee,
    reserveItems faults 0 (items od) 0 [] db = (inr (tot, acc), db1)
    ∧ faults SaveOrder = false ∧ faults InsertItems = false ∧ faults Commit = false
    ∧ id = newId (orders db1)
    ∧ forallb (λ it, 1 <=? new_quantity it) acc = true
    ∧ accounts tx = accounts db1 ∧ flowers tx = flowers db1
    ∧ transactions tx = transactions db1
    ∧ orders tx = <[id := newOrder now od uid total fee]> (orders db1)
    ∧ castNumber (js_plus tot (default (JsNumber 0) (data_shippingFee od))) = Some total
    ∧ castNumber (default (JsNumber 0) (data_shippingFee od)) = Some fee
    ∧ 0 ≤ total ∧ 0 ≤ fee ∧ trim (data_addressShip od) ≠ "".
Proof.
  unfold createOrder_session. rewrite bind_run.
  destruct (reserveItems faults 0 (items od) 0 [] db) as [[e|[tot acc]] db1] eqn:Hloop;
    [discriminate|].
  rewrite bind_run, asserts_run.
  destruct (faults SaveOrder); cbn [negb]; [discriminate|].
  destruct (castNumber (js_plus tot (default (JsNumber 0) (data_shippingFee od))))
    as [total|] eqn:Htotal; [|discriminate].
  destruct (castNumber (default (JsNumber 0) (data_shippingFee od)))
    as [fee|] eqn:Hfee; [|discriminate].
  rewrite bind_run. unfold Order_save.
  rewrite bind_run, asserts_run. cbn [totalAmount].
  destruct (0 <=? total) eqn:H1; [|discriminate]. apply Z.leb_le in H1.
  rewrite bind_run, asserts_run. cbn [shippingFee].
  destruct (0 <=? fee) eqn:H2; [|discriminate]. apply Z.leb_le in H2.
  rewrite bind_run, asserts_run. cbn [addressShip].
  destruct (bool_decide (trim (data_addressShip od) = "")) eqn:H3; [discriminate|].
  apply bool_decide_eq_false in H3. cbn [negb].
  rewrite bind_run. simpl. rewrite !bind_run. simpl.
  rewrite asserts_run. destruct (faults InsertItems); simpl; [discriminate|].
  rewrite bind_run. unfold OrderItem_insertMany. rewrite bind_run, asserts_run.
  rewrite forallb_over_map. simpl.
  destruct (forallb (λ it, 1 <=? new_quantity it) acc) eqn:Hq; [|discriminate].
  simpl. rewrite bind_run, asserts_run. destruct (faults Commit); simpl; [discriminate|].
  intros [= <- <-]. exists tot, acc, db1, total, fee. by repeat split.
Qed.

(** A fee that is absent or a number is added to the total. *)
Lemma castNumber_numericFee od tot fee :
  numericFee od = Some fee →
  castNumber (js_plus tot (default (JsNumber 0) (data_shippingFee od))) = Some (tot + fee)
  ∧ castNumber (default (JsNumber 0) (data_shippingFee od)) = Some fee.
Proof.
  unfold numericFee. destruct (data_shippingFee od) as [[z|s]|]; simpl.
  - by intros [= ->].
  - discriminate.
  - by intros [= <-].
Qed.

Lemma createOrder_session_quantities faults now od uid db id tx :
  createOrder_session faults now od uid db = (inr id, tx) →
  ∀ item, item ∈ items od →
    1 ≤ item_quantity item
    ∧ is_Some (flowers db !! item_flowerId item)
    ∧ item_quantity item ≤ stockOf db (item_flowerId item)
    ∧ requested (item_flowerId item) (items od) ≤ stockOf db (item_flowerId item).
Proof.
  intros (tot & acc & db1 & total & fee & Hloop & _ & _ & _ & _ & Hq & _)%createOrder_session_inv.
  destruct (reserveItems_total _ _ _ _ _ _ _ _ _ Hloop) as [_ Hacc].
  assert (Hpos : ∀ item, item ∈ items od → 1 ≤ item_quantity item).
  { intros item Hin. rewrite Hacc in Hq. simpl in Hq.
    rewrite forallb_over_map in Hq. simpl in Hq.
    rewrite forallb_forall in Hq. apply Z.leb_le, Hq. by apply list_elem_of_In. }
  intros item Hin. split; [by apply Hpos|].
  destruct (reserveItems_available _ _ _ _ _ _ _ _ Hloop Hpos item Hin) as [H1 H2].
  repeat split; try done.
  by apply (reserveItems_demand _ _ _ _ _ _ _ _ Hloop Hpos).
Qed.

Lemma createOrder_session_no_fault faults now od uid db id tx :
  createOrder_session faults now od uid db = (inr id, tx) →
  ¬ persistenceFails faults od.
Proof.
  intros (tot & acc & db1 & total & fee & Hloop & Hs & Hi & Hc & _)%createOrder_session_inv.
  intros [(i & Hlt & Hf)|[H|[H|H]]]; try congruence.
  destruct (reserveItems_no_fault _ _ _ _ _ _ _ _ Hloop i Hlt) as [H1 H2].
  simpl in H1, H2. destruct Hf; congruence.
Qed.

(** Any error other than the one of the read-back after the commit leaves
    the database as it was. *)
Lemma createOrder_error_unchanged faults now od uid db e db' :
  createOrder faults now od uid db = (inl e, db') →
  e ≠ TransactionCommitted →
  db' = db.
Proof.
  unfold createOrder.
  destruct (createOrder_session faults now od uid db) as [[e'|id] tx].
  - by intros [= <- <-].
  - destruct (faults ReadBack); [by intros [= <- <-]|].
    destruct (getOrderById id tx) as [[?|?] ?]; [|discriminate].
    by intros [= <- <-].
Qed.

(** C3: when a requested line item cannot be reserved (its flower is missing,
    its stock is below the quantity, or the items together ask for more of the
    flower than there is) or a datastore operation up to the commit fails,
    [createOrder] throws and the database is exactly what it was before the
    call: no flower's stock has moved and no Order or OrderItem has been
    written.  More generally every error that [createOrder] throws before the
    commit has returned leaves the database unchanged. *)
Theorem createOrder_all_or_nothing faults now od uid db :
  ((∃ item, item ∈ items od
            ∧ (reservationFails db item ∨ demandExceedsStock db (items od) item))
   ∨ persistenceFails faults od →
   ∃ e, createOrder faults now od uid db = (inl e, db))
  ∧ (∀ e db', createOrder faults now od uid db = (inl e, db') →
              e ≠ TransactionCommitted → db' = db).
Proof.
  split; [|intros e db'; apply createOrder_error_unchanged].
  intros Hfail. unfold createOrder.
  destruct (createOrder_session faults now od uid db) as [[e|id] tx] eqn:Hsession;
    [by exists e|].
  exfalso. destruct Hfail as [(item & Hin & Hres)|Hpers].
  - destruct (createOrder_session_quantities _ _ _ _ _ _ _ Hsession item Hin)
      as (_ & [fl Hfl] & Hle & Hdemand).
    destruct Hres as [[Hnone|Hlt]|Hex]; [congruence|lia|].
    unfold demandExceedsStock in Hex. lia.
  - by apply (createOrder_session_no_fault _ _ _ _ _ _ _ Hsession).
Qed.

(** Item 2 of a 2-item order fails: flower 1 keeps its stock of 5. *)
Lemma createOrder_all_or_nothing_witness :
  ∃ e, createOrder no_faults 1000
         (mkOrderData [mkItem 1 2; mkItem 2 1] "12 Hang Bong" None) 1 shop = (inl e, shop)
       ∧ stockOf shop 1 = 5.
Proof.
  destruct (createOrder_all_or_nothing no_faults 1000
              (mkOrderData [mkItem 1 2; mkItem 2 1] "12 Hang Bong" None) 1 shop) as [Habort _].
  destruct Habort as [e He].
  - left. exists (mkItem 2 1). split.
    + simpl. apply list_elem_of_further, list_elem_of_here.
    + left. right. vm_compute. reflexivity.
  - exists e. split; [exact He|reflexivity].
Defined.

(** X27: a successful [createOrder] whose shipping fee is absent or a number
    has persisted, under a new id, an Order whose [totalAmount] is the sum over the
    line items of price * quantity plus the shipping fee and whose status is
    [pending], and has lowered the stock of every flower by exactly the
    quantity requested of it. *)
Theorem createOrder_success_postcondition faults now od uid db h db' fee :
  numericFee od = Some fee →
  createOrder faults now od uid db = (inr h, db') →
  orders db !! h_id h = None
  ∧ orders db' !! h_id h = Some (h_order h)
  ∧ totalAmount (h_order h) = lineTotal db (items od) + fee
  ∧ shippingFee (h_order h) = fee
  ∧ status (h_order h) = pending
  ∧ ∀ f, stockOf db' f = stockOf db f - requested f (items od).
Proof.
  intros Hnum. unfold createOrder.
  destruct (createOrder_session faults now od uid db) as [[e|id] tx] eqn:Hsession;
    [discriminate|].
  destruct (faults ReadBack); [discriminate|].
  apply createOrder_session_inv in Hsession
    as (tot & acc & db1 & total & fee' & Hloop & _ & _ & _ & Hid & _ & _ & Hfl & _ & Hord
        & Htotal & Hfee & _).
  destruct (castNumber_numericFee od tot fee Hnum) as [Ht Hf].
  rewrite Ht in Htotal. rewrite Hf in Hfee.
  injection Htotal as <-. injection Hfee as <-.
  unfold getOrderById. rewrite bind_run. unfold Order_findById at 1.
  rewrite Hord, lookup_insert_eq. rewrite bind_run. simpl.
  intros [= <- <-]. simpl.
  destruct (reserveItems_frame _ _ _ _ _ _ _ _ Hloop) as (_ & Ho & _).
  destruct (reserveItems_total _ _ _ _ _ _ _ _ _ Hloop) as [Htot _].
  repeat split.
  - rewrite Hid, Ho. apply not_elem_of_dom. unfold newId. apply is_fresh.
  - by rewrite Hord, lookup_insert_eq.
  - rewrite Htot. lia.
  - intros f. unfold stockOf at 1. rewrite Hfl.
    apply (reserveItems_stock _ _ _ _ _ _ _ _ Hloop).
Qed.

(** Stock 5, quantity 2, unit price 75000: total 150000, stock 3, pending. *)
Lemma createOrder_success_postcondition_witness :
  ∃ h db', createOrder no_faults 1000 (mkOrderData [mkItem 1 2] "12 Hang Bong" None) 1 shop
           = (inr h, db')
    ∧ totalAmount (h_order h) = 150000
    ∧ status (h_order h) = pending
    ∧ stockOf db' 1 = 3.
Proof.
  destruct (createOrder no_faults 1000 (mkOrderData [mkItem 1 2] "12 Hang Bong" None) 1 shop)
    as [[e|h] db'] eqn:E.
  - vm_compute in E. discriminate E.
  - exists h, db'. split; [reflexivity|].
    destruct (createOrder_success_postcondition no_faults 1000
                (mkOrderData [mkItem 1 2] "12 Hang Bong" None) 1 shop h db' 0 eq_refl E)
      as (_ & _ & Ht & _ & Hs & Hst).
    rewrite Ht, Hs, Hst. vm_compute. auto.
Defined.

(** C8: the total is not the sum of the lines plus the fee when the fee
    arrives as a numeric string, which the route admits ([isNumeric()] with
    no conversion): [totalAmount + shippingFee] is then a concatenation.  Two
    roses at 75000 with the fee ["30000"] are stored with [totalAmount]
    15000030000 and [shippingFee] 30000, where the lines plus the fee make
    180000; the status is [pending] and the stock goes from 5 to 3 as
    specified. *)
Theorem createOrder_string_fee_concatenates :
  ∃ h db',
    createOrder no_faults 1000
      (mkOrderData [mkItem 1 2] "12 Hang Bong" (Some (JsString "30000"))) 1 shop
    = (inr h, db')
    ∧ lineTotal shop [mkItem 1 2] = 150000
    ∧ shippingFee (h_order h) = 30000
    ∧ totalAmount (h_order h) = 15000030000
    ∧ totalAmount (h_order h) ≠ lineTotal shop [mkItem 1 2] + shippingFee (h_order h)
    ∧ status (h_order h) = pending
    ∧ stockOf shop 1 = 5 ∧ stockOf db' 1 = 3.
Proof.
  destruct (createOrder no_faults 1000
              (mkOrderData [mkItem 1 2] "12 Hang Bong" (Some (JsString "30000"))) 1 shop)
    as [[e|h] db'] eqn:E.
  - vm_compute in E. discriminate E.
  - exists h, db'. split; [reflexivity|].
    vm_compute in E. injection E as <- <-. vm_compute.
    repeat split; try reflexivity. discriminate.
Qed.

(** ** [createOrderItem]: one call after another, and interleaved calls *)

Lemma createOrderItem_cases d db r db1 :
  createOrderItem d db = (r, db1) →
  (∃ e, r = inl e ∧ db1 = db)
  ∨ (∃ x, r = inr x
        ∧ 1 ≤ oi_quantity d ≤ stockOf db (oi_flowerId d)
        ∧ orders db1 = orders db
        ∧ ∀ g, stockOf db1 g =
               if decide (oi_flowerId d = g) then stockOf db g - oi_quantity d
               else stockOf db g).
Proof.
  unfold createOrderItem. rewrite bind_run. unfold Flower_findById at 1.
  destruct (flowers db !! oi_flowerId d) as [flower|] eqn:Hfl;
    [|intros [= <- <-]; left; eauto].
  rewrite bind_run. unfold Order_findById at 1.
  destruct (orders db !! oi_orderId d) as [order|] eqn:Hord;
    [|intros [= <- <-]; left; eauto].
  destruct (stock flower <? oi_quantity d) eqn:Hlt; [intros [= <- <-]; left; eauto|].
  apply Z.ltb_ge in Hlt.
  rewrite bind_run. unfold OrderItem_save. rewrite bind_run, asserts_run. simpl.
  destruct (1 <=? oi_quantity d) eqn:Hq; [|intros [= <- <-]; left; eauto].
  apply Z.leb_le in Hq. simpl. intros [= <- <-]. right.
  eexists. split; [reflexivity|]. unfold stockOf. simpl. rewrite Hfl. simpl.
  repeat split; try lia.
  intros g. rewrite lookup_alter. case_decide; [subst; rewrite Hfl; simpl; lia|done].
Qed.

(** Cut at its awaits and run without interruption, the step machine does
    what the method does. *)
Lemma item_steps_createOrderItem d db :
  run_schedule [0; 0; 0; 0; 0]%nat [AtFindFlower d] db
  = ([Finished d (createOrderItem d db).1], (createOrderItem d db).2).
Proof.
  unfold createOrderItem. simpl. rewrite bind_run. unfold Flower_findById at 1 2.
  destruct (flowers db !! oi_flowerId d) as [flower|]; [|reflexivity].
  simpl. rewrite !bind_run. unfold Order_findById.
  destruct (orders db !! oi_orderId d) as [order|]; [|reflexivity].
  simpl. destruct (stock flower <? oi_quantity d); [reflexivity|].
  simpl. rewrite !bind_run. unfold OrderItem_save. rewrite !bind_run, !asserts_run. simpl.
  destruct (1 <=? oi_quantity d); reflexivity.
Qed.

(** C4, as the code has it: the availability check reads the flower and the
    decrement is a later, unconditional [$inc].  When the reservation attempts
    on a flower run one after another, the units handed out never exceed the
    stock the flower started with, the stock ends at the start value minus the
    units handed out and is not negative, and a further attempt that asks for
    more than what is left throws the not-enough-stock error and changes
    nothing. *)
Theorem sequential_reservation_bounded ds db f :
  0 ≤ stockOf db f →
  (∀ d, d ∈ ds → oi_flowerId d = f) →
  ∀ rs db', createOrderItems_seq ds db = (rs, db') →
    stockOf db' f = stockOf db f - reserved_seq ds rs
    ∧ 0 ≤ reserved_seq ds rs ≤ stockOf db f
    ∧ ∀ d, oi_flowerId d = f → is_Some (flowers db' !! f) →
           is_Some (orders db' !! oi_orderId d) → stockOf db' f < oi_quantity d →
           createOrderItem d db'
           = (inl (NotEnoughStockItem (stockOf db' f) (oi_quantity d)), db').
Proof.
  intros Hstock Hall rs db' Hrun.
  assert (Hbound : stockOf db' f = stockOf db f - reserved_seq ds rs
                   ∧ 0 ≤ reserved_seq ds rs ≤ stockOf db f).
  { revert db rs Hstock Hrun.
    induction ds as [|d ds IH]; intros db rs Hstock Hrun.
    - simpl in Hrun. injection Hrun as <- <-. unfold reserved_seq. simpl. lia.
    - simpl in Hrun.
      destruct (createOrderItem d db) as [r db1] eqn:Hone.
      destruct (createOrderItems_seq ds db1) as [rs' db2] eqn:Hrest.
      injection Hrun as <- <-.
      assert (Hd : oi_flowerId d = f) by (apply Hall; left).
      assert (Hall' : ∀ x, x ∈ ds → oi_flowerId x = f)
        by (intros x Hx; apply Hall; by right).
      unfold reserved_seq. simpl. fold (reserved_seq ds rs').
      apply createOrderItem_cases in Hone as [(e & -> & ->)|(x & -> & Hq & _ & Hst)].
      + simpl. by apply IH.
      + simpl. specialize (Hst f). rewrite Hd in Hst, Hq.
        rewrite decide_True in Hst by done.
        destruct (IH Hall' db1 rs') as [H1 H2]; [lia|done|]. lia. }
  destruct Hbound as [H1 H2]. repeat split; try lia.
  intros d Hd [flower Hfl] [order Hord] Hlt.
  unfold createOrderItem. rewrite bind_run. unfold Flower_findById at 1.
  rewrite Hd, Hfl. rewrite bind_run. unfold Order_findById at 1. rewrite Hord.
  unfold stockOf in Hlt |- *. rewrite Hfl in Hlt |- *. simpl in *.
  apply Z.ltb_lt in Hlt. by rewrite Hlt.
Qed.

(** Two attempts for the last tulip, one after the other: one unit reserved,
    stock 0, and a third attempt is refused. *)
Lemma sequential_reservation_bounded_witness :
  ∃ rs db', createOrderItems_seq [mkOrderItemData 3 1 1; mkOrderItemData 3 1 1] lastTulip
            = (rs, db')
    ∧ reserved_seq [mkOrderItemData 3 1 1; mkOrderItemData 3 1 1] rs = 1
    ∧ stockOf db' 3 = 0
    ∧ createOrderItem (mkOrderItemData 3 1 1) db' = (inl (NotEnoughStockItem 0 1), db').
Proof.
  destruct (createOrderItems_seq [mkOrderItemData 3 1 1; mkOrderItemData 3 1 1] lastTulip)
    as [rs db'] eqn:E.
  exists rs, db'. split; [reflexivity|].
  assert (H0 : 0 ≤ stockOf lastTulip 3) by (vm_compute; discriminate).
  assert (Hall : ∀ d, d ∈ [mkOrderItemData 3 1 1; mkOrderItemData 3 1 1] → oi_flowerId d = 3%positive).
  { intros d Hd. apply elem_of_cons in Hd as [->|Hd]; [reflexivity|].
    apply elem_of_cons in Hd as [->|Hd]; [reflexivity|]. by apply elem_of_nil in Hd. }
  destruct (sequential_reservation_bounded _ _ _ H0 Hall rs db' E) as (Hst & Hres & Hnext).
  assert (Ers : reserved_seq [mkOrderItemData 3 1 1; mkOrderItemData 3 1 1] rs = 1).
  { injection E as <- <-. vm_compute. reflexivity. }
  assert (Est : stockOf db' 3 = 0).
  { rewrite Hst, Ers. vm_compute. reflexivity. }
  repeat split; [exact Ers|exact Est|].
  rewrite <- Est at 1. apply Hnext.
  - reflexivity.
  - injection E as <- <-. vm_compute. eauto.
  - injection E as <- <-. vm_compute. eauto.
  - rewrite Est. simpl. lia.
Defined.

(** Two calls for the last tulip whose steps alternate: both read stock 1,
    both pass the check, both decrement.  Two units are handed out of a stock
    of one and the stock ends at -1. *)
Lemma interleaved_reservation_oversells :
  let calls := [AtFindFlower (mkOrderItemData 3 1 1); AtFindFlower (mkOrderItemData 3 1 1)] in
  let out := run_schedule [0; 1; 0; 1; 0; 1; 0; 1; 0; 1]%nat calls lastTulip in
  stockOf lastTulip 3 = 1
  ∧ reserved out.1 = 2
  ∧ stockOf out.2 3 = -1
  ∧ ¬ (reserved out.1 ≤ stockOf lastTulip 3).
Proof. vm_compute. repeat split; try reflexivity. intros H. apply H. reflexivity. Qed.

(** ** Reconciliation: redirect and webhook *)

Lemma findOne_lookup {A} (P : A → bool) (m : gmap positive A) id a :
  findOne P m = Some (id, a) → m !! id = Some a ∧ P a = true.
Proof.
  unfold findOne, find. intros H%head_Some_elem_of.
  apply list_elem_of_filter in H as [HP Hin]. simpl in HP.
  apply elem_of_map_to_list in Hin. split; [done|]. by apply Is_true_true.
Qed.

Lemma updatePaymentStatus_run now id tid db o :
  orders db !! id = Some o →
  updatePaymentStatus now id tid db
  = (inr tt, set_orders (alter (with_payment_status now tid) id (orders db)) db).
Proof.
  intros Ho. unfold updatePaymentStatus. rewrite bind_run. unfold Order_findById.
  by rewrite Ho.
Qed.

Lemma handlePaymentReturn_paid now q db code id o tid t :
  q_orderCode q = Some code → q_code q = Some "00" → q_status q = Some "PAID" →
  orderByCode db code = Some (id, o) →
  transactionId o = Some tid → transactions db !! tid = Some t →
  handlePaymentReturn now q db
  = (inr (mkResult true "Payment successful" code id (Some "PAID")),
     set_orders (alter (with_payment_status now tid) id (orders db))
       (set_transactions (alter (with_transactionStatus now tx_completed) tid (transactions db))
          db)).
Proof.
  intros Hcode H00 Hpaid Hfind Htid Ht. unfold handlePaymentReturn.
  rewrite Hcode, bind_run. unfold Order_findOne_paymentCode at 1.
  unfold orderByCode in Hfind. rewrite Hfind. rewrite H00, Hpaid. simpl.
  rewrite bind_run. unfold Transaction_findById at 1. rewrite Htid. simpl. rewrite Ht.
  rewrite bind_run. unfold Transaction_setStatus at 1. simpl.
  apply findOne_lookup in Hfind as [Ho _].
  rewrite bind_run. erewrite updatePaymentStatus_run by (simpl; exact Ho). reflexivity.
Qed.

Lemma handlePaymentReturn_cancel now q db code id o tid t :
  q_orderCode q = Some code → q_cancel q = Some "true" →
  ¬ (q_code q = Some "00" ∧ q_status q = Some "PAID") →
  orderByCode db code = Some (id, o) →
  transactionId o = Some tid → transactions db !! tid = Some t →
  handlePaymentReturn now q db
  = (inr (mkResult false "Payment cancelled" code id (Some "CANCELLED")),
     set_transactions (alter (with_transactionStatus now tx_cancelled) tid (transactions db)) db).
Proof.
  intros Hcode Hcancel Hnot Hfind Htid Ht. unfold handlePaymentReturn.
  rewrite Hcode, bind_run. unfold Order_findOne_paymentCode at 1.
  unfold orderByCode in Hfind. rewrite Hfind.
  destruct (bool_decide (q_code q = Some "00") && bool_decide (q_status q = Some "PAID"))
    eqn:Hb.
  { apply andb_true_iff in Hb as [H1%bool_decide_eq_true H2%bool_decide_eq_true]. tauto. }
  rewrite Hcancel. simpl.
  rewrite bind_run. unfold Transaction_findById at 1. rewrite Htid. simpl. rewrite Ht.
  reflexivity.
Qed.

Lemma handlePaymentWebhook_processed payOS now w db code id o tid t :
  payOS_verifyPaymentWebhookData payOS w = inr true →
  wh_orderCode w = Some code →
  orderByCode db code = Some (id, o) →
  transactionId o = Some tid → transactions db !! tid = Some t →
  handlePaymentWebhook payOS now w db
  = (inr (mkWebhookResult true "Webhook processed successfully" code (transactionStatus t)),
     set_transactions
       (alter (with_transactionStatus now (webhookStatus (wh_status w))) tid (transactions db))
       (if bool_decide (wh_status w = Some "PAID")
        then set_orders (alter (with_payment_status now tid) id (orders db)) db
        else db)).
Proof.
  intros Hver Hcode Hfind Htid Ht. unfold handlePaymentWebhook.
  rewrite Hver, Hcode, bind_run. unfold Order_findOne_paymentCode at 1.
  unfold orderByCode in Hfind. rewrite Hfind.
  rewrite bind_run. unfold Transaction_findById at 1. rewrite Htid. simpl. rewrite Ht.
  apply findOne_lookup in Hfind as [Ho _]. unfold webhookStatus.
  rewrite bind_run.
  destruct (bool_decide (wh_status w = Some "PAID")).
  - rewrite bind_run. erewrite updatePaymentStatus_run by exact Ho. reflexivity.
  - destruct (bool_decide (wh_status w = Some "CANCELLED")); reflexivity.
Qed.

(** C1, as the code has it: a reconcile call with a CANCELLED outcome (the
    redirect with [cancel=true] that is not also a PAID redirect, or a verified
    webhook with status CANCELLED) writes [cancelled] to the order's linked
    Transaction whatever its status was, [completed] included; the orders are
    left as they were. *)
Theorem cancelled_outcome_overwrites_status payOS now db code id o tid t :
  orderByCode db code = Some (id, o) →
  transactionId o = Some tid →
  transactions db !! tid = Some t →
  (∀ q, q_orderCode q = Some code → q_cancel q = Some "true" →
        ¬ (q_code q = Some "00" ∧ q_status q = Some "PAID") →
        transactions (handlePaymentReturn now q db).2 !! tid
        = Some (with_transactionStatus now tx_cancelled t)
        ∧ orders (handlePaymentReturn now q db).2 = orders db)
  ∧ (∀ w, payOS_verifyPaymentWebhookData payOS w = inr true →
          wh_orderCode w = Some code → wh_status w = Some "CANCELLED" →
          transactions (handlePaymentWebhook payOS now w db).2 !! tid
          = Some (with_transactionStatus now tx_cancelled t)
          ∧ orders (handlePaymentWebhook payOS now w db).2 = orders db).
Proof.
  intros Hfind Htid Ht. split.
  - intros q Hcode Hcancel Hnot.
    rewrite (handlePaymentReturn_cancel now q db code id o tid t) by done.
    simpl. by rewrite lookup_alter_eq, Ht.
  - intros w Hver Hcode Hst.
    rewrite (handlePaymentWebhook_processed payOS now w db code id o tid t) by done.
    rewrite Hst. simpl. by rewrite lookup_alter_eq, Ht.
Qed.

Lemma orderByCode_afterPaid :
  orderByCode afterPaid "123456"
  = Some (1%positive, mkOrder 1 150000 0 1000 (Some 2000) paid "12 Hang Bong"
                        (Some 1%positive) (Some "123456") 2000).
Proof. vm_compute. reflexivity. Qed.

Lemma transaction_afterPaid :
  transactions afterPaid !! 1%positive = Some (mkTransaction 1 9 tx_completed 1500 150000 2000).
Proof. vm_compute. reflexivity. Qed.

(** The cancel redirect and the CANCELLED webhook on the paid order. *)
Lemma cancelled_outcome_overwrites_status_witness :
  transactionStatus <$> transactions (handlePaymentReturn 3000 cancelRedirect afterPaid).2
                          !! 1%positive = Some tx_cancelled
  ∧ transactionStatus <$> transactions (handlePaymentWebhook gatewayUp 3000 cancelledWebhook
                                          afterPaid).2 !! 1%positive = Some tx_cancelled.
Proof.
  destruct (cancelled_outcome_overwrites_status gatewayUp 3000 afterPaid "123456" 1%positive
              _ 1%positive _ orderByCode_afterPaid eq_refl transaction_afterPaid) as [Hr Hw].
  split.
  - destruct (Hr cancelRedirect) as [-> _]; [reflexivity|reflexivity| |reflexivity].
    intros [_ H]. discriminate H.
  - destruct (Hw cancelledWebhook) as [-> _]; reflexivity.
Defined.

(** The paid order's transaction is [completed]; the cancel redirect, and
    likewise the CANCELLED webhook, turns it into [cancelled]. *)
Lemma cancel_regresses_completed_transaction :
  transactionStatus <$> transactions afterPaid !! 1%positive = Some tx_completed
  ∧ transactionStatus <$> transactions (handlePaymentReturn 3000 cancelRedirect afterPaid).2
                            !! 1%positive = Some tx_cancelled
  ∧ transactionStatus <$> transactions (handlePaymentWebhook gatewayUp 3000 cancelledWebhook
                                          afterPaid).2 !! 1%positive = Some tx_cancelled.
Proof. vm_compute. done. Qed.




(** C10: the [status] of a successful webhook result is the
    [transactionStatus] the Transaction had when the handler read it, while
    the handler stores the status that the webhook's [status] field maps to. *)
Theorem webhook_reports_status_before_update payOS now w db r db' :
  handlePaymentWebhook payOS now w db = (inr r, db') →
  ∃ code id o tid t,
    wh_orderCode w = Some code
    ∧ orderByCode db code = Some (id, o)
    ∧ transactionId o = Some tid
    ∧ transactions db !! tid = Some t
    ∧ w_status r = transactionStatus t
    ∧ transactionStatus <$> transactions db' !! tid = Some (webhookStatus (wh_status w)).
Proof.
  intros Hrun.
  assert (Hver : payOS_verifyPaymentWebhookData payOS w = inr true).
  { unfold handlePaymentWebhook in Hrun.
    destruct (payOS_verifyPaymentWebhookData payOS w) as [?|[|]]; done. }
  destruct (wh_orderCode w) as [code|] eqn:Hcode;
    [|unfold handlePaymentWebhook in Hrun; by rewrite Hver, Hcode in Hrun].
  destruct (orderByCode db code) as [[id o]|] eqn:Hfind; cycle 1.
  { unfold handlePaymentWebhook in Hrun. rewrite Hver, Hcode, bind_run in Hrun.
    unfold Order_findOne_paymentCode at 1 in Hrun. unfold orderByCode in Hfind.
    by rewrite Hfind in Hrun. }
  destruct (transactionId o) as [tid|] eqn:Htid; cycle 1.
  { unfold handlePaymentWebhook in Hrun. rewrite Hver, Hcode, bind_run in Hrun.
    unfold Order_findOne_paymentCode at 1 in Hrun. unfold orderByCode in Hfind.
    rewrite Hfind, bind_run in Hrun. unfold Transaction_findById at 1 in Hrun.
    by rewrite Htid in Hrun. }
  destruct (transactions db !! tid) as [t|] eqn:Ht; cycle 1.
  { unfold handlePaymentWebhook in Hrun. rewrite Hver, Hcode, bind_run in Hrun.
    unfold Order_findOne_paymentCode at 1 in Hrun. unfold orderByCode in Hfind.
    rewrite Hfind, bind_run in Hrun. unfold Transaction_findById at 1 in Hrun.
    rewrite Htid in Hrun. simpl in Hrun. by rewrite Ht in Hrun. }
  rewrite (handlePaymentWebhook_processed payOS now w db code id o tid t) in Hrun by done.
  injection Hrun as <- <-. exists code, id, o, tid, t. repeat split; try done.
  simpl. by rewrite lookup_alter_eq, Ht.
Qed.

(** A PAID webhook for a [pending] transaction stores [completed] and
    reports [pending]. *)
Lemma webhook_reports_status_before_update_witness :
  ∃ r db', handlePaymentWebhook gatewayUp 2000 paidWebhook awaitingPayment = (inr r, db')
    ∧ w_status r = tx_pending
    ∧ transactionStatus <$> transactions db' !! 1%positive = Some tx_completed.
Proof.
  destruct (handlePaymentWebhook gatewayUp 2000 paidWebhook awaitingPayment)
    as [[e|r] db'] eqn:E.
  - vm_compute in E. discriminate E.
  - exists r, db'. split; [reflexivity|].
    destruct (webhook_reports_status_before_update _ _ _ _ _ _ E)
      as (code & id & o & tid & t & Hcode & Hfind & Htid & Ht & Hst & Hdb).
    injection Hcode as <-.
    assert (Hid : (id, o) = (1%positive, mkOrder 1 150000 0 1000 None pending "12 Hang Bong"
                                           (Some 1%positive) (Some "123456") 1500)).
    { vm_compute in Hfind. by injection Hfind as <- <-. }
    injection Hid as -> ->. injection Htid as <-.
    vm_compute in Ht. injection Ht as <-.
    split; [exact Hst|exact Hdb].
Defined.

(** ** [createPaymentLink] *)

Lemma createPaymentLink_run payOS env now rand req db o account items :
  orders db !! req_orderId req = Some o →
  status o = pending →
  paymentItems db (itemsOf db (req_orderId req)) = inr items →
  accounts db !! accountId o = Some account →
  0 ≤ totalAmount o →
  paymentCodeFree db (req_orderId req) (pretty (generateUniquePaymentCode now rand)) = true →
  let id := req_orderId req in
  let tid := newId (transactions db) in
  let code := generateUniquePaymentCode now rand in
  let db1 :=
    set_orders (alter (with_payment_link now tid (pretty code)) id (orders db))
      (set_transactions (<[tid := pendingTransaction env now o]> (transactions db)) db) in
  createPaymentLink payOS env now rand req db =
  match payOS_createPaymentLink payOS (paymentDataOf env now rand req o account items) with
  | inr resp =>
      (inr (mkPaymentLink (checkoutUrl resp) code tid id (totalAmount o * 100 / 100)
              (qrCode resp) (paymentLinkId resp)), db1)
  | inl msg =>
      (inl (PaymentLinkCreationFailed msg),
       set_transactions
         (<[tid := with_transactionStatus now tx_failed (pendingTransaction env now o)]>
            (transactions db)) db1)
  end.
Proof.
  intros Ho Hst Hitems Hacc Hamt Hfree. cbv zeta.
  unfold createPaymentLink. rewrite bind_run. unfold Order_findById at 1.
  rewrite Ho, Hst. simpl. rewrite bind_run. simpl.
  unfold itemsOf in Hitems. rewrite Hitems, Hacc.
  rewrite bind_run. unfold Transaction_save. rewrite bind_run, asserts_run. simpl.
  apply Z.leb_le in Hamt. rewrite Hamt. simpl.
  rewrite bind_run. unfold Order_setPayment. rewrite (bind_run get). unfold get at 1.
  rewrite bind_run, asserts_run.
  assert (Hfree' : paymentCodeFree
            (set_transactions (<[newId (transactions db) := pendingTransaction env now o]>
                                 (transactions db)) db)
            (req_orderId req) (pretty (generateUniquePaymentCode now rand)) = true)
    by exact Hfree.
  unfold pendingTransaction in Hfree'. rewrite Hfree'. simpl.
  unfold paymentDataOf.
  destruct (payOS_createPaymentLink payOS _) as [msg|resp]; [|reflexivity].
  rewrite bind_run. simpl. f_equal. unfold set_transactions, set_orders. simpl.
  f_equal. by rewrite alter_insert_eq.
Qed.

(** X28: what [createPaymentLink] of src/service/paymentService.js does for a
    pending order that already carries a [paymentCode] (this copy of the
    service has the guards on a missing order and on a status other than
    [pending] only): a call that the gateway accepts saves a new [pending]
    Transaction and overwrites the order's [transactionId] and [paymentCode]
    with the new ones. *)
Theorem createPaymentLink_reissues payOS env now rand req db o account items oldCode resp :
  orders db !! req_orderId req = Some o →
  status o = pending →
  paymentCode o = Some oldCode →
  paymentItems db (itemsOf db (req_orderId req)) = inr items →
  accounts db !! accountId o = Some account →
  0 ≤ totalAmount o →
  paymentCodeFree db (req_orderId req) (pretty (generateUniquePaymentCode now rand)) = true →
  payOS_createPaymentLink payOS (paymentDataOf env now rand req o account items) = inr resp →
  ∃ link db',
    createPaymentLink payOS env now rand req db = (inr link, db')
    ∧ pl_paymentCode link = generateUniquePaymentCode now rand
    ∧ transactions db !! pl_transactionId link = None
    ∧ transactions db' !! pl_transactionId link = Some (pendingTransaction env now o)
    ∧ orders db' !! req_orderId req
      = Some (with_payment_link now (pl_transactionId link)
                (pretty (generateUniquePaymentCode now rand)) o).
Proof.
  intros Ho Hst _ Hitems Hacc Hamt Hfree Hgw.
  rewrite (createPaymentLink_run payOS env now rand req db o account items) by done.
  rewrite Hgw. eexists _, _. split; [reflexivity|]. simpl. repeat split.
  - apply not_elem_of_dom. unfold newId. apply is_fresh.
  - by rewrite lookup_insert_eq.
  - by rewrite lookup_alter_eq, Ho.
Qed.

(** The guards [createPaymentLink] does have. *)
Lemma createPaymentLink_missing_order payOS env now rand req db :
  orders db !! req_orderId req = None →
  createPaymentLink payOS env now rand req db = (inl OrderNotFound, db).
Proof.
  intros Ho. unfold createPaymentLink. rewrite bind_run. unfold Order_findById.
  by rewrite Ho.
Qed.

Lemma createPaymentLink_not_pending payOS env now rand req db o :
  orders db !! req_orderId req = Some o → status o ≠ pending →
  createPaymentLink payOS env now rand req db = (inl OrderNotPending, db).
Proof.
  intros Ho Hst. unfold createPaymentLink. rewrite bind_run. unfold Order_findById.
  rewrite Ho. by rewrite bool_decide_eq_false_2.
Qed.

(** A second link for the order that waits under the code "123456". *)
Lemma createPaymentLink_reissues_witness :
  ∃ link db',
    createPaymentLink gatewayUp env0 5000 42 linkRequest awaitingPayment = (inr link, db')
    ∧ pl_paymentCode link = 5000042
    ∧ paymentCode <$> orders db' !! 1%positive = Some (Some "5000042")
    ∧ transactionId <$> orders db' !! 1%positive = Some (Some (pl_transactionId link)).
Proof.
  destruct (createPaymentLink_reissues gatewayUp env0 5000 42 linkRequest awaitingPayment
              (mkOrder 1 150000 0 1000 None pending "12 Hang Bong"
                 (Some 1%positive) (Some "123456") 1500)
              (mkAccount "An" "an@example.com" "0900000000")
              [mkPaymentItem "rose" 2 7500000] "123456"
              (mkLinkResponse "https://pay.example/checkout" "QR" "link-1"))
    as (link & db' & Hrun & Hcode & _ & _ & Ho);
    try (vm_compute; reflexivity); try (vm_compute; discriminate).
  exists link, db'. split; [exact Hrun|]. split; [exact Hcode|].
  change (req_orderId linkRequest) with 1%positive in Ho.
  rewrite Ho. split; reflexivity.
Defined.

(** C6: the second call is not refused.  Two calls in a row for a freshly
    created order: the first gives the order the code 2000007; the second, made
    while the order carries that code, returns a link as well, replaces the
    code by 3000008 and adds a second Transaction.  The check that the
    specification asks for, [if (order.paymentCode) throw 'Payment link already
    exists for this order'], is in the two copies of the service kept in
    src/service/categoryService.js and is missing from
    src/service/paymentService.js. *)
Theorem second_payment_link_is_issued :
  let first := createPaymentLink gatewayUp env0 2000 7 linkRequest justOrdered in
  let second := createPaymentLink gatewayUp env0 3000 8 linkRequest first.2 in
  pl_paymentCode <$> (match first.1 with inr l => Some l | inl _ => None end) = Some 2000007
  ∧ paymentCode <$> orders first.2 !! 1%positive = Some (Some "2000007")
  ∧ pl_paymentCode <$> (match second.1 with inr l => Some l | inl _ => None end) = Some 3000008
  ∧ paymentCode <$> orders second.2 !! 1%positive = Some (Some "3000008")
  ∧ size (transactions first.2) = 1%nat
  ∧ size (transactions second.2) = 2%nat.
Proof. vm_compute. done. Qed.

(** X29: what the [catch] of [createPaymentLink] in
    src/service/paymentService.js leaves behind when the gateway call throws:
    the Transaction it has just saved is marked [failed] and the error is
    rethrown; the Order still carries the new [paymentCode] and
    [transactionId] and its status [pending]; flowers (the reserved stock) and
    order items are untouched. *)
Theorem createPaymentLink_gateway_failure payOS env now rand req db o account items msg :
  orders db !! req_orderId req = Some o →
  status o = pending →
  paymentItems db (itemsOf db (req_orderId req)) = inr items →
  accounts db !! accountId o = Some account →
  0 ≤ totalAmount o →
  paymentCodeFree db (req_orderId req) (pretty (generateUniquePaymentCode now rand)) = true →
  payOS_createPaymentLink payOS (paymentDataOf env now rand req o account items) = inl msg →
  ∃ db',
    createPaymentLink payOS env now rand req db = (inl (PaymentLinkCreationFailed msg), db')
    ∧ transactions db !! newId (transactions db) = None
    ∧ transactions db' !! newId (transactions db)
      = Some (with_transactionStatus now tx_failed (pendingTransaction env now o))
    ∧ orders db' !! req_orderId req
      = Some (with_payment_link now (newId (transactions db))
                (pretty (generateUniquePaymentCode now rand)) o)
    ∧ flowers db' = flowers db
    ∧ orderItems db' = orderItems db.
Proof.
  intros Ho Hst Hitems Hacc Hamt Hfree Hgw.
  rewrite (createPaymentLink_run payOS env now rand req db o account items) by done.
  rewrite Hgw. eexists. split; [reflexivity|]. simpl. repeat split.
  - apply not_elem_of_dom. unfold newId. apply is_fresh.
  - by rewrite lookup_insert_eq.
  - by rewrite lookup_alter_eq, Ho.
Qed.

(** The gateway is down when the link for the fresh order is requested. *)
Lemma createPaymentLink_gateway_failure_witness :
  ∃ db',
    createPaymentLink gatewayDown env0 2000 7 linkRequest justOrdered
    = (inl (PaymentLinkCreationFailed "ECONNREFUSED"), db')
    ∧ transactionStatus <$> transactions db' !! 1%positive = Some tx_failed
    ∧ paymentCode <$> orders db' !! 1%positive = Some (Some "2000007")
    ∧ status <$> orders db' !! 1%positive = Some pending
    ∧ stockOf db' 1 = 3.
Proof.
  destruct (createPaymentLink_gateway_failure gatewayDown env0 2000 7 linkRequest justOrdered
              (mkOrder 1 150000 0 1000 None pending "12 Hang Bong" None None 1000)
              (mkAccount "An" "an@example.com" "0900000000")
              [mkPaymentItem "rose" 2 7500000] "ECONNREFUSED")
    as (db' & Hrun & _ & Ht & Ho & Hfl & _);
    try (vm_compute; reflexivity); try (vm_compute; discriminate).
  exists db'. split; [exact Hrun|].
  assert (Hid : newId (transactions justOrdered) = 1%positive) by (vm_compute; reflexivity).
  rewrite Hid in Ht, Ho. change (req_orderId linkRequest) with 1%positive in Ho.
  rewrite Ht, Ho. unfold stockOf. rewrite Hfl.
  repeat split; vm_compute; reflexivity.
Defined.

(** C7: the [paymentCode] is not cleared.  The gateway is down when the link
    for the fresh order is requested: the call throws, the Transaction is
    [failed], the order stays [pending] and the stock stays at 3, as
    specified; but the order, which had no [paymentCode], now carries the code
    2000007 of the failed attempt.  The [catch] blocks of the two copies of
    the service kept in src/service/categoryService.js run [$unset: {
    paymentCode: 1 }] on the order; the one of src/service/paymentService.js
    does not. *)
Theorem gateway_failure_keeps_paymentCode :
  let out := createPaymentLink gatewayDown env0 2000 7 linkRequest justOrdered in
  out.1 = inl (PaymentLinkCreationFailed "ECONNREFUSED")
  ∧ transactionStatus <$> transactions out.2 !! 1%positive = Some tx_failed
  ∧ status <$> orders out.2 !! 1%positive = Some pending
  ∧ stockOf justOrdered 1 = 3 ∧ stockOf out.2 1 = 3
  ∧ paymentCode <$> orders justOrdered !! 1%positive = Some None
  ∧ paymentCode <$> orders out.2 !! 1%positive = Some (Some "2000007")
  ∧ paymentCode <$> orders out.2 !! 1%positive ≠ Some None.
Proof. vm_compute. repeat split; try reflexivity. discriminate. Qed.

(** ** The webhook route *)

(** C9: the webhook handler checks the signature before it looks at the
    database: when the verification does not return true the request is
    answered 400 with [success: false], the database is untouched and the
    answer is the same whatever the database holds.  Every error the handler
    throws reaches the caller as a 400 JSON body carrying the error's message,
    and only a normal return is answered 200. *)
Theorem webhook_safety payOS now body db :
  (payOS_verifyPaymentWebhookData payOS body ≠ inr true →
     (post_payments_webhook payOS now body db).2 = db
     ∧ http_status (post_payments_webhook payOS now body db).1 = 400
     ∧ body_success (http_json (post_payments_webhook payOS now body db).1) = false
     ∧ ∀ db2, (post_payments_webhook payOS now body db2).1
              = (post_payments_webhook payOS now body db).1)
  ∧ (payOS_verifyPaymentWebhookData payOS body = inr false →
     post_payments_webhook payOS now body db
     = (mkResponse 400 (mkBody false "Invalid webhook signature" None), db))
  ∧ (∀ e db', handlePaymentWebhook payOS now body db = (inl e, db') →
       post_payments_webhook payOS now body db
       = (mkResponse 400 (mkBody false (message e) None), db'))
  ∧ (∀ r db', handlePaymentWebhook payOS now body db = (inr r, db') →
       post_payments_webhook payOS now body db
       = (mkResponse 200 (mkBody true (w_message r) (Some (w_orderCode r, w_status r))), db')).
Proof.
  unfold post_payments_webhook. repeat split.
  - unfold handlePaymentWebhook.
    destruct (payOS_verifyPaymentWebhookData payOS body) as [?|[|]]; done.
  - unfold handlePaymentWebhook.
    destruct (payOS_verifyPaymentWebhookData payOS body) as [?|[|]]; done.
  - unfold handlePaymentWebhook.
    destruct (payOS_verifyPaymentWebhookData payOS body) as [?|[|]]; done.
  - intros db2. unfold handlePaymentWebhook.
    destruct (payOS_verifyPaymentWebhookData payOS body) as [?|[|]]; done.
  - intros Hver. unfold handlePaymentWebhook. by rewrite Hver.
  - intros e db' ->. reflexivity.
  - intros r db' ->. reflexivity.
Qed.

(** A webhook with a bad signature, and a webhook for an order that has no
    transaction (the handler then reads a field of [null]). *)
Lemma webhook_safety_witness :
  post_payments_webhook gatewayRejecting 2000 paidWebhook awaitingPayment
  = (mkResponse 400 (mkBody false "Invalid webhook signature" None), awaitingPayment)
  ∧ http_status (post_payments_webhook gatewayUp 2000 paidWebhook unlinkedOrder).1 = 400.
Proof.
  destruct (webhook_safety gatewayRejecting 2000 paidWebhook awaitingPayment)
    as (_ & Hsig & _).
  destruct (webhook_safety gatewayUp 2000 paidWebhook unlinkedOrder) as (_ & _ & Herr & _).
  split.
  - apply Hsig. reflexivity.
  - rewrite (Herr (TypeError "null (reading 'transactionStatus')") unlinkedOrder).
    + reflexivity.
    + vm_compute. reflexivity.
Defined.

(** ** The timeout reaper *)

Lemma with_cancelled_twice now o :
  with_cancelled now (with_cancelled now o) = with_cancelled now o.
Proof. reflexivity. Qed.

Lemma cancelExpiredOrder_orders now order db :
  orders (cancelExpiredOrder now order db) = alter (with_cancelled now) order.1 (orders db).
Proof. unfold cancelExpiredOrder. by destruct (transactionId order.2). Qed.

Lemma cancelExpiredOrders_lookup now l : ∀ db id,
  orders (cancelExpiredOrders now l db) !! id
  = if decide (id ∈ l.*1) then with_cancelled now <$> orders db !! id
    else orders db !! id.
Proof.
  induction l as [|order l IH]; intros db id.
  - destruct (decide (id ∈ ([] : list (ObjectId * Order)).*1)) as [Hin|_]; [|done].
    by apply elem_of_nil in Hin.
  - change (cancelExpiredOrders now (order :: l) db)
      with (cancelExpiredOrders now l (cancelExpiredOrder now order db)).
    rewrite IH, cancelExpiredOrder_orders.
    destruct (decide (id ∈ (order :: l).*1)) as [Hin|Hnin];
      destruct (decide (id ∈ l.*1)) as [Hin'|Hnin'].
    + destruct (decide (order.1 = id)) as [<-|Hne].
      * rewrite lookup_alter_eq. destruct (orders db !! order.1); [|done].
        simpl. by rewrite with_cancelled_twice.
      * by rewrite lookup_alter_ne.
    + rewrite fmap_cons in Hin. apply elem_of_cons in Hin as [->|?]; [|done].
      by rewrite lookup_alter_eq.
    + exfalso. apply Hnin. rewrite fmap_cons. by right.
    + rewrite lookup_alter_ne; [done|]. intros <-. apply Hnin. rewrite fmap_cons. by left.
Qed.

Lemma findExpiredOrders_elem now db id :
  id ∈ (findExpiredOrders now db).*1 ↔ ∃ o, orders db !! id = Some o ∧ expired now o = true.
Proof.
  unfold findExpiredOrders, find. rewrite list_elem_of_fmap. split.
  - intros ([id' o] & -> & Hin). apply list_elem_of_filter in Hin as [HP Hin].
    apply elem_of_map_to_list in Hin. exists o. split; [done|]. by apply Is_true_true.
  - intros (o & Ho & He). exists (id, o). split; [done|].
    apply list_elem_of_filter. split; [simpl; by rewrite He|]. by apply elem_of_map_to_list.
Qed.

Lemma checkAndCancelExpiredPayments_lookup now db id :
  orders (checkAndCancelExpiredPayments now db) !! id = reaped now <$> orders db !! id.
Proof.
  unfold checkAndCancelExpiredPayments. rewrite cancelExpiredOrders_lookup.
  destruct (orders db !! id) as [o|] eqn:Ho.
  - unfold reaped. simpl.
    destruct (decide (id ∈ (findExpiredOrders now db).*1)) as [Hin|Hnin].
    + apply findExpiredOrders_elem in Hin as (o' & Ho' & He').
      assert (o' = o) as -> by congruence. by rewrite He'.
    + destruct (expired now o) eqn:He; [|done].
      exfalso. apply Hnin, findExpiredOrders_elem. eauto.
  - by destruct (decide (id ∈ (findExpiredOrders now db).*1)).
Qed.

Lemma expired_reaped now o : expired now (reaped now o) = false.
Proof.
  unfold reaped. destruct (expired now o) eqn:He; [|done].
  unfold expired. simpl. done.
Qed.

Lemma expired_with_cancelled now now' o : expired now' (with_cancelled now o) = false.
Proof. reflexivity. Qed.

(** C5, as the code has it: the conditions [status = pending], [paymentCode]
    set and [orderAt] before the threshold are in the query of the tick, and
    the update that follows selects by [_id] alone.  Over a tick that no other
    writer interleaves with, an order is rewritten only when it met the three
    conditions when the tick began, and it is then [cancelled]; every other
    order, so every order that is paid, confirmed, shipped, delivered or
    already cancelled, is left as it was.  In the state the tick leaves, the
    query at the same clock reading selects nothing, and whatever the query of
    a later tick selects, at any clock reading, is an order this tick did not
    select and did not rewrite: no later tick selects an order that this tick
    has cancelled. *)
Theorem reaper_tick_cancels_only_expired_pending now db id o :
  orders db !! id = Some o →
  orders (checkAndCancelExpiredPayments now db) !! id
  = Some (if expired now o then with_cancelled now o else o)
  ∧ (status o ≠ pending ∨ paymentCode o = None ∨ timeoutThreshold now ≤ orderAt o →
     orders (checkAndCancelExpiredPayments now db) !! id = Some o)
  ∧ (orders (checkAndCancelExpiredPayments now db) !! id ≠ Some o →
     status o = pending ∧ is_Some (paymentCode o) ∧ orderAt o < timeoutThreshold now)
  ∧ findExpiredOrders now (checkAndCancelExpiredPayments now db) = []
  ∧ (∀ now' id' o',
       (id', o') ∈ findExpiredOrders now' (checkAndCancelExpiredPayments now db) →
       orders db !! id' = Some o' ∧ expired now o' = false
       ∧ id' ∉ (findExpiredOrders now db).*1).
Proof.
  intros Ho.
  assert (Hlook : orders (checkAndCancelExpiredPayments now db) !! id = Some (reaped now o))
    by (by rewrite checkAndCancelExpiredPayments_lookup, Ho).
  assert (Hlater : ∀ now' id' o',
             (id', o') ∈ findExpiredOrders now' (checkAndCancelExpiredPayments now db) →
             orders db !! id' = Some o' ∧ expired now o' = false
             ∧ id' ∉ (findExpiredOrders now db).*1).
  { intros now' id' o' Hin.
    unfold findExpiredOrders, find in Hin. apply list_elem_of_filter in Hin as [HP Hin].
    apply elem_of_map_to_list in Hin. rewrite checkAndCancelExpiredPayments_lookup in Hin.
    destruct (orders db !! id') as [o0|] eqn:Ho0; [|done]. simpl in Hin. injection Hin as <-.
    simpl in HP. unfold reaped in HP |- *.
    destruct (expired now o0) eqn:He.
    - by rewrite expired_with_cancelled in HP.
    - split; [done|]. split; [done|].
      intros (o1 & Ho1 & He1)%findExpiredOrders_elem. congruence. }
  split; [exact Hlook|]. split; [|split; [|split; [|exact Hlater]]].
  - intros Hnot. rewrite Hlook. f_equal. unfold reaped.
    destruct (expired now o) eqn:He; [|done]. exfalso. unfold expired in He.
    apply andb_true_iff in He as [[H1%bool_decide_eq_true H2%bool_decide_eq_true]%andb_true_iff
                                   H3%Z.ltb_lt].
    destruct Hnot as [?|[Hc|?]]; [done| |lia]. rewrite Hc in H2. by destruct H2.
  - intros Hchanged. rewrite Hlook in Hchanged. unfold reaped in Hchanged.
    destruct (expired now o) eqn:He; [|done]. unfold expired in He.
    apply andb_true_iff in He as [[H1%bool_decide_eq_true H2%bool_decide_eq_true]%andb_true_iff
                                   H3%Z.ltb_lt].
    done.
  - apply elem_of_nil_inv. intros [id' o'] Hin.
    pose proof Hin as Hin'. apply Hlater in Hin' as (_ & He & _).
    unfold findExpiredOrders, find in Hin. apply list_elem_of_filter in Hin as [HP _].
    simpl in HP. by rewrite He in HP.
Qed.

(** A tick eleven minutes after order 1 was placed cancels it. *)
Lemma reaper_tick_cancels_only_expired_pending_witness :
  status <$> orders (checkAndCancelExpiredPayments elevenMinutesLater awaitingPayment)
               !! 1%positive = Some cancelled
  ∧ status <$> orders (checkAndCancelExpiredPayments elevenMinutesLater afterPaid)
                 !! 1%positive = Some paid.
Proof.
  split.
  - destruct (reaper_tick_cancels_only_expired_pending elevenMinutesLater awaitingPayment
                1%positive _ eq_refl) as (-> & _). reflexivity.
  - destruct (reaper_tick_cancels_only_expired_pending elevenMinutesLater afterPaid
                1%positive (mkOrder 1 150000 0 1000 (Some 2000) paid "12 Hang Bong"
                              (Some 1%positive) (Some "123456") 2000)) as (_ & Hkept & _).
    + vm_compute. reflexivity.
    + rewrite Hkept; [reflexivity|]. left. discriminate.
Defined.

(** The tick reads its list of expired orders while order 1 is pending; the
    PAID webhook is handled before the tick reaches its update; the update
    then cancels the paid order and its completed Transaction.  And an update
    for an order that is already cancelled still rewrites the document. *)
Lemma reaper_update_hits_paid_order :
  let found := findExpiredOrders elevenMinutesLater awaitingPayment in
  let paidMeanwhile :=
    (handlePaymentWebhook gatewayUp elevenMinutesLater paidWebhook awaitingPayment).2 in
  let swept := cancelExpiredOrders elevenMinutesLater found paidMeanwhile in
  found.*1 = [1%positive]
  ∧ status <$> orders paidMeanwhile !! 1%positive = Some paid
  ∧ transactionStatus <$> transactions paidMeanwhile !! 1%positive = Some tx_completed
  ∧ status <$> orders swept !! 1%positive = Some cancelled
  ∧ transactionStatus <$> transactions swept !! 1%positive = Some tx_cancelled
  ∧ cancelExpiredOrders (elevenMinutesLater + 1) found swept ≠ swept.
Proof.
  vm_compute. repeat split; try reflexivity. intros H.
  apply (f_equal (λ d, order_updatedAt <$> orders d !! 1%positive)) in H.
  vm_compute in H. discriminate H.
Qed.

(** * Further properties of the services *)

(** ** [generateUniquePaymentCode] *)

Lemma generateUniquePaymentCode_split now randomNum :
  0 ≤ randomNum < 1000 →
  generateUniquePaymentCode now randomNum / 1000 = now mod 1000000
  ∧ generateUniquePaymentCode now randomNum mod 1000 = randomNum.
Proof.
  intros Hr. unfold generateUniquePaymentCode.
  pose proof (Z.mod_pos_bound now 1000000 ltac:(lia)) as Hm. split.
  - rewrite Z.div_add_l by lia. rewrite Z.div_small by lia. lia.
  - rewrite Z.add_comm, Z.mod_add by lia. apply Z.mod_small. lia.
Qed.

(** X1: with the random part in 0..999 the code has at most nine digits: its
    last three are the random part and the digits before them are the last six
    digits of the clock. *)
Theorem generateUniquePaymentCode_digits now randomNum :
  0 ≤ randomNum < 1000 →
  generateUniquePaymentCode now randomNum / 1000 = now mod 1000000
  ∧ generateUniquePaymentCode now randomNum mod 1000 = randomNum
  ∧ 0 ≤ generateUniquePaymentCode now randomNum < 1000000000.
Proof.
  intros Hr. destruct (generateUniquePaymentCode_split now randomNum Hr) as [Hd Hm].
  split; [exact Hd|]. split; [exact Hm|].
  unfold generateUniquePaymentCode.
  pose proof (Z.mod_pos_bound now 1000000 ltac:(lia)). lia.
Qed.

Lemma generateUniquePaymentCode_digits_witness :
  generateUniquePaymentCode 1730600123456 42 / 1000 = 123456
  ∧ generateUniquePaymentCode 1730600123456 42 mod 1000 = 42.
Proof.
  destruct (generateUniquePaymentCode_digits 1730600123456 42) as (H1 & H2 & _); [lia|].
  rewrite H1, H2. split; reflexivity.
Defined.

(** X2: two codes are equal exactly when the clocks agree on their last six
    digits and the random parts are equal; so the code of a given random part
    comes back every 1000 seconds. *)
Theorem generateUniquePaymentCode_collision now1 rand1 now2 rand2 :
  0 ≤ rand1 < 1000 → 0 ≤ rand2 < 1000 →
  (generateUniquePaymentCode now1 rand1 = generateUniquePaymentCode now2 rand2
   ↔ now1 mod 1000000 = now2 mod 1000000 ∧ rand1 = rand2)
  ∧ generateUniquePaymentCode (now1 + 1000000) rand1 = generateUniquePaymentCode now1 rand1.
Proof.
  intros H1 H2. split; [split|].
  - intros Heq.
    destruct (generateUniquePaymentCode_split now1 rand1 H1) as [Hd1 Hm1].
    destruct (generateUniquePaymentCode_split now2 rand2 H2) as [Hd2 Hm2].
    rewrite Heq in Hd1, Hm1. split; congruence.
  - intros [Hn ->]. unfold generateUniquePaymentCode. by rewrite Hn.
  - unfold generateUniquePaymentCode.
    replace (now1 + 1000000) with (now1 + 1 * 1000000) by lia.
    by rewrite Z.mod_add by lia.
Qed.

Lemma generateUniquePaymentCode_collision_witness :
  generateUniquePaymentCode 1730601123456 42 = generateUniquePaymentCode 1730600123456 42.
Proof.
  destruct (generateUniquePaymentCode_collision 1730600123456 42 1730600123456 42) as [_ H];
    [lia|lia|]. exact H.
Defined.

Lemma ret_run {A} (a : A) (db : DB) : (mret a : M A) db = (inr a, db).
Proof. reflexivity. Qed.

(** ** [createOrder]: validation and what is persisted *)

(** X3: a line item whose quantity is zero or negative passes the stock check
    (and would raise the stock), yet the order is refused and nothing is
    written: the item fails the [min: 1] validation of [insertMany] and the
    session is aborted. *)
Theorem createOrder_rejects_nonpositive_quantity faults now od uid db item :
  item ∈ items od →
  item_quantity item < 1 →
  ∃ e, createOrder faults now od uid db = (inl e, db).
Proof.
  intros Hin Hq. unfold createOrder.
  destruct (createOrder_session faults now od uid db) as [[e|id] tx] eqn:Hsession;
    [by exists e|].
  destruct (createOrder_session_quantities _ _ _ _ _ _ _ Hsession item Hin) as (Hpos & _).
  lia.
Qed.

Lemma createOrder_rejects_nonpositive_quantity_witness :
  ∃ e, createOrder no_faults 1000 (mkOrderData [mkItem 1 (-2)] "12 Hang Bong" None) 1 shop
       = (inl e, shop).
Proof.
  apply (createOrder_rejects_nonpositive_quantity _ _ _ _ _ (mkItem 1 (-2))).
  - simpl. apply list_elem_of_here.
  - simpl. lia.
Defined.

(** X4: an address that is empty or only white space (all the white space
    that [trim] strips), and a shipping fee that casts to a negative number,
    are refused after the stock was reserved in the session; the reservation
    does not survive and the database is what it was. *)
Theorem createOrder_rejects_invalid_order faults now od uid db :
  trim (data_addressShip od) = ""
  ∨ (∃ fee, castNumber (default (JsNumber 0) (data_shippingFee od)) = Some fee ∧ fee < 0) →
  ∃ e, createOrder faults now od uid db = (inl e, db).
Proof.
  intros Hbad. unfold createOrder.
  destruct (createOrder_session faults now od uid db) as [[e|id] tx] eqn:Hsession;
    [by exists e|].
  apply createOrder_session_inv in Hsession
    as (tot & acc & db1 & total & fee & _ & _ & _ & _ & _ & _ & _ & _ & _ & _
        & _ & Hfee & _ & Hpos & Haddr).
  destruct Hbad as [Hblank|(fee' & Hfee' & Hneg)]; [done|].
  rewrite Hfee in Hfee'. injection Hfee' as <-. lia.
Qed.

(** An address made of a vertical tab, a no-break space and an ideographic
    space; a fee of -1. *)
Lemma createOrder_rejects_invalid_order_witness :
  (∃ e, createOrder no_faults 1000
          (mkOrderData [mkItem 1 2]
             (String (Ascii.ascii_of_nat 11)
                (String (Ascii.ascii_of_nat 194) (String (Ascii.ascii_of_nat 160)
                   (String (Ascii.ascii_of_nat 227) (String (Ascii.ascii_of_nat 128)
                      (String (Ascii.ascii_of_nat 128) ""))))))
             None) 1 shop = (inl e, shop))
  ∧ (∃ e, createOrder no_faults 1000
            (mkOrderData [mkItem 1 2] "12 Hang Bong" (Some (JsNumber (-1)))) 1 shop
          = (inl e, shop)).
Proof.
  split.
  - apply createOrder_rejects_invalid_order. left. vm_compute. reflexivity.
  - apply createOrder_rejects_invalid_order. right. exists (-1). split; [reflexivity|lia].
Defined.

(** X5: an order without line items is accepted: with an address that is not
    blank after [trim] and a fee that is absent or a non-negative number,
    [createOrder] on an empty [items] array stores a pending order whose total
    is the shipping fee and touches nothing else. *)
Theorem createOrder_empty_cart now od uid db fee :
  items od = [] →
  trim (data_addressShip od) ≠ "" →
  numericFee od = Some fee →
  0 ≤ fee →
  ∃ h, createOrder no_faults now od uid db
       = (inr h,
          set_orders (<[newId (orders db) := newOrder now od uid fee fee]> (orders db)) db)
     ∧ h_id h = newId (orders db)
     ∧ h_order h = newOrder now od uid fee fee
     ∧ totalAmount (h_order h) = fee
     ∧ status (h_order h) = pending.
Proof.
  intros Hitems Haddr Hnum Hfee.
  assert (Htrim : bool_decide (trim (data_addressShip od) = "") = false)
    by by apply bool_decide_eq_false.
  destruct (castNumber_numericFee od 0 fee Hnum) as [Ht Hf]. rewrite Z.add_0_l in Ht.
  apply Z.leb_le in Hfee.
  unfold createOrder, createOrder_session. rewrite Hitems. cbn [reserveItems].
  rewrite bind_run, ret_run. cbv beta iota.
  rewrite bind_run, asserts_run. cbn [no_faults negb].
  rewrite Ht, Hf.
  rewrite bind_run. unfold Order_save.
  rewrite bind_run, asserts_run. cbn [totalAmount shippingFee addressShip].
  rewrite Hfee. rewrite bind_run, asserts_run.
  rewrite bind_run, asserts_run, Htrim. cbn [negb].
  rewrite bind_run. unfold get at 1. rewrite bind_run. unfold modify at 1. rewrite ret_run.
  rewrite bind_run, asserts_run. cbn [no_faults negb].
  rewrite bind_run. unfold OrderItem_insertMany. rewrite bind_run, asserts_run.
  cbn [map forallb foldl]. unfold modify at 1.
  rewrite bind_run, asserts_run. cbn [no_faults negb]. rewrite ret_run.
  unfold getOrderById. rewrite bind_run. unfold Order_findById.
  cbn [orders set_orders set_orderItems]. rewrite lookup_insert_eq.
  rewrite bind_run. unfold get. rewrite ret_run.
  eexists. split; [reflexivity|]. cbn [h_id h_order]. repeat split.
Qed.

Lemma createOrder_empty_cart_witness :
  ∃ h, (createOrder no_faults 1000
          (mkOrderData [] "12 Hang Bong" (Some (JsNumber 30000))) 1 shop).1
       = inr h
     ∧ totalAmount (h_order h) = 30000.
Proof.
  destruct (createOrder_empty_cart 1000
              (mkOrderData [] "12 Hang Bong" (Some (JsNumber 30000))) 1 shop 30000)
    as (h & Hrun & _ & _ & Htot & _);
    [reflexivity|vm_compute; discriminate|reflexivity|lia|].
  exists h. rewrite Hrun. split; [reflexivity|exact Htot].
Defined.

Lemma filter_snd {A} (P : A → bool) (l : list (ObjectId * A)) :
  filter (λ a, P a) (l.*2) = (filter (λ kv, P kv.2) l).*2.
Proof.
  induction l as [|[k a] l IH]; [done|]. rewrite fmap_cons, !filter_cons. cbn [snd].
  destruct (decide (P a)); [rewrite fmap_cons|]; by rewrite IH.
Qed.

Lemma find_snd {A} (P : A → bool) (m : gmap positive A) :
  (find P m).*2 = filter (λ a, P a) (map_to_list m).*2.
Proof. unfold find. by rewrite filter_snd. Qed.

Lemma filter_all {A} (P : A → Prop) `{∀ a, Decision (P a)} (l : list A) :
  (∀ a, a ∈ l → P a) → filter P l = l.
Proof.
  induction l as [|a l IH]; intros Hall; [done|]. rewrite filter_cons.
  rewrite decide_True by (apply Hall; left). f_equal. apply IH.
  intros x Hx. apply Hall. by right.
Qed.

Lemma insertMany_elements {A} (docs : list A) : ∀ m : gmap positive A,
  (map_to_list (foldl (λ m d, <[newId m := d]> m) m docs)).*2 ≡ₚ docs ++ (map_to_list m).*2.
Proof.
  induction docs as [|d docs IH]; intros m; [done|]. simpl. rewrite IH.
  rewrite map_to_list_insert by (apply not_elem_of_dom; unfold newId; apply is_fresh).
  simpl. by rewrite Permutation_middle.
Qed.

Lemma createOrder_session_items faults now od uid db id tx :
  createOrder_session faults now od uid db = (inr id, tx) →
  orderItems tx
  = foldl (λ m d, <[newId m := d]> m) (orderItems db) (newOrderItems db (items od) id).
Proof.
  unfold createOrder_session. rewrite bind_run.
  destruct (reserveItems faults 0 (items od) 0 [] db) as [[e|[tot acc]] db1] eqn:Hloop;
    [discriminate|].
  destruct (reserveItems_total _ _ _ _ _ _ _ _ _ Hloop) as [_ Hacc].
  destruct (reserveItems_frame _ _ _ _ _ _ _ _ Hloop) as (_ & _ & Hitems & _).
  rewrite bind_run, asserts_run.
  destruct (faults SaveOrder); cbn [negb]; [discriminate|].
  destruct (castNumber (js_plus tot (default (JsNumber 0) (data_shippingFee od))))
    as [total|]; [|discriminate].
  destruct (castNumber (default (JsNumber 0) (data_shippingFee od)))
    as [fee|]; [|discriminate].
  rewrite bind_run. unfold Order_save.
  rewrite bind_run, asserts_run. cbn [totalAmount].
  destruct (0 <=? total); [|discriminate].
  rewrite bind_run, asserts_run. cbn [shippingFee].
  destruct (0 <=? fee); [|discriminate].
  rewrite bind_run, asserts_run. cbn [addressShip].
  destruct (bool_decide (trim (data_addressShip od) = "")); [discriminate|]. cbn [negb].
  rewrite bind_run. simpl. rewrite !bind_run. simpl.
  rewrite asserts_run. destruct (faults InsertItems); simpl; [discriminate|].
  rewrite bind_run. unfold OrderItem_insertMany. rewrite bind_run, asserts_run.
  match goal with |- context [if ?b then _ else _] => destruct b; [|discriminate] end.
  simpl. rewrite bind_run, asserts_run. destruct (faults Commit); simpl; [discriminate|].
  intros [= <- <-]. simpl. rewrite Hitems, Hacc. simpl.
  unfold newOrderItems. by rewrite map_map.
Qed.

(** X6: the hydrated order a successful [createOrder] returns lists, up to
    order, one OrderItem per requested line, each with the flower's price at
    the time of the call as [actualPrice], next to any item the collection
    already held under the new order's id. *)
Theorem createOrder_persists_price_snapshots faults now od uid db h db' :
  createOrder faults now od uid db = (inr h, db') →
  (h_items h).*2 ≡ₚ newOrderItems db (items od) (h_id h) ++ (itemsOf db (h_id h)).*2.
Proof.
  unfold createOrder.
  destruct (createOrder_session faults now od uid db) as [[e|id] tx] eqn:Hsession;
    [discriminate|].
  destruct (faults ReadBack); [discriminate|].
  pose proof (createOrder_session_items _ _ _ _ _ _ _ Hsession) as Hitems.
  apply createOrder_session_inv in Hsession
    as (tot & acc & db1 & total & fee & Hloop & _ & _ & _ & Hid & _ & _ & _ & _ & Hord & _).
  unfold getOrderById. rewrite bind_run. unfold Order_findById at 1.
  rewrite Hord, lookup_insert_eq. rewrite bind_run. simpl.
  intros [= <- <-]. cbn [h_items h_id]. unfold itemsOf.
  rewrite !find_snd. rewrite Hitems, insertMany_elements, filter_app.
  f_equiv. rewrite filter_all; [done|]. intros it Hit. unfold newOrderItems in Hit.
  apply list_elem_of_fmap in Hit as (x & -> & _). simpl. by apply bool_decide_pack.
Qed.

Lemma createOrder_persists_price_snapshots_witness :
  ∃ h, (createOrder no_faults 1000 (mkOrderData [mkItem 1 2] "12 Hang Bong" None) 1 shop).1
       = inr h
     ∧ (h_items h).*2 ≡ₚ [mkOrderItem 1 75000 2 (h_id h)].
Proof.
  destruct (createOrder no_faults 1000 (mkOrderData [mkItem 1 2] "12 Hang Bong" None) 1 shop)
    as [[e|h] db'] eqn:E.
  - vm_compute in E. discriminate E.
  - exists h. split; [reflexivity|].
    rewrite (createOrder_persists_price_snapshots _ _ _ _ _ _ _ E).
    assert (Hid : h_id h = 1%positive) by (vm_compute in E; by injection E as <- _).
    rewrite Hid. vm_compute. reflexivity.
Defined.

(** ** Order items: create, delete, update *)

Lemma set_all_id db :
  set_flowers (flowers db) (set_orderItems (orderItems db) db) = db.
Proof. by destruct db. Qed.

Lemma alter_inc_stock_back q f (m : gmap positive Flower) :
  alter (inc_stock q) f (alter (inc_stock (- q)) f m) = m.
Proof.
  apply map_eq. intros g. destruct (decide (f = g)) as [<-|Hne].
  - rewrite !lookup_alter_eq. destruct (m !! f) as [[n p s]|]; [|done].
    simpl. unfold inc_stock. simpl. do 2 f_equal. lia.
  - by rewrite !lookup_alter_ne.
Qed.

Lemma createOrderItem_inv d db id doc db1 :
  createOrderItem d db = (inr (id, doc), db1) →
  ∃ flower,
    flowers db !! oi_flowerId d = Some flower
    ∧ is_Some (orders db !! oi_orderId d)
    ∧ 1 ≤ oi_quantity d ≤ stock flower
    ∧ id = newId (orderItems db)
    ∧ doc = Some (mkOrderItem (oi_flowerId d) (price flower) (oi_quantity d) (oi_orderId d))
    ∧ db1 = set_flowers (alter (inc_stock (- oi_quantity d)) (oi_flowerId d) (flowers db))
              (set_orderItems
                 (<[id := mkOrderItem (oi_flowerId d) (price flower) (oi_quantity d)
                            (oi_orderId d)]> (orderItems db)) db).
Proof.
  unfold createOrderItem. rewrite bind_run. unfold Flower_findById at 1.
  destruct (flowers db !! oi_flowerId d) as [flower|] eqn:Hfl; [|discriminate].
  rewrite bind_run. unfold Order_findById at 1.
  destruct (orders db !! oi_orderId d) as [order|] eqn:Hord; [|discriminate].
  destruct (stock flower <? oi_quantity d) eqn:Hlt; [discriminate|].
  apply Z.ltb_ge in Hlt.
  rewrite bind_run. unfold OrderItem_save. rewrite bind_run, asserts_run. simpl.
  destruct (1 <=? oi_quantity d) eqn:Hq; [|discriminate].
  apply Z.leb_le in Hq. simpl. rewrite bind_run, incStock_run, bind_run.
  unfold OrderItem_findById. cbn [orderItems set_flowers set_orderItems].
  rewrite lookup_insert_eq, ret_run. intros [= <- <- <-].
  exists flower. repeat split; eauto.
Qed.

(** X7: [createOrderItem] either throws and leaves the database as it was, or
    stores one new item holding the flower's current price and lowers that
    flower's stock by the quantity, which is at least 1 and at most the stock
    it read; the Order document, its [totalAmount] included, is not written. *)
Theorem createOrderItem_postcondition d db r db1 :
  createOrderItem d db = (r, db1) →
  match r with
  | inl _ => db1 = db
  | inr (id, doc) =>
      orderItems db !! id = None
      ∧ orderItems db1 !! id = doc
      ∧ doc = Some (mkOrderItem (oi_flowerId d) (priceOf db (oi_flowerId d)) (oi_quantity d)
                      (oi_orderId d))
      ∧ 1 ≤ oi_quantity d ≤ stockOf db (oi_flowerId d)
      ∧ stockOf db1 (oi_flowerId d) = stockOf db (oi_flowerId d) - oi_quantity d
      ∧ orders db1 = orders db
  end.
Proof.
  intros Hrun. destruct r as [e|[id doc]].
  - by destruct (createOrderItem_cases _ _ _ _ Hrun) as [(e' & _ & ->)|(x & ? & _)].
  - apply createOrderItem_inv in Hrun as (flower & Hfl & _ & Hq & -> & -> & ->).
    unfold priceOf, stockOf. simpl. rewrite Hfl, lookup_alter_eq, Hfl, lookup_insert_eq.
    simpl. repeat split; try lia.
    apply not_elem_of_dom. unfold newId. apply is_fresh.
Qed.

Lemma createOrderItem_postcondition_witness :
  stockOf (createOrderItem (mkOrderItemData 3 1 1) lastTulip).2 3 = 0.
Proof.
  destruct (createOrderItem (mkOrderItemData 3 1 1) lastTulip) as [[e|[id doc]] db1] eqn:E.
  - vm_compute in E. discriminate E.
  - destruct (createOrderItem_postcondition _ _ _ _ E) as (_ & _ & _ & _ & Hst & _).
    simpl in *. rewrite Hst. reflexivity.
Defined.

(** X8: deleting the item that [createOrderItem] has just created, while the
    order is still pending, gives back exactly the database from before the
    creation. *)
Theorem deleteOrderItem_undoes_createOrderItem d db id doc db1 order :
  createOrderItem d db = (inr (id, doc), db1) →
  orders db !! oi_orderId d = Some order →
  status order = pending →
  deleteOrderItem id db1 = (inr "Order item deleted successfully", db).
Proof.
  intros (flower & Hfl & _ & _ & Hid & _ & ->)%createOrderItem_inv Hord Hst.
  assert (Hfresh : orderItems db !! id = None).
  { rewrite Hid. apply not_elem_of_dom. unfold newId. apply is_fresh. }
  unfold deleteOrderItem. simpl. rewrite lookup_insert_eq. simpl. rewrite Hord, Hst.
  simpl. f_equal. unfold set_orderItems, set_flowers. simpl.
  rewrite alter_inc_stock_back, delete_insert_id by done. by destruct db.
Qed.

Lemma deleteOrderItem_undoes_createOrderItem_witness :
  ∃ id, deleteOrderItem id (createOrderItem (mkOrderItemData 3 1 1) lastTulip).2
        = (inr "Order item deleted successfully", lastTulip).
Proof.
  destruct (createOrderItem (mkOrderItemData 3 1 1) lastTulip) as [[e|[id doc]] db1] eqn:E.
  - vm_compute in E. discriminate E.
  - exists id. simpl.
    apply (deleteOrderItem_undoes_createOrderItem _ _ _ _ _
             (mkOrder 1 0 0 1000 None pending "12 Hang Bong" None None 1000) E);
      reflexivity.
Defined.

(** X9: [deleteOrderItem] either throws and leaves the database as it was, or
    the item's order was pending, the item is removed and the flower's stock is
    raised by the item's quantity; the Order document is not written, so its
    [totalAmount] still counts the deleted item. *)
Theorem deleteOrderItem_postcondition id db r db1 :
  deleteOrderItem id db = (r, db1) →
  match r with
  | inl _ => db1 = db
  | inr _ =>
      ∃ item order,
        orderItems db !! id = Some item
        ∧ orders db !! orderId item = Some order
        ∧ status order = pending
        ∧ orderItems db1 = delete id (orderItems db)
        ∧ flowers db1 = alter (inc_stock (quantity item)) (flowerId item) (flowers db)
        ∧ orders db1 = orders db
  end.
Proof.
  unfold deleteOrderItem.
  destruct (orderItems db !! id) as [item|] eqn:Hit; [|by intros [= <- <-]].
  destruct (orders db !! orderId item) as [order|] eqn:Hord; [|by intros [= <- <-]].
  destruct (bool_decide (status order = pending)) eqn:Hst; simpl; [|by intros [= <- <-]].
  apply bool_decide_eq_true in Hst. intros [= <- <-].
  exists item, order. by repeat split.
Qed.

Lemma deleteOrderItem_postcondition_witness :
  (deleteOrderItem 1 awaitingPayment).2 ≠ awaitingPayment
  ∧ (deleteOrderItem 1 afterPaid).2 = afterPaid.
Proof.
  split.
  - destruct (deleteOrderItem 1 awaitingPayment) as [[e|msg] db1] eqn:E.
    + vm_compute in E. discriminate E.
    + destruct (deleteOrderItem_postcondition _ _ _ _ E)
        as (item & order & Hit & _ & _ & Hdel & _).
      simpl. intros ->. rewrite Hdel, lookup_delete_eq in Hit. discriminate Hit.
  - destruct (deleteOrderItem 1 afterPaid) as [[e|msg] db1] eqn:E.
    + exact (deleteOrderItem_postcondition _ _ _ _ E).
    + vm_compute in E. discriminate E.
Defined.

Lemma updateOrderItem_inv now id q db it' db' :
  updateOrderItem now id q db = (inr it', db') →
  ∃ item order flower newQ,
    q = Some newQ ∧ newQ ≠ 0
    ∧ orderItems db !! id = Some item
    ∧ orders db !! orderId item = Some order
    ∧ status order = pending
    ∧ flowers db !! flowerId item = Some flower
    ∧ (0 < newQ - quantity item → newQ - quantity item ≤ stock flower)
    ∧ it' = with_quantity newQ item
    ∧ db' = applyQuantityChange now id item newQ db.
Proof.
  unfold updateOrderItem, updateOrderItem_session.
  destruct (orderItems db !! id) as [item|] eqn:Hit; [|discriminate].
  destruct (orders db !! orderId item) as [order|] eqn:Hord; [|discriminate].
  destruct (bool_decide (status order = pending)) eqn:Hst; simpl; [|discriminate].
  apply bool_decide_eq_true in Hst.
  destruct q as [newQ|]; [|discriminate].
  destruct (bool_decide (newQ = 0)) eqn:Hz; [discriminate|].
  apply bool_decide_eq_false in Hz.
  destruct (flowers db !! flowerId item) as [flower|] eqn:Hfl; [|discriminate].
  destruct ((0 <? newQ - quantity item) && (stock flower <? newQ - quantity item)) eqn:Hchk;
    [discriminate|].
  intros [= <- <-]. exists item, order, flower, newQ. repeat split; try done.
  intros Hpos. apply andb_false_iff in Hchk as [H%Z.ltb_ge|H%Z.ltb_ge]; lia.
Qed.

Lemma updateOrderItem_run now id db item order flower newQ :
  newQ ≠ 0 →
  orderItems db !! id = Some item →
  orders db !! orderId item = Some order →
  status order = pending →
  flowers db !! flowerId item = Some flower →
  (0 < newQ - quantity item → newQ - quantity item ≤ stock flower) →
  updateOrderItem now id (Some newQ) db
  = (inr (with_quantity newQ item), applyQuantityChange now id item newQ db).
Proof.
  intros Hz Hit Hord Hst Hfl Hchk. unfold updateOrderItem, updateOrderItem_session.
  rewrite Hit, Hord, Hst. simpl. rewrite bool_decide_eq_false_2 by done. rewrite Hfl.
  destruct ((0 <? newQ - quantity item) && (stock flower <? newQ - quantity item)) eqn:Hb;
    [|reflexivity].
  apply andb_true_iff in Hb as [H1%Z.ltb_lt H2%Z.ltb_lt]. specialize (Hchk H1). lia.
Qed.

(** X10: [updateOrderItem] either throws and leaves the database as it was,
    or the order was pending and the new quantity is not 0 (any other integer,
    a negative one included, is taken): the item then carries the new quantity,
    the flower's stock plus the item's quantity is what it was before, stock
    that was not negative stays so, and the order's [totalAmount] has moved by
    the item's price times the change of quantity. *)
Theorem updateOrderItem_postcondition now id q db r db' :
  updateOrderItem now id q db = (r, db') →
  match r with
  | inl _ => db' = db
  | inr it' =>
      ∃ item order newQ,
        q = Some newQ ∧ newQ ≠ 0
        ∧ orderItems db !! id = Some item
        ∧ orders db !! orderId item = Some order
        ∧ status order = pending
        ∧ it' = with_quantity newQ item
        ∧ orderItems db' !! id = Some it'
        ∧ stockOf db' (flowerId item) + newQ = stockOf db (flowerId item) + quantity item
        ∧ (0 ≤ stockOf db (flowerId item) → 0 ≤ stockOf db' (flowerId item))
        ∧ orders db' !! orderId item
          = Some (inc_totalAmount now (actualPrice item * (newQ - quantity item)) order)
  end.
Proof.
  intros Hrun. destruct r as [e|it'].
  - unfold updateOrderItem in Hrun.
    destruct (updateOrderItem_session now id q db) as [[?|?] ?];
      [by injection Hrun as _ <-|discriminate Hrun].
  - apply updateOrderItem_inv in Hrun
      as (item & order & flower & newQ & -> & Hz & Hit & Hord & Hst & Hfl & Hchk & -> & ->).
    exists item, order, newQ. unfold stockOf, applyQuantityChange. simpl.
    rewrite !lookup_alter_eq, Hit, Hord, Hfl. simpl.
    repeat split; try done; lia.
Qed.

Lemma updateOrderItem_postcondition_witness :
  stockOf (updateOrderItem 2000 1 (Some 4) awaitingPayment).2 1 = 1
  ∧ (updateOrderItem 2000 1 (Some 0) awaitingPayment).2 = awaitingPayment.
Proof.
  split.
  - destruct (updateOrderItem 2000 1 (Some 4) awaitingPayment) as [[e|it'] db'] eqn:E.
    + vm_compute in E. discriminate E.
    + destruct (updateOrderItem_postcondition _ _ _ _ _ _ E)
        as (item & order & newQ & Hq & _ & Hit & _ & _ & _ & _ & Hst & _).
      injection Hq as <-. vm_compute in Hit. injection Hit as <-.
      simpl in *. change (stockOf awaitingPayment 1) with 3 in Hst. lia.
  - destruct (updateOrderItem 2000 1 (Some 0) awaitingPayment) as [[e|it'] db'] eqn:E.
    + exact (updateOrderItem_postcondition _ _ _ _ _ _ E).
    + vm_compute in E. discriminate E.
Defined.

Lemma applyQuantityChange_twice now id item q1 q2 db :
  applyQuantityChange now id (with_quantity q1 item) q2 (applyQuantityChange now id item q1 db)
  = applyQuantityChange now id item q2 db.
Proof.
  unfold applyQuantityChange, set_orders, set_orderItems, set_flowers. simpl. f_equal.
  - apply map_eq. intros g. destruct (decide (flowerId item = g)) as [<-|Hne].
    + rewrite !lookup_alter_eq. destruct (flowers db !! flowerId item) as [[n p s]|]; [|done].
      simpl. unfold inc_stock. simpl. do 2 f_equal. lia.
    + by rewrite !lookup_alter_ne.
  - apply map_eq. intros g. destruct (decide (orderId item = g)) as [<-|Hne].
    + rewrite !lookup_alter_eq. destruct (orders db !! orderId item) as [o|]; [|done].
      simpl. unfold inc_totalAmount. simpl. do 2 f_equal. lia.
    + by rewrite !lookup_alter_ne.
  - apply map_eq. intros g. destruct (decide (id = g)) as [<-|Hne].
    + rewrite !lookup_alter_eq. by destruct (orderItems db !! id).
    + by rewrite !lookup_alter_ne.
Qed.

(** X11: two successful updates of an item in a row, first to one quantity
    and then to another, leave exactly the database (and return the item) that
    the single update to the second quantity would have given. *)
Theorem updateOrderItem_twice now id q1 q2 db it1 db1 it2 db2 :
  updateOrderItem now id (Some q1) db = (inr it1, db1) →
  updateOrderItem now id (Some q2) db1 = (inr it2, db2) →
  updateOrderItem now id (Some q2) db = (inr it2, db2).
Proof.
  intros (item & order & flower & ? & [= <-] & Hz1 & Hit & Hord & Hst & Hfl & Hchk1 & -> & ->)
           %updateOrderItem_inv.
  intros (item' & order' & flower' & ? & [= <-] & Hz2 & Hit' & Hord' & Hst' & Hfl' & Hchk2
           & -> & ->)%updateOrderItem_inv.
  unfold applyQuantityChange in Hit', Hfl'. simpl in Hit', Hfl'.
  rewrite lookup_alter_eq, Hit in Hit'. simpl in Hit'. injection Hit' as <-.
  simpl in Hfl', Hchk2. rewrite lookup_alter_eq, Hfl in Hfl'. simpl in Hfl'.
  injection Hfl' as <-. simpl in Hchk2.
  rewrite applyQuantityChange_twice.
  rewrite (updateOrderItem_run now id db item order flower q2) by (try done; lia).
  reflexivity.
Qed.

Lemma updateOrderItem_twice_witness :
  updateOrderItem 2000 1 (Some 3)
    (updateOrderItem 2000 1 (Some 5) awaitingPayment).2
  = updateOrderItem 2000 1 (Some 3) awaitingPayment.
Proof.
  destruct (updateOrderItem 2000 1 (Some 5) awaitingPayment) as [[e|it1] db1] eqn:E1;
    [vm_compute in E1; discriminate E1|].
  simpl.
  destruct (updateOrderItem 2000 1 (Some 3) db1) as [[e|it2] db2] eqn:E2.
  - exfalso. injection E1 as <- <-. vm_compute in E2. discriminate E2.
  - symmetry. exact (updateOrderItem_twice _ _ _ _ _ _ _ _ _ E1 E2).
Defined.

(** ** [cancelPaymentLink] *)

(** X12: when the gateway refuses the cancellation, [cancelPaymentLink] throws
    "Failed to cancel payment: ..." and writes nothing.  When the gateway
    accepts, it returns the gateway's answer, sets the Transaction of the order
    that carries the code to [cancelled] whatever its status was, and leaves
    every Order document, the order's status included, and the stock as they
    were. *)
Theorem cancelPaymentLink_effect {R} (gateway : string → string → string + R)
    now code reason db :
  (∀ msg, gateway code (default "Customer request" reason) = inl msg →
     cancelPaymentLink gateway now code reason db
     = (inl (GatewayError ("Failed to cancel payment: " +:+ msg)), db))
  ∧ (∀ result, gateway code (default "Customer request" reason) = inr result →
       (cancelPaymentLink gateway now code reason db).1 = inr result
       ∧ orders (cancelPaymentLink gateway now code reason db).2 = orders db
       ∧ flowers (cancelPaymentLink gateway now code reason db).2 = flowers db
       ∧ ∀ id o tid t,
           orderByCode db code = Some (id, o) → transactionId o = Some tid →
           transactions db !! tid = Some t →
           transactions (cancelPaymentLink gateway now code reason db).2 !! tid
           = Some (with_transactionStatus now tx_cancelled t)).
Proof.
  split.
  - intros msg Hgw. unfold cancelPaymentLink. by rewrite Hgw.
  - intros result Hgw. unfold cancelPaymentLink. rewrite Hgw, bind_run.
    unfold Order_findOne_paymentCode, orderByCode.
    destruct (findOne _ (orders db)) as [[id o]|] eqn:Hfind;
      [|repeat split; try reflexivity; intros; discriminate].
    destruct (transactionId o) as [tid|] eqn:Htid;
      [|repeat split; try reflexivity; intros; simplify_eq].
    rewrite bind_run. simpl. repeat split.
    intros id' o' tid' t [= <- <-] Htid' Ht. rewrite Htid in Htid'.
    injection Htid' as <-. by rewrite lookup_alter_eq, Ht.
Qed.

Lemma cancelPaymentLink_effect_witness :
  transactionStatus <$> transactions (cancelPaymentLink cancelOk 3000 "123456" None afterPaid).2
                          !! 1%positive = Some tx_cancelled
  ∧ status <$> orders (cancelPaymentLink cancelOk 3000 "123456" None afterPaid).2
                 !! 1%positive = Some paid
  ∧ (cancelPaymentLink cancelDown 3000 "123456" None afterPaid).2 = afterPaid.
Proof.
  destruct (cancelPaymentLink_effect cancelOk 3000 "123456" None afterPaid) as [_ Hok].
  destruct (Hok "Customer request" eq_refl) as (_ & Hord & _ & Htx).
  destruct (cancelPaymentLink_effect cancelDown 3000 "123456" None afterPaid) as [Hdown _].
  rewrite Hord, (Htx _ _ _ _ orderByCode_afterPaid eq_refl transaction_afterPaid).
  rewrite (Hdown "ETIMEDOUT" eq_refl). repeat split.
Defined.

(** ** The handlers on the other outcomes *)

(** X13: a redirect that is neither the PAID one ([code=00] with
    [status=PAID]) nor a cancel ([cancel=true]) writes nothing and answers
    "Payment failed"; in particular the Transaction is not marked [failed].
    The same holds for a PAID redirect when the order has no Transaction. *)
Theorem handlePaymentReturn_failed_outcome now q db code id o :
  q_orderCode q = Some code →
  orderByCode db code = Some (id, o) →
  (¬ (q_code q = Some "00" ∧ q_status q = Some "PAID") ∧ q_cancel q ≠ Some "true")
  ∨ (q_code q = Some "00" ∧ q_status q = Some "PAID" ∧ transactionId o = None) →
  handlePaymentReturn now q db = (inr (mkResult false "Payment failed" code id None), db).
Proof.
  intros Hcode Hfind Hcase. unfold handlePaymentReturn.
  rewrite Hcode, bind_run. unfold Order_findOne_paymentCode at 1.
  unfold orderByCode in Hfind. rewrite Hfind.
  destruct Hcase as [[Hnot Hnc]|(H00 & Hpaid & Hnone)].
  - destruct (bool_decide (q_code q = Some "00") && bool_decide (q_status q = Some "PAID"))
      eqn:Hb.
    { apply andb_true_iff in Hb as [H1%bool_decide_eq_true H2%bool_decide_eq_true]. tauto. }
    by rewrite bool_decide_eq_false_2.
  - rewrite H00, Hpaid. simpl. rewrite bind_run. unfold Transaction_findById.
    rewrite Hnone. reflexivity.
Qed.

Lemma handlePaymentReturn_failed_outcome_witness :
  handlePaymentReturn 2000 (mkQuery (Some "01") None None (Some "PENDING") (Some "123456"))
    awaitingPayment
  = (inr (mkResult false "Payment failed" "123456" 1 None), awaitingPayment).
Proof.
  apply (handlePaymentReturn_failed_outcome _ _ _ "123456" 1%positive
           (mkOrder 1 150000 0 1000 None pending "12 Hang Bong" (Some 1%positive)
              (Some "123456") 1500)); [reflexivity|vm_compute; reflexivity|].
  left. split; [intros [H _]; discriminate H|discriminate].
Defined.

Lemma updatePaymentStatus_frame now id tid db :
  let out := updatePaymentStatus now id tid db in
  accounts out.2 = accounts db ∧ flowers out.2 = flowers db
  ∧ orderItems out.2 = orderItems db ∧ transactions out.2 = transactions db
  ∧ (∀ e, out.1 = inl e → out.2 = db).
Proof.
  unfold updatePaymentStatus. rewrite bind_run. unfold Order_findById.
  destruct (orders db !! id); simpl; repeat split; done.
Qed.

(** X14: when [handlePaymentReturn] or [handlePaymentWebhook] throws, it has
    written nothing. *)
Theorem handlers_throw_before_writing payOS now db :
  (∀ q e db', handlePaymentReturn now q db = (inl e, db') → db' = db)
  ∧ (∀ w e db', handlePaymentWebhook payOS now w db = (inl e, db') → db' = db).
Proof.
  split.
  - intros q e db'. unfold handlePaymentReturn.
    destruct (q_orderCode q) as [code|]; [|by intros [= <- <-]].
    rewrite bind_run. unfold Order_findOne_paymentCode at 1.
    destruct (findOne _ (orders db)) as [[id o]|] eqn:Hfind; [|by intros [= <- <-]].
    apply findOne_lookup in Hfind as [Ho _].
    destruct (bool_decide (q_code q = Some "00") && bool_decide (q_status q = Some "PAID")).
    + rewrite bind_run. unfold Transaction_findById at 1.
      destruct (transactionId o) as [tid|]; simpl; [|discriminate].
      destruct (transactions db !! tid); [|discriminate].
      rewrite bind_run. unfold Transaction_setStatus at 1. simpl. rewrite bind_run.
      erewrite updatePaymentStatus_run by exact Ho. discriminate.
    + destruct (bool_decide (q_cancel q = Some "true")); [|discriminate].
      rewrite bind_run. unfold Transaction_findById at 1.
      destruct (transactionId o) as [tid|]; simpl; [|discriminate].
      destruct (transactions db !! tid); discriminate.
  - intros w e db'. unfold handlePaymentWebhook.
    destruct (payOS_verifyPaymentWebhookData payOS w) as [?|[|]];
      [by intros [= <- <-]| |by intros [= <- <-]].
    destruct (wh_orderCode w) as [code|]; [|by intros [= <- <-]].
    rewrite bind_run. unfold Order_findOne_paymentCode at 1.
    destruct (findOne _ (orders db)) as [[id o]|] eqn:Hfind; [|by intros [= <- <-]].
    apply findOne_lookup in Hfind as [Ho _].
    rewrite bind_run. unfold Transaction_findById at 1.
    destruct (transactionId o) as [tid|]; simpl; [|by intros [= <- <-]].
    destruct (transactions db !! tid); [|by intros [= <- <-]].
    rewrite bind_run.
    destruct (bool_decide (wh_status w = Some "PAID")).
    + rewrite bind_run. erewrite updatePaymentStatus_run by exact Ho. discriminate.
    + destruct (bool_decide (wh_status w = Some "CANCELLED")); discriminate.
Qed.

Lemma handlers_throw_before_writing_witness :
  (handlePaymentWebhook gatewayUp 2000 paidWebhook unlinkedOrder).2 = unlinkedOrder.
Proof.
  destruct (handlers_throw_before_writing gatewayUp 2000 unlinkedOrder) as [_ Hw].
  destruct (handlePaymentWebhook gatewayUp 2000 paidWebhook unlinkedOrder)
    as [[e|r] db'] eqn:E.
  - exact (Hw _ _ _ E).
  - vm_compute in E. discriminate E.
Defined.

Lemma handlePaymentReturn_frame now q db r db' :
  handlePaymentReturn now q db = (r, db') →
  flowers db' = flowers db ∧ orderItems db' = orderItems db ∧ accounts db' = accounts db.
Proof.
  unfold handlePaymentReturn.
  destruct (q_orderCode q) as [code|]; [|by intros [= <- <-]].
  rewrite bind_run. unfold Order_findOne_paymentCode at 1.
  destruct (findOne _ (orders db)) as [[id o]|] eqn:Hfind; [|by intros [= <- <-]].
  apply findOne_lookup in Hfind as [Ho _].
  destruct (bool_decide (q_code q = Some "00") && bool_decide (q_status q = Some "PAID")).
  - rewrite bind_run. unfold Transaction_findById at 1.
    destruct (transactionId o) as [tid|]; simpl; [|by intros [= <- <-]].
    destruct (transactions db !! tid); [|by intros [= <- <-]].
    rewrite bind_run. unfold Transaction_setStatus at 1. simpl. rewrite bind_run.
    erewrite updatePaymentStatus_run by exact Ho. by intros [= <- <-].
  - destruct (bool_decide (q_cancel q = Some "true")); [|by intros [= <- <-]].
    rewrite bind_run. unfold Transaction_findById at 1.
    destruct (transactionId o) as [tid|]; simpl; [|by intros [= <- <-]].
    destruct (transactions db !! tid); by intros [= <- <-].
Qed.

Lemma handlePaymentWebhook_frame payOS now w db r db' :
  handlePaymentWebhook payOS now w db = (r, db') →
  flowers db' = flowers db ∧ orderItems db' = orderItems db ∧ accounts db' = accounts db.
Proof.
  unfold handlePaymentWebhook.
  destruct (payOS_verifyPaymentWebhookData payOS w) as [?|[|]];
    [by intros [= <- <-]| |by intros [= <- <-]].
  destruct (wh_orderCode w) as [code|]; [|by intros [= <- <-]].
  rewrite bind_run. unfold Order_findOne_paymentCode at 1.
  destruct (findOne _ (orders db)) as [[id o]|] eqn:Hfind; [|by intros [= <- <-]].
  apply findOne_lookup in Hfind as [Ho _].
  rewrite bind_run. unfold Transaction_findById at 1.
  destruct (transactionId o) as [tid|]; simpl; [|by intros [= <- <-]].
  destruct (transactions db !! tid); [|by intros [= <- <-]].
  rewrite bind_run.
  destruct (bool_decide (wh_status w = Some "PAID")).
  - rewrite bind_run. erewrite updatePaymentStatus_run by exact Ho. by intros [= <- <-].
  - destruct (bool_decide (wh_status w = Some "CANCELLED")); by intros [= <- <-].
Qed.

(** X15: no payment outcome restocks: whatever the redirect or the webhook
    carries, the handlers leave flowers, order items and accounts as they
    were. *)
Theorem handlers_never_restock payOS now db :
  (∀ q, flowers (handlePaymentReturn now q db).2 = flowers db
        ∧ orderItems (handlePaymentReturn now q db).2 = orderItems db
        ∧ accounts (handlePaymentReturn now q db).2 = accounts db)
  ∧ (∀ w, flowers (handlePaymentWebhook payOS now w db).2 = flowers db
          ∧ orderItems (handlePaymentWebhook payOS now w db).2 = orderItems db
          ∧ accounts (handlePaymentWebhook payOS now w db).2 = accounts db).
Proof.
  split.
  - intros q. destruct (handlePaymentReturn now q db) as [r db'] eqn:E.
    exact (handlePaymentReturn_frame _ _ _ _ _ E).
  - intros w. destruct (handlePaymentWebhook payOS now w db) as [r db'] eqn:E.
    exact (handlePaymentWebhook_frame _ _ _ _ _ _ E).
Qed.

(** ** How the two channels compose *)

Lemma findOne_unique {A} (P : A → bool) (m : gmap positive A) id a :
  m !! id = Some a → P a = true →
  (∀ id' a', m !! id' = Some a' → P a' = true → id' = id) →
  findOne P m = Some (id, a).
Proof.
  intros Hm HP Huniq. unfold findOne, find.
  destruct (filter (λ kv, P kv.2) (map_to_list m)) as [|[id' a'] l] eqn:E.
  - assert (Hin : (id, a) ∈ filter (λ kv : ObjectId * A, P kv.2) (map_to_list m)).
    { apply list_elem_of_filter. split; [simpl; by rewrite HP|by apply elem_of_map_to_list]. }
    rewrite E in Hin. by apply elem_of_nil in Hin.
  - assert (Hin : (id', a') ∈ filter (λ kv : ObjectId * A, P kv.2) (map_to_list m))
      by (rewrite E; left).
    apply list_elem_of_filter in Hin as [HP' Hin]. apply elem_of_map_to_list in Hin.
    simpl in HP'. apply Is_true_true in HP'.
    assert (id' = id) as -> by eauto. simpl. congruence.
Qed.

Lemma orderByCode_alter db db' code id o (f : Order → Order) :
  orderByCode db code = Some (id, o) →
  codeUnique db code id →
  (∀ x, paymentCode (f x) = paymentCode x) →
  orders db' = alter f id (orders db) →
  orderByCode db' code = Some (id, f o) ∧ codeUnique db' code id.
Proof.
  intros [Ho Hp]%findOne_lookup Huniq Hf Hord.
  apply bool_decide_eq_true in Hp.
  assert (Huniq' : codeUnique db' code id).
  { intros id' o' Ho' Hp'. rewrite Hord in Ho'.
    destruct (decide (id = id')) as [<-|Hne]; [done|].
    rewrite lookup_alter_ne in Ho' by done. eauto. }
  split; [|done]. unfold orderByCode. apply findOne_unique.
  - by rewrite Hord, lookup_alter_eq, Ho.
  - apply bool_decide_eq_true. by rewrite Hf.
  - intros id' o' Ho' Hp'%bool_decide_eq_true. eauto.
Qed.

(** X16: two verified webhooks for the same payment code, one after the
    other: the Transaction ends with the status of the second, whatever the
    first wrote, and the Order is [paid] when either of them said PAID and
    otherwise keeps its status.  So PAID followed by CANCELLED leaves a paid
    order with a cancelled transaction. *)
Theorem webhooks_last_write_wins payOS now1 now2 w1 w2 db code id o tid t :
  payOS_verifyPaymentWebhookData payOS w1 = inr true →
  payOS_verifyPaymentWebhookData payOS w2 = inr true →
  wh_orderCode w1 = Some code →
  wh_orderCode w2 = Some code →
  orderByCode db code = Some (id, o) →
  codeUnique db code id →
  transactionId o = Some tid →
  transactions db !! tid = Some t →
  let db1 := (handlePaymentWebhook payOS now1 w1 db).2 in
  let db2 := (handlePaymentWebhook payOS now2 w2 db1).2 in
  transactionStatus <$> transactions db2 !! tid = Some (webhookStatus (wh_status w2))
  ∧ status <$> orders db2 !! id
    = Some (if bool_decide (wh_status w1 = Some "PAID")
               || bool_decide (wh_status w2 = Some "PAID")
            then paid else status o).
Proof.
  intros Hv1 Hv2 Hc1 Hc2 Hfind Huniq Htid Ht. cbv zeta.
  rewrite (handlePaymentWebhook_processed payOS now1 w1 db code id o tid t) by done.
  cbn [snd].
  pose proof (findOne_lookup _ _ _ _ Hfind) as [Ho _].
  destruct (bool_decide (wh_status w1 = Some "PAID")) eqn:Hp1.
  - remember (set_transactions _ _) as db1 eqn:Hdb1.
    assert (Ht1 : transactions db1 !! tid
                  = Some (with_transactionStatus now1 (webhookStatus (wh_status w1)) t)).
    { rewrite Hdb1. simpl. by rewrite lookup_alter_eq, Ht. }
    assert (Hord1 : orders db1 = alter (with_payment_status now1 tid) id (orders db))
      by (by rewrite Hdb1).
    destruct (orderByCode_alter db db1 code id o (with_payment_status now1 tid))
      as [Hfind1 _]; [done|done|done|done|].
    rewrite (handlePaymentWebhook_processed payOS now2 w2 db1 code id
               (with_payment_status now1 tid o) tid _ Hv2 Hc2 Hfind1 eq_refl Ht1).
    cbn [snd]. split.
    + cbn [transactions set_transactions]. by rewrite lookup_alter_eq, Ht1.
    + cbn [orders set_transactions orb].
      destruct (bool_decide (wh_status w2 = Some "PAID")); cbn [orders set_orders].
      * by rewrite lookup_alter_eq, Hord1, lookup_alter_eq, Ho.
      * by rewrite Hord1, lookup_alter_eq, Ho.
  - remember (set_transactions _ _) as db1 eqn:Hdb1.
    assert (Ht1 : transactions db1 !! tid
                  = Some (with_transactionStatus now1 (webhookStatus (wh_status w1)) t)).
    { rewrite Hdb1. simpl. by rewrite lookup_alter_eq, Ht. }
    assert (Hord1 : orders db1 = orders db) by (by rewrite Hdb1).
    assert (Hfind1 : orderByCode db1 code = Some (id, o)).
    { unfold orderByCode. rewrite Hord1. exact Hfind. }
    rewrite (handlePaymentWebhook_processed payOS now2 w2 db1 code id o tid _
               Hv2 Hc2 Hfind1 Htid Ht1).
    cbn [snd]. split.
    + cbn [transactions set_transactions]. by rewrite lookup_alter_eq, Ht1.
    + cbn [orders set_transactions orb].
      destruct (bool_decide (wh_status w2 = Some "PAID")); cbn [orders set_orders].
      * by rewrite lookup_alter_eq, Hord1, Ho.
      * by rewrite Hord1, Ho.
Qed.

Lemma codeUnique_awaitingPayment : codeUnique awaitingPayment "123456" 1.
Proof.
  intros id' o' Ho' _. destruct (decide (id' = 1%positive)) as [|Hne]; [done|].
  unfold awaitingPayment in Ho'. simpl in Ho'.
  by rewrite lookup_singleton_ne in Ho'.
Qed.

(** PAID, then CANCELLED: the order stays paid, its transaction is cancelled. *)
Lemma webhooks_last_write_wins_witness :
  let db1 := (handlePaymentWebhook gatewayUp 2000 paidWebhook awaitingPayment).2 in
  let db2 := (handlePaymentWebhook gatewayUp 3000 cancelledWebhook db1).2 in
  transactionStatus <$> transactions db2 !! 1%positive = Some tx_cancelled
  ∧ status <$> orders db2 !! 1%positive = Some paid.
Proof.
  apply (webhooks_last_write_wins gatewayUp 2000 3000 paidWebhook cancelledWebhook
           awaitingPayment "123456" 1%positive
           (mkOrder 1 150000 0 1000 None pending "12 Hang Bong" (Some 1%positive)
              (Some "123456") 1500)
           1%positive (mkTransaction 1 9 tx_pending 1500 150000 1500));
    try reflexivity.
  exact codeUnique_awaitingPayment.
Defined.

(** X17: for a PAID outcome, and for a CANCELLED outcome, the redirect and
    the verified webhook leave the same database: whichever channel delivers
    the event, the writes are the same. *)
Theorem redirect_and_webhook_agree payOS now db code id o tid t q w :
  orderByCode db code = Some (id, o) →
  transactionId o = Some tid →
  transactions db !! tid = Some t →
  q_orderCode q = Some code →
  wh_orderCode w = Some code →
  payOS_verifyPaymentWebhookData payOS w = inr true →
  (q_code q = Some "00" ∧ q_status q = Some "PAID" ∧ wh_status w = Some "PAID")
  ∨ (¬ (q_code q = Some "00" ∧ q_status q = Some "PAID") ∧ q_cancel q = Some "true"
     ∧ wh_status w = Some "CANCELLED") →
  (handlePaymentReturn now q db).2 = (handlePaymentWebhook payOS now w db).2.
Proof.
  intros Hfind Htid Ht Hqc Hwc Hver Hcase.
  rewrite (handlePaymentWebhook_processed payOS now w db code id o tid t) by done.
  destruct Hcase as [(H00 & Hpaid & Hw)|(Hnot & Hcancel & Hw)].
  - rewrite (handlePaymentReturn_paid now q db code id o tid t) by done.
    rewrite Hw. reflexivity.
  - rewrite (handlePaymentReturn_cancel now q db code id o tid t) by done.
    rewrite Hw. reflexivity.
Qed.

Lemma redirect_and_webhook_agree_witness :
  (handlePaymentReturn 2000 paidRedirect awaitingPayment).2
  = (handlePaymentWebhook gatewayUp 2000 paidWebhook awaitingPayment).2.
Proof.
  apply (redirect_and_webhook_agree gatewayUp 2000 awaitingPayment "123456" 1%positive
           (mkOrder 1 150000 0 1000 None pending "12 Hang Bong" (Some 1%positive)
              (Some "123456") 1500)
           1%positive (mkTransaction 1 9 tx_pending 1500 150000 1500));
    try reflexivity.
  left. repeat split.
Defined.

(** ** The reaper: what else a tick does and does not do *)

Lemma cancelExpiredOrder_frame now order db :
  flowers (cancelExpiredOrder now order db) = flowers db
  ∧ orderItems (cancelExpiredOrder now order db) = orderItems db
  ∧ accounts (cancelExpiredOrder now order db) = accounts db.
Proof. unfold cancelExpiredOrder. by destruct (transactionId order.2). Qed.

Lemma cancelExpiredOrders_frame now l : ∀ db,
  flowers (cancelExpiredOrders now l db) = flowers db
  ∧ orderItems (cancelExpiredOrders now l db) = orderItems db
  ∧ accounts (cancelExpiredOrders now l db) = accounts db.
Proof.
  induction l as [|order l IH]; intros db; [done|].
  change (cancelExpiredOrders now (order :: l) db)
    with (cancelExpiredOrders now l (cancelExpiredOrder now order db)).
  destruct (IH (cancelExpiredOrder now order db)) as (-> & -> & ->).
  apply cancelExpiredOrder_frame.
Qed.

Lemma cancelExpiredOrder_transactions now order db :
  transactions (cancelExpiredOrder now order db)
  = match transactionId order.2 with
    | Some tid => alter (with_transactionStatus now tx_cancelled) tid (transactions db)
    | None => transactions db
    end.
Proof. unfold cancelExpiredOrder. by destruct (transactionId order.2). Qed.

Lemma cancelExpiredOrders_transactions now l : ∀ db tid,
  transactions (cancelExpiredOrders now l db) !! tid
  = if decide (Some tid ∈ (λ order : ObjectId * Order, transactionId order.2) <$> l)
    then with_transactionStatus now tx_cancelled <$> transactions db !! tid
    else transactions db !! tid.
Proof.
  induction l as [|order l IH]; intros db tid.
  - destruct (decide (Some tid ∈ (λ order : ObjectId * Order, transactionId order.2) <$> []))
      as [Hin|_]; [|done]. by apply elem_of_nil in Hin.
  - change (cancelExpiredOrders now (order :: l) db)
      with (cancelExpiredOrders now l (cancelExpiredOrder now order db)).
    rewrite IH, cancelExpiredOrder_transactions, fmap_cons.
    destruct (decide (Some tid ∈ (λ order : ObjectId * Order, transactionId order.2) <$> l))
      as [Hin|Hnin];
      destruct (decide (Some tid ∈ transactionId order.2
                          :: ((λ order : ObjectId * Order, transactionId order.2) <$> l)))
      as [Hin'|Hnin'].
    + destruct (transactionId order.2) as [tid'|]; [|done].
      destruct (decide (tid' = tid)) as [->|Hne].
      * rewrite lookup_alter_eq. by destruct (transactions db !! tid).
      * by rewrite lookup_alter_ne.
    + exfalso. apply Hnin'. by right.
    + apply elem_of_cons in Hin' as [<-|?]; [|done]. by rewrite lookup_alter_eq.
    + destruct (transactionId order.2) as [tid'|]; [|done].
      rewrite lookup_alter_ne; [done|]. intros ->. apply Hnin'. by left.
Qed.

(** X18: a tick never restocks: flowers, order items and accounts are what
    they were, whatever the tick cancels. *)
Theorem reaper_never_restocks now db :
  flowers (checkAndCancelExpiredPayments now db) = flowers db
  ∧ orderItems (checkAndCancelExpiredPayments now db) = orderItems db
  ∧ accounts (checkAndCancelExpiredPayments now db) = accounts db.
Proof. apply cancelExpiredOrders_frame. Qed.

(** X19: a tick sets the Transaction linked from an expired pending order to
    [cancelled], and leaves alone every Transaction that no such order links
    to. *)
Theorem reaper_cancels_linked_transaction now db tid :
  (∀ id o, orders db !! id = Some o → expired now o = true → transactionId o = Some tid →
     transactions (checkAndCancelExpiredPayments now db) !! tid
     = with_transactionStatus now tx_cancelled <$> transactions db !! tid)
  ∧ ((∀ id o, orders db !! id = Some o → expired now o = true → transactionId o ≠ Some tid) →
     transactions (checkAndCancelExpiredPayments now db) !! tid = transactions db !! tid).
Proof.
  unfold checkAndCancelExpiredPayments. split.
  - intros id o Ho He Htid. rewrite cancelExpiredOrders_transactions.
    rewrite decide_True; [done|]. apply list_elem_of_fmap. exists (id, o).
    split; [done|]. unfold findExpiredOrders, find. apply list_elem_of_filter.
    split; [simpl; by rewrite He|by apply elem_of_map_to_list].
  - intros Hnone. rewrite cancelExpiredOrders_transactions.
    rewrite decide_False; [done|]. intros ([id o] & Htid & Hin)%list_elem_of_fmap.
    unfold findExpiredOrders, find in Hin. apply list_elem_of_filter in Hin as [He Hin].
    apply elem_of_map_to_list in Hin. simpl in *. apply Is_true_true in He.
    by apply (Hnone id o).
Qed.

Lemma reaper_cancels_linked_transaction_witness :
  transactionStatus <$> transactions
      (checkAndCancelExpiredPayments elevenMinutesLater awaitingPayment) !! 1%positive
  = Some tx_cancelled.
Proof.
  destruct (reaper_cancels_linked_transaction elevenMinutesLater awaitingPayment 1%positive)
    as [Hlinked _].
  rewrite (Hlinked 1%positive
             (mkOrder 1 150000 0 1000 None pending "12 Hang Bong" (Some 1%positive)
                (Some "123456") 1500)); reflexivity.
Defined.

(** X20: no sequence of ticks, at whatever times, touches an order that is
    not pending: a paid, confirmed, shipped, delivered or cancelled order
    comes out of every run of the reaper as it went in. *)
Theorem reaper_runs_keep_settled_orders times db id o :
  orders db !! id = Some o →
  status o ≠ pending →
  orders (runTicks times db) !! id = Some o.
Proof.
  revert db. induction times as [|now times IH]; intros db Ho Hst; [done|].
  change (runTicks (now :: times) db)
    with (runTicks times (checkAndCancelExpiredPayments now db)).
  apply IH; [|done]. rewrite checkAndCancelExpiredPayments_lookup, Ho. simpl.
  unfold reaped, expired. by rewrite bool_decide_eq_false_2.
Qed.

Lemma reaper_runs_keep_settled_orders_witness :
  status <$> orders (runTicks [elevenMinutesLater; elevenMinutesLater + 60000] afterPaid)
               !! 1%positive = Some paid.
Proof.
  rewrite (reaper_runs_keep_settled_orders _ afterPaid 1%positive
             (mkOrder 1 150000 0 1000 (Some 2000) paid "12 Hang Bong"
                (Some 1%positive) (Some "123456") 2000)).
  - reflexivity.
  - vm_compute. reflexivity.
  - discriminate.
Defined.

(** ** [getOrders] *)

Lemma getOrders_elem filters userId db id o :
  (id, o) ∈ getOrders filters userId db
  ↔ orders db !! id = Some o ∧ ordersQuery filters userId o = true.
Proof.
  unfold getOrders. rewrite merge_sort_Permutation. unfold find.
  rewrite list_elem_of_filter, elem_of_map_to_list. simpl.
  rewrite Is_true_true. tauto.
Qed.

Lemma ordersQuery_spec filters userId o :
  ordersQuery filters userId o = true
  ↔ (∀ uid, userId = Some uid → accountId o = uid)
    ∧ (∀ s, filter_status filters = Some s → s ∈ validStatuses → statusName (status o) = s)
    ∧ (∀ d, filter_startDate filters = Some d → d ≤ orderAt o)
    ∧ (∀ d, filter_endDate filters = Some d → orderAt o ≤ d).
Proof.
  unfold ordersQuery. rewrite !andb_true_iff. split.
  - intros [[[Hu Hs] Hsd] Hed]. repeat split.
    + intros uid ->. by apply bool_decide_eq_true in Hu.
    + intros s Hfs Hvalid. rewrite Hfs in Hs.
      destruct (bool_decide (s = "")) eqn:He.
      { apply bool_decide_eq_true in He. subst s.
        apply (bool_decide_pack _) in Hvalid. vm_compute in Hvalid. destruct Hvalid. }
      rewrite bool_decide_eq_true_2 in Hs by done. by apply bool_decide_eq_true in Hs.
    + intros d Hd. rewrite Hd in Hsd. by apply Z.leb_le.
    + intros d Hd. rewrite Hd in Hed. by apply Z.leb_le.
  - intros (Hu & Hs & Hsd & Hed). repeat split.
    + destruct userId as [uid|]; [|done]. apply bool_decide_eq_true. by apply Hu.
    + destruct (filter_status filters) as [s|]; [|done].
      destruct (bool_decide (s = "")); [done|].
      destruct (bool_decide (s ∈ validStatuses)) eqn:Hv; [|done].
      apply bool_decide_eq_true in Hv. apply bool_decide_eq_true. by apply Hs.
    + destruct (filter_startDate filters) as [d|]; [|done]. apply Z.leb_le. by apply Hsd.
    + destruct (filter_endDate filters) as [d|]; [|done]. apply Z.leb_le. by apply Hed.
Qed.

(** X21: [getOrders] returns exactly the stored orders that belong to the
    given user (when one is given), carry the requested status (when it is one
    of the six status names) and were placed within the given dates (each
    bound when given); the list is ordered newest first; and [getUserOrders]
    returns exactly the orders of that user. *)
Theorem getOrders_selects filters userId db :
  (∀ id o,
     (id, o) ∈ getOrders filters userId db
     ↔ orders db !! id = Some o
       ∧ (∀ uid, userId = Some uid → accountId o = uid)
       ∧ (∀ s, filter_status filters = Some s → s ∈ validStatuses →
               statusName (status o) = s)
       ∧ (∀ d, filter_startDate filters = Some d → d ≤ orderAt o)
       ∧ (∀ d, filter_endDate filters = Some d → orderAt o ≤ d))
  ∧ StronglySorted newerFirst (getOrders filters userId db)
  ∧ (∀ uid id o,
       (id, o) ∈ getUserOrders uid db ↔ orders db !! id = Some o ∧ accountId o = uid).
Proof.
  split; [|split].
  - intros id o. by rewrite getOrders_elem, ordersQuery_spec.
  - unfold getOrders. apply StronglySorted_merge_sort; apply _.
  - intros uid id o. unfold getUserOrders. rewrite getOrders_elem, ordersQuery_spec. simpl.
    split.
    + intros (Ho & Hu & _). split; [done|]. by apply Hu.
    + intros [Ho Hu]. split; [done|]. repeat split; try done. by intros ? [= <-].
Qed.

Lemma getOrders_selects_witness :
  (1%positive, mkOrder 1 150000 0 1000 None pending "12 Hang Bong" (Some 1%positive)
                 (Some "123456") 1500) ∈ getUserOrders 1 awaitingPayment.
Proof.
  destruct (getOrders_selects (mkFilters None None None) (Some 1%positive) awaitingPayment)
    as (_ & _ & Huser).
  apply Huser. split; reflexivity.
Defined.

(** X22: a status filter that is not one of the six status names is dropped
    without an error: the call returns what it returns with no status filter
    at all. *)
Theorem getOrders_ignores_unknown_status s startDate endDate userId db :
  s ∉ validStatuses →
  getOrders (mkFilters (Some s) startDate endDate) userId db
  = getOrders (mkFilters None startDate endDate) userId db.
Proof.
  intros Hs. unfold getOrders, find. f_equal. apply list_filter_iff.
  intros [id o]. unfold ordersQuery. simpl.
  destruct (bool_decide (s = "")); [done|].
  by rewrite (bool_decide_eq_false_2 (s ∈ validStatuses)).
Qed.

Lemma getOrders_ignores_unknown_status_witness :
  getOrders (mkFilters (Some "refunded") None None) None afterPaid
  = getOrders (mkFilters None None None) None afterPaid.
Proof.
  apply getOrders_ignores_unknown_status.
  intros H. apply (bool_decide_pack _) in H. vm_compute in H. exact H.
Defined.

(** ** [createPaymentLink] and the other services *)

(** X23: when the generated code is already the [paymentCode] of another
    order, [createPaymentLink] throws the duplicate-key error of the Order
    update after it has saved the new [pending] Transaction: that Transaction
    stays in the collection, linked from no order, and the order is as it
    was. *)
Theorem createPaymentLink_code_collision payOS env now rand req db o account items :
  orders db !! req_orderId req = Some o →
  status o = pending →
  paymentItems db (itemsOf db (req_orderId req)) = inr items →
  accounts db !! accountId o = Some account →
  0 ≤ totalAmount o →
  paymentCodeFree db (req_orderId req) (pretty (generateUniquePaymentCode now rand)) = false →
  createPaymentLink payOS env now rand req db
  = (inl (DuplicateKey "paymentCode"),
     set_transactions
       (<[newId (transactions db) := pendingTransaction env now o]> (transactions db)) db).
Proof.
  intros Ho Hst Hitems Hacc Hamt Htaken.
  unfold createPaymentLink. rewrite bind_run. unfold Order_findById at 1.
  rewrite Ho, Hst. simpl. rewrite bind_run. simpl.
  unfold itemsOf in Hitems. rewrite Hitems, Hacc.
  rewrite bind_run. unfold Transaction_save. rewrite bind_run, asserts_run. simpl.
  apply Z.leb_le in Hamt. rewrite Hamt. simpl.
  rewrite bind_run. unfold Order_setPayment. rewrite (bind_run get). unfold get at 1.
  rewrite bind_run, asserts_run.
  assert (Htaken' : paymentCodeFree
            (set_transactions (<[newId (transactions db) := pendingTransaction env now o]>
                                 (transactions db)) db)
            (req_orderId req) (pretty (generateUniquePaymentCode now rand)) = false)
    by exact Htaken.
  unfold pendingTransaction in Htaken'. rewrite Htaken'. reflexivity.
Qed.

Lemma createPaymentLink_code_collision_witness :
  ∃ db', createPaymentLink gatewayUp env0 2000 7 linkRequest codeTaken
         = (inl (DuplicateKey "paymentCode"), db')
    ∧ size (transactions db') = 2%nat
    ∧ orders db' = orders codeTaken.
Proof.
  eexists. split.
  - apply (createPaymentLink_code_collision gatewayUp env0 2000 7 linkRequest codeTaken
             (mkOrder 1 150000 0 1000 None pending "12 Hang Bong" None None 1000)
             (mkAccount "An" "an@example.com" "0900000000")
             [mkPaymentItem "rose" 2 7500000]);
      try (vm_compute; reflexivity). vm_compute. discriminate.
  - split; [vm_compute; reflexivity|reflexivity].
Defined.

(** X24: once an order is settled it gets no payment link: after the PAID
    redirect has been handled, and after a reaper tick has cancelled the
    order, [createPaymentLink] for it throws "Order is not in pending status"
    and writes nothing. *)
Theorem no_payment_link_after_settlement payOS env now now' rand req db code o tid t :
  orderByCode db code = Some (req_orderId req, o) →
  transactionId o = Some tid →
  transactions db !! tid = Some t →
  (∀ q, q_orderCode q = Some code → q_code q = Some "00" → q_status q = Some "PAID" →
        createPaymentLink payOS env now' rand req (handlePaymentReturn now q db).2
        = (inl OrderNotPending, (handlePaymentReturn now q db).2))
  ∧ (expired now o = true →
     createPaymentLink payOS env now' rand req (checkAndCancelExpiredPayments now db)
     = (inl OrderNotPending, checkAndCancelExpiredPayments now db)).
Proof.
  intros Hfind Htid Ht. pose proof (findOne_lookup _ _ _ _ Hfind) as [Ho _]. split.
  - intros q Hcode H00 Hpaid.
    rewrite (handlePaymentReturn_paid now q db code (req_orderId req) o tid t) by done.
    cbn [snd]. apply (createPaymentLink_not_pending _ _ _ _ _ _ (with_payment_status now tid o)).
    + simpl. by rewrite lookup_alter_eq, Ho.
    + discriminate.
  - intros He.
    apply (createPaymentLink_not_pending _ _ _ _ _ _ (with_cancelled now o)).
    + rewrite checkAndCancelExpiredPayments_lookup, Ho. simpl. unfold reaped. by rewrite He.
    + discriminate.
Qed.

Lemma no_payment_link_after_settlement_witness :
  (createPaymentLink gatewayUp env0 3000 8 linkRequest afterPaid).1 = inl OrderNotPending.
Proof.
  destruct (no_payment_link_after_settlement gatewayUp env0 2000 3000 8 linkRequest
              awaitingPayment "123456"
              (mkOrder 1 150000 0 1000 None pending "12 Hang Bong" (Some 1%positive)
                 (Some "123456") 1500)
              1%positive (mkTransaction 1 9 tx_pending 1500 150000 1500)
              eq_refl eq_refl eq_refl) as [Hpaid _].
  unfold afterPaid. rewrite (Hpaid paidRedirect); reflexivity.
Defined.

Lemma orderByCode_after_tick now db code id o :
  orderByCode db code = Some (id, o) →
  codeUnique db code id →
  orderByCode (checkAndCancelExpiredPayments now db) code = Some (id, reaped now o).
Proof.
  intros [Ho Hp]%findOne_lookup Huniq. apply bool_decide_eq_true in Hp.
  assert (Hcode : ∀ x, paymentCode (reaped now x) = paymentCode x).
  { intros x. unfold reaped. by destruct (expired now x). }
  unfold orderByCode. apply findOne_unique.
  - by rewrite checkAndCancelExpiredPayments_lookup, Ho.
  - apply bool_decide_eq_true. by rewrite Hcode.
  - intros id' o' Ho' Hp'%bool_decide_eq_true.
    rewrite checkAndCancelExpiredPayments_lookup in Ho'.
    destruct (orders db !! id') as [x|] eqn:Hx; [|done]. simpl in Ho'.
    injection Ho' as <-. rewrite Hcode in Hp'. eauto.
Qed.

(** X25: a payment that arrives after the timeout still counts: when a tick
    has cancelled the expired order and its Transaction, a verified PAID
    webhook for the order's code turns the Order to [paid] and the Transaction
    to [completed]. *)
Theorem payment_after_timeout_marks_paid payOS now now' w db code id o tid t :
  orderByCode db code = Some (id, o) →
  codeUnique db code id →
  expired now o = true →
  transactionId o = Some tid →
  transactions db !! tid = Some t →
  payOS_verifyPaymentWebhookData payOS w = inr true →
  wh_orderCode w = Some code →
  wh_status w = Some "PAID" →
  let db1 := checkAndCancelExpiredPayments now db in
  let db2 := (handlePaymentWebhook payOS now' w db1).2 in
  status <$> orders db1 !! id = Some cancelled
  ∧ transactionStatus <$> transactions db1 !! tid = Some tx_cancelled
  ∧ status <$> orders db2 !! id = Some paid
  ∧ transactionStatus <$> transactions db2 !! tid = Some tx_completed.
Proof.
  intros Hfind Huniq He Htid Ht Hver Hcode Hst. cbv zeta.
  pose proof (findOne_lookup _ _ _ _ Hfind) as [Ho _].
  pose proof (orderByCode_after_tick now db code id o Hfind Huniq) as Hfind1.
  unfold reaped in Hfind1. rewrite He in Hfind1.
  assert (Ht1 : transactions (checkAndCancelExpiredPayments now db) !! tid
                = Some (with_transactionStatus now tx_cancelled t)).
  { unfold checkAndCancelExpiredPayments. rewrite cancelExpiredOrders_transactions.
    rewrite decide_True; [by rewrite Ht|]. apply list_elem_of_fmap. exists (id, o).
    split; [done|]. unfold findExpiredOrders, find. apply list_elem_of_filter.
    split; [simpl; by rewrite He|by apply elem_of_map_to_list]. }
  assert (Ho1 : orders (checkAndCancelExpiredPayments now db) !! id
                = Some (with_cancelled now o)).
  { rewrite checkAndCancelExpiredPayments_lookup, Ho. simpl. unfold reaped. by rewrite He. }
  rewrite (handlePaymentWebhook_processed payOS now' w _ code id (with_cancelled now o) tid _
             Hver Hcode Hfind1 Htid Ht1).
  rewrite Hst, Ho1, Ht1. cbn [snd]. simpl.
  by rewrite !lookup_alter_eq, Ho1, Ht1.
Qed.

Lemma payment_after_timeout_marks_paid_witness :
  let db1 := checkAndCancelExpiredPayments elevenMinutesLater awaitingPayment in
  let db2 := (handlePaymentWebhook gatewayUp (elevenMinutesLater + 5000) paidWebhook db1).2 in
  status <$> orders db1 !! 1%positive = Some cancelled
  ∧ status <$> orders db2 !! 1%positive = Some paid.
Proof.
  destruct (payment_after_timeout_marks_paid gatewayUp elevenMinutesLater
              (elevenMinutesLater + 5000) paidWebhook awaitingPayment "123456" 1%positive
              (mkOrder 1 150000 0 1000 None pending "12 Hang Bong" (Some 1%positive)
                 (Some "123456") 1500)
              1%positive (mkTransaction 1 9 tx_pending 1500 150000 1500)
              eq_refl codeUnique_awaitingPayment eq_refl eq_refl eq_refl eq_refl eq_refl
              eq_refl)
    as (H1 & _ & H2 & _).
  split; [exact H1|exact H2].
Defined.

(** ** Stock and the units held by order items *)

Lemma sum_Permutation (l l' : list Z) : l ≡ₚ l' → foldr Z.add 0 l = foldr Z.add 0 l'.
Proof. induction 1; simpl; lia. Qed.

Lemma heldIn_insert m k it f :
  m !! k = None → heldIn (<[k := it]> m) f = unitsOf f it + heldIn m f.
Proof.
  intros Hk. unfold heldIn.
  rewrite (sum_Permutation _ (unitsOf f <$> ((k, it) :: map_to_list m).*2)); [done|].
  by rewrite map_to_list_insert.
Qed.

Lemma heldIn_delete m k it f :
  m !! k = Some it → heldIn m f = unitsOf f it + heldIn (delete k m) f.
Proof.
  intros Hk. unfold heldIn.
  rewrite (sum_Permutation _ (unitsOf f <$> ((k, it) :: map_to_list (delete k m)).*2));
    [done|]. by rewrite map_to_list_delete.
Qed.

Lemma heldIn_alter m k it g f :
  m !! k = Some it →
  heldIn (alter g k m) f + unitsOf f it = heldIn m f + unitsOf f (g it).
Proof.
  intros Hk.
  rewrite (heldIn_delete m k it f Hk).
  rewrite (heldIn_delete (alter g k m) k (g it) f) by (by rewrite lookup_alter_eq, Hk).
  assert (delete k (alter g k m) = delete k m) as ->; [|lia].
  apply map_eq. intros j. destruct (decide (k = j)) as [<-|Hne].
  - by rewrite !lookup_delete_eq.
  - by rewrite !lookup_delete_ne, lookup_alter_ne.
Qed.

Lemma heldIn_insertMany docs f : ∀ m,
  heldIn (foldl (λ m d, <[newId m := d]> m) m docs) f
  = foldr Z.add 0 (unitsOf f <$> docs) + heldIn m f.
Proof.
  intros m. unfold heldIn.
  rewrite (sum_Permutation _ (unitsOf f <$> (docs ++ (map_to_list m).*2))).
  - rewrite fmap_app, foldr_app.
    generalize (foldr Z.add 0 (unitsOf f <$> (map_to_list m).*2)). intros z.
    induction docs as [|d docs IH]; [simpl; lia|].
    rewrite fmap_cons. cbn [foldr]. lia.
  - by rewrite insertMany_elements.
Qed.

Lemma unitsOf_newOrderItems db items id f :
  foldr Z.add 0 (unitsOf f <$> newOrderItems db items id) = requested f items.
Proof.
  induction items as [|it items IH]; [done|].
  change (newOrderItems db (it :: items) id)
    with (mkOrderItem (item_flowerId it) (priceOf db (item_flowerId it)) (item_quantity it) id
            :: newOrderItems db items id).
  change (requested f (it :: items))
    with (if decide (item_flowerId it = f) then item_quantity it + requested f items
          else requested f items).
  rewrite fmap_cons. cbn [foldr]. rewrite IH. unfold unitsOf. simpl.
  destruct (decide (item_flowerId it = f)); lia.
Qed.

(** X26: the units in stock plus the units held by order items are conserved,
    flower by flower, by [createOrder], [createOrderItem] and
    [updateOrderItem], whether they return or throw, and by [deleteOrderItem]
    when the deleted item's flower still exists. *)
Theorem stock_plus_held_conserved f :
  (∀ faults now od uid db r db',
     createOrder faults now od uid db = (r, db') →
     stockOf db' f + unitsHeld db' f = stockOf db f + unitsHeld db f)
  ∧ (∀ d db r db',
       createOrderItem d db = (r, db') →
       stockOf db' f + unitsHeld db' f = stockOf db f + unitsHeld db f)
  ∧ (∀ now id q db r db',
       updateOrderItem now id q db = (r, db') →
       stockOf db' f + unitsHeld db' f = stockOf db f + unitsHeld db f)
  ∧ (∀ id db r db',
       deleteOrderItem id db = (r, db') →
       (∀ it, orderItems db !! id = Some it → is_Some (flowers db !! flowerId it)) →
       stockOf db' f + unitsHeld db' f = stockOf db f + unitsHeld db f).
Proof.
  split; [|split; [|split]].
  - intros faults now od uid db r db'. unfold createOrder.
    destruct (createOrder_session faults now od uid db) as [[e|id] tx] eqn:Hsession;
      [by intros [= <- <-]|].
    assert (Htx : stockOf tx f + unitsHeld tx f = stockOf db f + unitsHeld db f).
    { pose proof (createOrder_session_items _ _ _ _ _ _ _ Hsession) as Hitems.
      apply createOrder_session_inv in Hsession
        as (tot & acc & db1 & total & fee & Hloop & _ & _ & _ & _ & _ & _ & Hfl & _).
      unfold unitsHeld. rewrite Hitems, heldIn_insertMany, unitsOf_newOrderItems.
      unfold stockOf at 1. rewrite Hfl.
      pose proof (reserveItems_stock _ _ _ _ _ _ _ _ Hloop f) as Hst.
      unfold stockOf in Hst at 1. rewrite Hst. lia. }
    destruct (faults ReadBack); [by intros [= <- <-]|].
    unfold getOrderById. rewrite bind_run. unfold Order_findById.
    destruct (orders tx !! id); by intros [= <- <-].
  - intros d db [e|[id doc]] db' Hrun.
    + by destruct (createOrderItem_cases _ _ _ _ Hrun) as [(e' & _ & ->)|(x & ? & _)].
    + apply createOrderItem_inv in Hrun as (flower & Hfl & _ & _ & -> & _ & ->).
      unfold unitsHeld, stockOf. simpl.
      rewrite heldIn_insert by (apply not_elem_of_dom; unfold newId; apply is_fresh).
      unfold unitsOf. simpl. destruct (decide (oi_flowerId d = f)) as [<-|Hne].
      * rewrite lookup_alter_eq, Hfl. simpl. lia.
      * rewrite lookup_alter_ne by done. lia.
  - intros now id q db [e|it'] db' Hrun.
    + unfold updateOrderItem in Hrun.
      destruct (updateOrderItem_session now id q db) as [[?|?] ?];
        [by injection Hrun as _ <-|discriminate Hrun].
    + apply updateOrderItem_inv in Hrun
        as (item & order & flower & newQ & -> & _ & Hit & _ & _ & Hfl & _ & -> & ->).
      unfold unitsHeld, stockOf, applyQuantityChange. simpl.
      pose proof (heldIn_alter (orderItems db) id item (with_quantity newQ) f Hit) as Hheld.
      unfold unitsOf in Hheld. simpl in Hheld.
      destruct (decide (flowerId item = f)) as [<-|Hne].
      * rewrite lookup_alter_eq, Hfl. simpl. lia.
      * rewrite lookup_alter_ne by done. lia.
  - intros id db r db'. unfold deleteOrderItem.
    destruct (orderItems db !! id) as [item|] eqn:Hit; [|by intros [= <- <-]].
    destruct (orders db !! orderId item) as [order|]; [|by intros [= <- <-]].
    destruct (bool_decide (status order = pending)); simpl; [|by intros [= <- <-]].
    intros [= <- <-] Hpresent. destruct (Hpresent item eq_refl) as [flower Hfl].
    unfold unitsHeld, stockOf. simpl.
    rewrite (heldIn_delete (orderItems db) id item f Hit). unfold unitsOf.
    destruct (decide (flowerId item = f)) as [<-|Hne].
    + rewrite lookup_alter_eq, Hfl. simpl. lia.
    + rewrite lookup_alter_ne by done. lia.
Qed.

Lemma stock_plus_held_conserved_witness :
  stockOf (deleteOrderItem 1 awaitingPayment).2 1 + unitsHeld (deleteOrderItem 1 awaitingPayment).2 1
  = 5.
Proof.
  destruct (stock_plus_held_conserved 1%positive) as (_ & _ & _ & Hdel).
  rewrite (Hdel 1%positive awaitingPayment (deleteOrderItem 1 awaitingPayment).1
             (deleteOrderItem 1 awaitingPayment).2).
  - vm_compute. reflexivity.
  - by destruct (deleteOrderItem 1 awaitingPayment).
  - intros it Hit. vm_compute in Hit. injection Hit as <-. vm_compute. eauto.
Defined.
